(** * Interactive fact store over three per-model vector collections

    A shallow embedding of [ingest_knowledge_interactive.py]: the text
    formatter, the model registry, the import-file validation, the query
    result filter and the interactive commands that read and write the
    per-model collections, followed by the properties established for
    them. *)

From stdpp Require Import gmap strings list fin_maps.
From Stdlib Require Import Ascii ZArith Lia.

Set Warnings "-register-all".

(** ** Python strings

    A [str] is modelled by its UTF-8 bytes.  [str.lower] is modelled on the
    ASCII letters; the patterns the program searches for ("bge", "e5",
    "query") contain no letter that a non-ASCII character lowers to, so the
    tests of [format_for_embedding] are exact on every input.  The schema
    filter lower-cases and strips what the user and the files supply; there
    the model is that of ASCII text. *)

Module PyStr.

Definition lower_ascii (c : ascii) : ascii :=
  let n := nat_of_ascii c in
  if (65 <=? n)%nat && (n <=? 90)%nat then ascii_of_nat (n + 32) else c.

Fixpoint lower (s : string) : string :=
  match s with
  | EmptyString => EmptyString
  | String c s' => String (lower_ascii c) (lower s')
  end.

(** [sub in s] *)
Fixpoint contains (sub s : string) : bool :=
  String.prefix sub s ||
  match s with
  | EmptyString => false
  | String _ s' => contains sub s'
  end.

(** [s.endswith(suffix)]: some tail of [s] is [suffix]. *)
Fixpoint endswith (s suffix : string) : bool :=
  String.eqb s suffix ||
  match s with
  | EmptyString => false
  | String _ s' => endswith s' suffix
  end.

(** The ASCII characters [str.strip()] removes. *)
Definition is_space (c : ascii) : bool :=
  let n := nat_of_ascii c in
  ((9 <=? n)%nat && (n <=? 13)%nat) || ((28 <=? n)%nat && (n <=? 32)%nat).

Fixpoint lstrip (drop : ascii -> bool) (s : string) : string :=
  match s with
  | EmptyString => EmptyString
  | String c s' => if drop c then lstrip drop s' else s
  end.

(** A character stays when it is not dropped or when something stays
    after it. *)
Fixpoint rstrip (drop : ascii -> bool) (s : string) : string :=
  match s with
  | EmptyString => EmptyString
  | String c s' =>
      match rstrip drop s' with
      | EmptyString => if drop c then EmptyString else String c EmptyString
      | t => String c t
      end
  end.

(** [s.strip()] and [s.strip(chars)] *)
Definition strip (s : string) : string := rstrip is_space (lstrip is_space s).

Definition strip_chars (chars : list ascii) (s : string) : string :=
  let drop c := bool_decide (c ∈ chars) in
  rstrip drop (lstrip drop s).

(** The ASCII line boundaries of [str.splitlines]. *)
Definition is_linebreak (c : ascii) : bool :=
  bool_decide (nat_of_ascii c ∈ [10; 11; 12; 13; 28; 29; 30]).

Fixpoint splitlines_from (cur : string) (after_cr : bool) (s : string) : list string :=
  match s with
  | EmptyString => match cur with EmptyString => [] | _ => [cur] end
  | String c s' =>
      if after_cr && Ascii.eqb c "010" then splitlines_from EmptyString false s'
      else if is_linebreak c then
        cur :: splitlines_from EmptyString (Ascii.eqb c "013") s'
      else splitlines_from (cur +:+ String c EmptyString) false s'
  end.

Definition splitlines (s : string) : list string :=
  splitlines_from EmptyString false s.

(** [line.split(':', 1)[1]], when there is a colon. *)
Fixpoint after_colon (line : string) : option string :=
  match line with
  | EmptyString => None
  | String c s' => if Ascii.eqb c ":" then Some s' else after_colon s'
  end.

End PyStr.

(** ** Model registry *)

(** [dict.get(k)] on a dictionary kept in insertion order. *)
Fixpoint dict_get {A : Type} (d : list (string * A)) (k : string) : option A :=
  match d with
  | [] => None
  | (k', v) :: d' => if String.eqb k' k then Some v else dict_get d' k
  end.

Definition model_map : list (string * (string * string)) :=
  [ ("bge-base", ("BAAI/bge-base-en-v1.5", "bge_base_"));
    ("bge-large", ("BAAI/bge-large-en-v1.5", "bge_large_"));
    ("e5-large", ("intfloat/e5-large-v2", "e5_large_"));
    ("bb", ("BAAI/bge-base-en-v1.5", "bge_base_"));
    ("bl", ("BAAI/bge-large-en-v1.5", "bge_large_"));
    ("e5", ("intfloat/e5-large-v2", "e5_large_")) ].

(** [model_map.get(model_input, model_map["bge-base"])] *)
Definition resolve_embedding_model (model_input : string) : string * string :=
  match dict_get model_map model_input with
  | Some p => p
  | None => default ("", "") (dict_get model_map "bge-base")
  end.

(** ** Model-aware formatting *)

Definition bge_query_prefix : string :=
  "Represent this sentence for searching relevant passages: ".

Definition format_for_embedding (text model_name mode : string) : string :=
  let m := PyStr.lower model_name in
  let mode := PyStr.lower mode in
  if PyStr.contains "bge" m then
    if String.eqb mode "query" then bge_query_prefix +:+ text
    else text
  else if PyStr.contains "e5" m then
    if String.eqb mode "query" then "query: " +:+ text
    else "passage: " +:+ text
  else text.

(** ** Data

    The contents of an import file after [json.load] (numbers are the
    integers; a dictionary keeps its keys in file order). *)

Inductive json : Type :=
| JNull
| JBool (b : bool)
| JNum (n : Z)
| JStr (s : string)
| JList (l : list json)
| JDict (d : list (string * json)).

(** A stored fact: what [get()] and [query()] return for one id. *)
Record row : Type := Row {
  row_id : string;
  row_doc : string;
  row_meta : list (string * json)
}.

(** Python exceptions that the program can meet. *)
Inductive exn : Type :=
| KeyError (key : string)
| TypeError
| AttributeError
| ValueError
| IndexError
| DuplicateIDError
| ServiceError (collection : string).

(** What the program prints or logs. *)
Inductive event : Type :=
| EvCleared (n : nat) (collection : string)
| EvNoFactsStored
| EvStoredEntry (idx : nat) (doc : string) (meta : list (string * json))
| EvEndOfList
| EvNoMatches
| EvMatch (idx : nat) (label : string) (details : option row)
| EvInvalidFile (why : string)
| EvAbortImport
| EvImported (n : nat)
| EvImportedMain (n : nat)
| EvDeletedFact (idx : nat)
| EvClearedAll
| EvDeletionCancelled
| EvWarnNoFact (idx : nat)
| EvStoredFact (text : string)
| EvLogError (e : exn).

(** The world the session runs in: the collections of the vector-database
    service by name, each listing its rows in insertion order; the
    collections the service currently fails to serve; the service's
    similarity ranking of a collection's rows for a query text; Python's
    [str()] of a value that is not a string; and what was printed so far. *)
Record machine : Type := Machine {
  colls : gmap string (list row);
  down : gset string;
  ranking : string -> string -> list row -> list row;
  py_str : json -> string;
  out : list event
}.

Definition set_colls (f : gmap string (list row) -> gmap string (list row))
    (m : machine) : machine :=
  Machine (f (colls m)) (down m) (ranking m) (py_str m) (out m).

Definition add_out (e : event) (m : machine) : machine :=
  Machine (colls m) (down m) (ranking m) (py_str m) (out m ++ [e]).

Definition rows_of (name : string) (m : machine) : list row :=
  default [] (colls m !! name).

(** ** Statements that may raise

    A statement runs on a machine and either returns or raises; what it
    wrote before raising stays written. *)

Inductive result (A : Type) : Type :=
| Ok (a : A)
| Raise (e : exn).
Arguments Ok {A} a.
Arguments Raise {A} e.

Definition M (A : Type) : Type := machine -> machine * result A.

Definition ret {A} (a : A) : M A := fun m => (m, Ok a).
Definition raise {A} (e : exn) : M A := fun m => (m, Raise e).
Definition bind {A B} (c : M A) (k : A -> M B) : M B :=
  fun m => match c m with
           | (m', Ok a) => k a m'
           | (m', Raise e) => (m', Raise e)
           end.
Definition print (e : event) : M unit := fun m => (add_out e m, Ok tt).
Definition read {A} (f : machine -> A) : M A := fun m => (m, Ok (f m)).

Notation "'let*' x ':=' c 'in' k" := (bind c (fun x => k))
  (at level 10, x pattern, c at level 100, k at level 200).
Notation "c ';;' k" := (bind c (fun _ => k))
  (at level 100, k at level 200, right associativity).

(** [[f(x) for x in l]] where [f] may raise. *)
Fixpoint for_each {A B} (f : A -> M B) (l : list A) : M (list B) :=
  match l with
  | [] => ret []
  | x :: l' => let* y := f x in let* ys := for_each f l' in ret (y :: ys)
  end.

(** [for x in l: body(x)] *)
Fixpoint for_loop {A} (body : A -> M unit) (l : list A) : M unit :=
  match l with
  | [] => ret tt
  | x :: l' => body x ;; for_loop body l'
  end.

(** [try: c  except Exception as e: logging.error(e)] *)
Definition try_log (c : M unit) : machine -> machine :=
  fun m => match c m with
           | (m', Ok _) => m'
           | (m', Raise e) => add_out (EvLogError e) m'
           end.

(** ** The vector-database service

    Modelled from the spec: the vector-database service and its client
    library, which are no part of the repository; the specification lists
    the operations of a collection (create-or-get, add, delete, get all,
    query).  A handle is the collection's name.  Every data operation on a
    collection the service fails to serve raises;
    [get_or_create_collection] only names the collection. *)

Module Service.

Definition call {A} (name : string) (body : M A) : M A :=
  fun m => if bool_decide (name ∈ down m)
           then (m, Raise (ServiceError name))
           else body m.

Definition get_or_create_collection (name : string) : M string :=
  fun m => match colls m !! name with
           | Some _ => (m, Ok name)
           | None => (set_colls (insert name []) m, Ok name)
           end.

(** [collection.get()]: every row, in insertion order. *)
Definition get (name : string) : M (list row) :=
  call name (read (rows_of name)).

(** [collection.delete(ids=ids)]: an id that is not stored is skipped. *)
Definition delete (name : string) (ids : list string) : M unit :=
  call name (fun m =>
    (set_colls (insert name (filter (fun r => row_id r ∉ ids) (rows_of name m))) m,
     Ok tt)).

Definition as_str (v : json) : option string :=
  match v with JStr s => Some s | _ => None end.

Definition as_dict (v : json) : option (list (string * json)) :=
  match v with JDict d => Some d | _ => None end.

(** The checks of [add] on its arguments: ids, documents and metadatas
    are same-length non-empty lists of strings, strings and
    dictionaries, and no id occurs twice. *)
Fixpoint typed_rows (ids docs metas : list json) : option (list row) :=
  match ids, docs, metas with
  | [], [], [] => Some []
  | i :: ids', d :: docs', mt :: metas' =>
      match as_str i, as_str d, as_dict mt, typed_rows ids' docs' metas' with
      | Some i', Some d', Some mt', Some rs => Some (Row i' d' mt' :: rs)
      | _, _, _, _ => None
      end
  | _, _, _ => None
  end.

(** [collection.add(documents, ids, metadatas)]: the rows are appended;
    a row whose id is already stored is left out. *)
Definition add (name : string) (docs ids metas : list json) : M unit :=
  call name (fun m =>
    match typed_rows ids docs metas with
    | None | Some [] => (m, Raise ValueError)
    | Some rs =>
        if bool_decide (NoDup (row_id <$> rs)) then
          let old := rows_of name m in
          let fresh := filter (fun r => row_id r ∉ (row_id <$> old)) rs in
          (set_colls (insert name (old ++ fresh)) m, Ok tt)
        else (m, Raise DuplicateIDError)
    end).

(** [collection.query(query_texts=[q], n_results=n)]: the first [n] rows
    of the service's ranking. *)
Definition query (name q : string) (n : nat) : M (list row) :=
  call name (fun m => (m, Ok (take n (ranking m name q (rows_of name m))))).

End Service.

(** ** The program *)

(** [entry[key]] on a value read from a file. *)
Definition subscript (entry : json) (key : string) : M json :=
  match entry with
  | JDict d =>
      match dict_get d key with
      | Some v => ret v
      | None => raise (KeyError key)
      end
  | _ => raise TypeError
  end.

(** [format_for_embedding] on whatever [entry["text"]] holds: a string is
    formatted as above; another value is returned as it is where the text
    is returned unchanged, and rendered with [str] by the f-string where a
    prefix is added. *)
Definition format_value (str : json -> string) (text : json)
    (model_name mode : string) : json :=
  match text with
  | JStr s => JStr (format_for_embedding s model_name mode)
  | _ =>
      let m := PyStr.lower model_name in
      let mode := PyStr.lower mode in
      if PyStr.contains "bge" m then
        if String.eqb mode "query" then JStr (bge_query_prefix +:+ str text)
        else text
      else if PyStr.contains "e5" m then
        if String.eqb mode "query" then JStr ("query: " +:+ str text)
        else JStr ("passage: " +:+ str text)
      else text
  end.

Definition format_for_embedding_value (text : json) (model_name mode : string) : M json :=
  let* str := read py_str in
  ret (format_value str text model_name mode).

(** *** View stored facts *)

Fixpoint display_entries (idx : nat) (rows : list row) (id_map : gmap nat string)
    : M (gmap nat string) :=
  match rows with
  | [] => ret id_map
  | r :: rows' =>
      print (EvStoredEntry idx (row_doc r) (row_meta r)) ;;
      display_entries (S idx) rows' (<[idx := row_id r]> id_map)
  end.

Definition display_stored_facts (collection : string) : M (gmap nat string) :=
  let* results := Service.get collection in
  match results with
  | [] => print EvNoFactsStored ;; ret ∅
  | _ =>
      let* id_map := display_entries 1 results ∅ in
      print EvEndOfList ;; ret id_map
  end.

(** *** The collections of the model set *)

Definition models : list string := ["bge-base"; "bge-large"; "e5-large"].

Definition collection_name (prefix : string) : string := prefix +:+ "imported_data".

Definition clear_collection (collection : string) (report : bool) : M unit :=
  let* existing := Service.get collection in
  match existing with
  | [] => ret tt
  | _ =>
      Service.delete collection (row_id <$> existing) ;;
      if report then print (EvCleared (length existing) collection) else ret tt
  end.

Fixpoint open_collections (clear_collections : bool) (ms : list string)
    : M (list (string * string)) :=
  match ms with
  | [] => ret []
  | model :: ms' =>
      let '(model_name, prefix) := resolve_embedding_model model in
      let* collection := Service.get_or_create_collection (collection_name prefix) in
      (if clear_collections then clear_collection collection true else ret tt) ;;
      let* collections := open_collections clear_collections ms' in
      ret ((collection, model_name) :: collections)
  end.

Definition get_all_collections_for_type (clear_collections : bool)
    : M (list (string * string)) :=
  open_collections clear_collections models.

(** *** Import-file validation *)

Definition dict_has {A} (d : list (string * A)) (k : string) : bool :=
  match dict_get d k with Some _ => true | None => false end.

Fixpoint validate_entries (entries : list json) : M bool :=
  match entries with
  | [] => ret true
  | entry :: rest =>
      match entry with
      | JDict d =>
          if negb (dict_has d "text") || negb (dict_has d "metadata") then
            print (EvInvalidFile "Entry missing required fields: 'text' and 'metadata'") ;;
            ret false
          else
            match dict_get d "metadata" with
            | Some (JDict _) => validate_entries rest
            | _ =>
                print (EvInvalidFile "Invalid metadata format: not a dictionary.") ;;
                ret false
            end
      | _ =>
          print (EvInvalidFile "Invalid entry format: not a dictionary.") ;;
          ret false
      end
  end.

Definition validate_file_structure (file_data : json) : M bool :=
  match file_data with
  | JList ((_ :: _) as entries) => validate_entries (take 3 entries)
  | _ =>
      print (EvInvalidFile "File is empty or not in the expected format (list of entries).") ;;
      ret false
  end.

(** *** The session *)

Record session : Type := Session {
  model_name : string;
  prefix : string;
  allowed_schemas : option (list string);
  source : string;
  id_map : gmap nat string
}.

Definition set_id_map (im : gmap nat string) (ss : session) : session :=
  Session (model_name ss) (prefix ss) (allowed_schemas ss) (source ss) im.

(** The collection the session lists, queries and stores into. *)
Definition collection (ss : session) : string := collection_name (prefix ss).

(** [allowed_schemas] from the [--schemas] argument. *)
Definition allowed_schemas_of (schemas : option (list string)) : option (list string) :=
  let schema_list :=
    match schemas with
    | None => Some ["data_mart"; "reporting"]
    | Some l => if bool_decide (PyStr.lower <$> l = ["all"]) then None else Some l
    end in
  match schema_list with
  | Some ((_ :: _) as l) => Some ((fun s => PyStr.lower (PyStr.strip s)) <$> l)
  | _ => None
  end.

Definition start_session (embedding_model : string) (schemas : option (list string))
    (src : string) : session :=
  let '(model_name, prefix) := resolve_embedding_model embedding_model in
  Session model_name prefix (allowed_schemas_of schemas) src ∅.

(** *** Query results *)

(** Whether a result stays ([false]: the loop takes [continue]). *)
Definition passes_schema_filter (allowed : option (list string))
    (meta : list (string * json)) : M bool :=
  match allowed with
  | Some ((_ :: _) as suffixes) =>
      if negb (bool_decide (suffixes = ["all"]))
         && match meta with [] => false | _ => true end
         && dict_has meta "schema"
      then
        match dict_get meta "schema" with
        | Some (JStr v) =>
            let schema := PyStr.lower v in
            ret (existsb (PyStr.endswith schema) suffixes)
        | _ => raise AttributeError
        end
      else ret true
  | _ => ret true
  end.

Fixpoint filter_by_schema (allowed : option (list string)) (raw : list row)
    : M (list row) :=
  match raw with
  | [] => ret []
  | r :: raw' =>
      let* keep := passes_schema_filter allowed (row_meta r) in
      let* filtered := filter_by_schema allowed raw' in
      ret (if keep then r :: filtered else filtered)
  end.

(** The dotted label of the first two lines of a stored text. *)
Definition schema_table (doc : string) : M string :=
  let* parts :=
    for_each (fun line =>
      match PyStr.after_colon line with
      | Some v => ret (PyStr.strip_chars ["`"%char; ascii_of_nat 34] (PyStr.strip v))
      | None => raise IndexError
      end) (take 2 (PyStr.splitlines doc)) in
  ret (String.concat "." parts).

Inductive query_marker : Type := Plain | Longer | TableNames.

Definition n_results (mk : query_marker) : nat :=
  match mk with Plain => 8 | _ => 16 end.

Fixpoint print_matches (mk : query_marker) (idx : nat) (filtered : list row) : M unit :=
  match filtered with
  | [] => ret tt
  | r :: rest =>
      match mk with
      | TableNames =>
          let* label := schema_table (row_doc r) in
          print (EvMatch idx label None)
      | Longer => print (EvMatch idx (row_doc r) (Some r))
      | Plain => print (EvMatch idx (row_doc r) None)
      end ;;
      print_matches mk (S idx) rest
  end.

Definition run_query (ss : session) (mk : query_marker) (query_string : string) : M unit :=
  let formatted_query := format_for_embedding query_string (model_name ss) "query" in
  let* raw := Service.query (collection ss) formatted_query (n_results mk) in
  let* filtered := filter_by_schema (allowed_schemas ss) raw in
  match filtered with
  | [] => print EvNoMatches
  | _ => print_matches mk 1 filtered
  end.

(** *** Commands of the interactive loop

    Each command takes the session and the machine to the session and the
    machine after it.  An exception is logged and the loop goes on. *)

Definition command : Type := session -> machine -> session * machine.

(** [?]: list the stored facts and remember their ordinals. *)
Definition cmd_list : command := fun ss m =>
  match display_stored_facts (collection ss) m with
  | (m', Ok im) => (set_id_map im ss, m')
  | (m', Raise e) => (ss, add_out (EvLogError e) m')
  end.

(** [?text], [??text], [?!text]: similarity query. *)
Definition cmd_query (mk : query_marker) (query_string : string) : command := fun ss m =>
  (ss, try_log (run_query ss mk query_string) m).

(** [-all], with the answer to the confirmation. *)
Definition delete_everything : M unit :=
  let* collections := get_all_collections_for_type true in
  for_loop (fun '(col, _) => clear_collection col false) collections ;;
  print EvClearedAll.

Definition cmd_delete_all (confirm : string) : command := fun ss m =>
  if String.eqb confirm "yes" then (ss, try_log delete_everything m)
  else (ss, add_out EvDeletionCancelled m).

(** [-N]: delete the fact listed under ordinal [N]. *)
Definition delete_fact (idx : nat) (uid : string) : M unit :=
  let* collections := get_all_collections_for_type true in
  for_loop (fun '(col, _) => Service.delete col [uid]) collections ;;
  print (EvDeletedFact idx).

Definition cmd_delete_index (idx : nat) : command := fun ss m =>
  match id_map ss !! idx with
  | Some uid =>
      match delete_fact idx uid m with
      | (m', Ok _) => (set_id_map (delete idx (id_map ss)) ss, m')
      | (m', Raise e) => (ss, add_out (EvLogError e) m')
      end
  | None => (ss, add_out (EvWarnNoFact idx) m)
  end.

(** [r file]: import the file into every collection of the model set. *)

(** [format_for_embedding(entry["text"], mname, mode="document")] *)
Definition doc_of_entry (mname : string) (entry : json) : M json :=
  let* text := subscript entry "text" in
  format_for_embedding_value text mname "document".

Definition import_into (entries : list json) (target : string * string) : M unit :=
  let '(col, mname) := target in
  clear_collection col false ;;
  let* formatted_docs := for_each (doc_of_entry mname) entries in
  let* ids := for_each (fun entry => subscript entry "id") entries in
  let* metadatas := for_each (fun entry => subscript entry "metadata") entries in
  Service.add col formatted_docs ids metadatas.

Definition import_all (file_data : json) : M unit :=
  match file_data with
  | JList entries =>
      let* collections := get_all_collections_for_type false in
      for_loop (import_into entries) collections ;;
      print (EvImported (length entries))
  | _ => raise TypeError
  end.

Definition import_file (file_data : json) : M unit :=
  let* ok := validate_file_structure file_data in
  if ok then import_all file_data else print EvAbortImport.

Definition cmd_import (file_data : json) : command := fun ss m =>
  (ss, try_log (import_file file_data) m).

(** [--load-file]: at startup the file is imported into the session's
    collection only, which is cleared first unless [--dont-clear]. *)
Definition load_file (dont_clear : bool) (ss : session) (file_data : json) : M unit :=
  let* ok := validate_file_structure file_data in
  if ok then
    match file_data with
    | JList entries =>
        (if dont_clear then ret tt else clear_collection (collection ss) true) ;;
        let* formatted_docs := for_each (doc_of_entry (model_name ss)) entries in
        let* ids := for_each (fun entry => subscript entry "id") entries in
        let* metadatas := for_each (fun entry => subscript entry "metadata") entries in
        Service.add (collection ss) formatted_docs ids metadatas ;;
        print (EvImportedMain (length entries))
    | _ => raise TypeError
    end
  else print EvAbortImport.

Definition startup_load (dont_clear : bool) (ss : session) (file_data : json)
    : machine -> machine :=
  try_log (load_file dont_clear ss file_data).

(** A line that is no command is stored as a fact in the session's
    collection; [uid] and [timestamp] come from the clock. *)
Definition store_fact (ss : session) (user_input uid timestamp : string) : M unit :=
  let metadata := [("source", JStr (source ss)); ("timestamp", JStr timestamp)] in
  let formatted_text := format_for_embedding user_input (model_name ss) "document" in
  Service.add (collection ss) [JStr formatted_text] [JStr uid] [JDict metadata] ;;
  print (EvStoredFact user_input).

Definition cmd_store (user_input uid timestamp : string) : command := fun ss m =>
  (ss, try_log (store_fact ss user_input uid timestamp) m).

(** ** More of the program *)

(** *** More of Python's strings

    As before a [str] is its bytes and the character classes are those
    of ASCII; [is_ascii] marks the strings on which they are Python's. *)

Module PyText.

Fixpoint all_chars (p : ascii -> bool) (s : string) : bool :=
  match s with
  | EmptyString => true
  | String c s' => p c && all_chars p s'
  end.

Definition is_ascii (s : string) : bool :=
  all_chars (fun c => (nat_of_ascii c <? 128)%nat) s.

Definition is_digit (c : ascii) : bool :=
  let n := nat_of_ascii c in (48 <=? n)%nat && (n <=? 57)%nat.

(** [s.isdigit()] *)
Definition isdigit (s : string) : bool :=
  match s with
  | EmptyString => false
  | _ => all_chars is_digit s
  end.

Fixpoint int_from (acc : nat) (s : string) : nat :=
  match s with
  | EmptyString => acc
  | String c s' => int_from (10 * acc + (nat_of_ascii c - 48)) s'
  end.

(** [int(s)] on a string of digits. *)
Definition int (s : string) : nat := int_from 0 s.

(** [s[n:]] *)
Fixpoint skip (n : nat) (s : string) : string :=
  match n, s with
  | O, _ => s
  | S n', String _ s' => skip n' s'
  | S _, EmptyString => EmptyString
  end.

(** [s.replace(c, by)] for a one-character [c]. *)
Fixpoint replace_char (c : ascii) (by_ : string) (s : string) : string :=
  match s with
  | EmptyString => EmptyString
  | String a s' =>
      if Ascii.eqb a c then by_ +:+ replace_char c by_ s'
      else String a (replace_char c by_ s')
  end.

End PyText.

(** *** The model cache *)

(** The directory of a model under the cache:
    [f"models--{model_name.replace('/', '--')}"]. *)
Definition model_cache_entry (model_name : string) : string :=
  "models--" +:+ PyText.replace_char "/" "--" model_name.

(** What a path names on disk. *)
Inductive node : Type :=
| File
| Dir (children : list string).

(** [is_model_cached_locally] over a file system [fs] and the cache
    directory: the model's directory and its "snapshots" directory exist
    and are not empty; iterating over something that is no directory
    raises, which the function answers with [False]. *)
Definition is_model_cached_locally (fs : string -> option node) (cache_dir : string)
    (model_name : string) : bool :=
  let model_path := cache_dir +:+ "/" +:+ model_cache_entry model_name in
  match fs model_path with
  | Some (Dir (_ :: _)) =>
      match fs (model_path +:+ "/" +:+ "snapshots") with
      | Some (Dir (_ :: _)) => true
      | _ => false
      end
  | _ => false
  end.

(** *** The pre-download script *)

Module Preload.

Definition MODELS_TO_DOWNLOAD : list string :=
  ["BAAI/bge-base-en-v1.5"; "BAAI/bge-large-en-v1.5"; "intfloat/e5-large-v2"].

(** [download_model]: [cached] is [is_model_cached]; [fetch] tells whether
    loading the model returns ([true]) or raises; the state lists the
    models whose download was started. *)
Definition download_model (cached fetch : string -> bool) (model_name : string)
    (started : list string) : list string * bool :=
  if cached model_name then (started, true)
  else (started ++ [model_name], fetch model_name).

Record summary : Type := Summary {
  successful_downloads : nat;
  failed_downloads : nat;
  exit_code : nat
}.

Fixpoint download_all (cached fetch : string -> bool) (ms : list string)
    (started : list string) (successful failed : nat) : list string * (nat * nat) :=
  match ms with
  | [] => (started, (successful, failed))
  | model_name :: ms' =>
      let '(started', ok) := download_model cached fetch model_name started in
      if ok then download_all cached fetch ms' started' (successful + 1) failed
      else download_all cached fetch ms' started' successful (failed + 1)
  end.

Definition main_over (cached fetch : string -> bool) (ms : list string)
    : list string * summary :=
  let '(started, (successful, failed)) := download_all cached fetch ms [] 0 0 in
  (started, Summary successful failed (if (0 <? failed)%nat then 1 else 0)).

Definition main (cached fetch : string -> bool) : list string * summary :=
  main_over cached fetch MODELS_TO_DOWNLOAD.

End Preload.

(** *** Startup *)

(** The session's collection is opened; it is cleared unless
    [--dont-clear], and counted otherwise.  (The messages about an empty
    database and about the entries found are not recorded.) *)
Definition open_session (dont_clear : bool) (ss : session) : M unit :=
  let* col := Service.get_or_create_collection (collection ss) in
  if negb dont_clear then clear_collection col true
  else let* existing := Service.get col in ret tt.

(** Startup up to the prompt.  An exception while opening the collection
    ends the program with it.  The load of a file logs its own; the
    answer tells whether the prompt is reached: the program returns
    instead after a file that fails validation and after a load that
    raised. *)
Definition startup (dont_clear : bool) (load : option json) (ss : session) : M bool :=
  open_session dont_clear ss ;;
  match load with
  | None => ret true
  | Some file_data => fun m =>
      (startup_load dont_clear ss file_data m,
       Ok (match validate_file_structure file_data m,
                 load_file dont_clear ss file_data m with
           | (_, Ok true), (_, Ok _) => true
           | _, _ => false
           end))
  end.

(** *** Export *)

(** The file name of [w] and [r]: stripped, and ending in ".json". *)
Definition json_filename (filename : string) : string :=
  let filename := PyStr.strip filename in
  if PyStr.endswith filename ".json" then filename else filename +:+ ".json".

Definition export_entry (r : row) : json :=
  JDict [("id", JStr (row_id r)); ("text", JStr (row_doc r));
         ("metadata", JDict (row_meta r))].

(** What [w] writes: one entry per row of the session's collection. *)
Definition export_collection (ss : session) : M json :=
  let* full_data := Service.get (collection ss) in
  ret (JList (export_entry <$> full_data)).

(** [w file]: the machine afterwards, and the file written with its
    contents when the export did not raise. *)
Definition cmd_export (filename : string) (ss : session) (m : machine)
    : machine * option (string * json) :=
  match export_collection ss m with
  | (m', Ok output) => (m', Some (filename, output))
  | (m', Raise e) => (add_out (EvLogError e) m', None)
  end.

(** *** Reading a line of the prompt *)

Inductive line_command : Type :=
| LBlank
| LExit
| LList
| LQuery (mk : query_marker) (query_string : string)
| LDeleteAll
| LDeleteIndex (idx : nat)
| LExport (filename : string)
| LImport (filename : string)
| LStore (text : string).

(** A line that starts with "?". *)
Definition parse_query (user_input : string) : line_command :=
  let '(mk, query_string) :=
    match String.get 1 user_input with
    | Some "?"%char => (Longer, PyStr.strip (PyText.skip 2 user_input))
    | Some "!"%char => (TableNames, PyStr.strip (PyText.skip 2 user_input))
    | _ => (Plain, PyStr.strip (PyText.skip 1 user_input))
    end in
  match query_string with
  | EmptyString => LList
  | _ => LQuery mk query_string
  end.

(** The branch of the loop a line takes.  A line that starts with "-" and
    is neither "-all" nor "-" and digits leaves the chain of tests and is
    stored as a fact. *)
Definition parse_line (line : string) : line_command :=
  let user_input := PyStr.strip line in
  if String.eqb user_input "" then LBlank
  else if String.eqb (PyStr.lower user_input) "exit"
          || String.eqb (PyStr.lower user_input) "quit" then LExit
  else if String.prefix "?" user_input then parse_query user_input
  else if String.prefix "-" user_input then
    let delete_arg := PyStr.lower (PyStr.strip (PyText.skip 1 user_input)) in
    if String.eqb delete_arg "all" then LDeleteAll
    else if PyText.isdigit delete_arg then LDeleteIndex (PyText.int delete_arg)
    else LStore user_input
  else if String.prefix "w " (PyStr.lower user_input) then
    LExport (json_filename (PyText.skip 2 user_input))
  else if String.prefix "r " (PyStr.lower user_input) then
    LImport (json_filename (PyText.skip 2 user_input))
  else LStore user_input.

(** What one turn of the loop takes from outside: the reply to the
    confirmation of "-all", what opening and parsing a file gives, and the
    clock's id and time stamp for a new fact. *)
Record inputs : Type := Inputs {
  answer : string;
  file : string -> result json;
  now_uid : string;
  now_stamp : string
}.

(** One turn of the loop; [None] when the loop ends. *)
Definition run_command (inp : inputs) (c : line_command)
    : session -> machine -> option (session * machine) :=
  fun ss m =>
    match c with
    | LBlank => Some (ss, m)
    | LExit => None
    | LList => Some (cmd_list ss m)
    | LQuery mk q => Some (cmd_query mk q ss m)
    | LDeleteAll =>
        Some (cmd_delete_all (PyStr.lower (PyStr.strip (answer inp))) ss m)
    | LDeleteIndex idx => Some (cmd_delete_index idx ss m)
    | LExport filename => Some (ss, (cmd_export filename ss m).1)
    | LImport filename =>
        match file inp filename with
        | Ok file_data => Some (cmd_import file_data ss m)
        | Raise e => Some (ss, add_out (EvLogError e) m)
        end
    | LStore text => Some (cmd_store text (now_uid inp) (now_stamp inp) ss m)
    end.

Definition loop_step (inp : inputs) (line : string)
    : session -> machine -> option (session * machine) :=
  run_command inp (parse_line line).

(** The loop over the lines typed, each with what its turn takes from
    outside; it ends at "exit" or "quit", and when the input ends. *)
Fixpoint loop (turns : list (inputs * string)) (ss : session) (m : machine)
    : session * machine :=
  match turns with
  | [] => (ss, m)
  | (inp, line) :: rest =>
      match loop_step inp line ss m with
      | None => (ss, m)
      | Some (ss', m') => loop rest ss' m'
      end
  end.

(** [main]: the session of the arguments, startup, and the loop when the
    prompt is reached. *)
Definition main (embedding_model : string) (schemas : option (list string))
    (src : string) (dont_clear : bool) (load : option json)
    (turns : list (inputs * string)) (m : machine) : session * machine :=
  let ss := start_session embedding_model schemas src in
  match startup dont_clear load ss m with
  | (m', Ok true) => loop turns ss m'
  | (m', _) => (ss, m')
  end.

(** ** Vocabulary of the properties

    *** What a statement can change *)

(** A statement is confined to the collections [names] when it leaves the
    other collections and the service's behaviour as they were. *)
Definition confined {A} (names : list string) (c : M A) : Prop :=
  forall m m' r, c m = (m', r) ->
    down m' = down m /\ ranking m' = ranking m /\ py_str m' = py_str m /\
    forall n, n ∉ names -> rows_of n m' = rows_of n m.

(** A statement is pure when it leaves the machine as it was. *)
Definition pure_stmt {A} (c : M A) : Prop :=
  forall m m' r, c m = (m', r) -> m' = m.

(** A statement is silent when it prints nothing. *)
Definition silent {A} (c : M A) : Prop :=
  forall m m' r, c m = (m', r) -> out m' = out m.

(** *** Files and facts *)

(** The machine after printing [evs]. *)
Definition add_outs (evs : list event) (m : machine) : machine :=
  Machine (colls m) (down m) (ranking m) (py_str m) (out m ++ evs).

(** An entry that passes the checks of [validate_file_structure]. *)
Definition entry_ok (e : json) : Prop :=
  exists d mt, e = JDict d /\ dict_get d "text" <> None /\
               dict_get d "metadata" = Some (JDict mt).

(** The entry has no "text" or no "metadata" key. *)
Definition missing_fields (e : json) : Prop :=
  forall d, e = JDict d -> dict_get d "text" = None \/ dict_get d "metadata" = None.

(** The entry's "metadata" is not a map. *)
Definition metadata_not_map (e : json) : Prop :=
  forall d mt, e = JDict d -> dict_get d "metadata" <> Some (JDict mt).

(** A file that fails structural validation, in the words of the
    specification: it is not a non-empty list, or one of its first three
    entries misses "text" or "metadata", or has a "metadata" that is not a
    map. *)
Definition structurally_invalid (file_data : json) : Prop :=
  (forall entries, file_data = JList entries -> entries = []) \/
  (exists entries e,
     file_data = JList entries /\ e ∈ take 3 entries /\
     (missing_fields e \/ metadata_not_map e)).

(** A fact as the specification has it: id, text and metadata. *)
Record fact : Type := Fact {
  fact_id : string;
  fact_text : string;
  fact_meta : list (string * json)
}.

(** The fact a file entry holds, when its "id" and "text" are strings and
    its "metadata" is a dictionary. *)
Definition entry_fact (e : json) : option fact :=
  match e with
  | JDict d =>
      match dict_get d "id", dict_get d "text", dict_get d "metadata" with
      | Some (JStr i), Some (JStr t), Some (JDict mt) => Some (Fact i t mt)
      | _, _, _ => None
      end
  | _ => None
  end.

(** The row a collection of model [mname] keeps for a fact. *)
Definition stored_row (mname : string) (f : fact) : row :=
  Row (fact_id f) (format_for_embedding (fact_text f) mname "document") (fact_meta f).

(** The collection and the model of each of [ms], as
    [get_all_collections_for_type] pairs them. *)
Definition targets_of (ms : list string) : list (string * string) :=
  (fun model => let '(mname, pfx) := resolve_embedding_model model in
                (collection_name pfx, mname)) <$> ms.

(** The collections of the model set with their models. *)
Definition model_set : list (string * string) := targets_of models.

(** Row [r] is what the import stores for entry [e] in a collection of
    model [mname]. *)
Definition stored_as (str : json -> string) (mname : string) (e : json) (r : row) : Prop :=
  exists d t,
    e = JDict d /\
    dict_get d "id" = Some (JStr (row_id r)) /\
    dict_get d "text" = Some t /\
    format_value str t mname "document" = JStr (row_doc r) /\
    dict_get d "metadata" = Some (JDict (row_meta r)).

(** *** Outcomes of the fan-out *)

(** Nothing observable changed: the rows of every collection, the
    service's behaviour and the output are the same. *)
Definition untouched (m m' : machine) : Prop :=
  (forall n, rows_of n m' = rows_of n m) /\
  down m' = down m /\ ranking m' = ranking m /\ py_str m' = py_str m /\
  out m' = out m.

(** Collection [t.1] of model [t.2] received the entries: it was served,
    and it now holds one row per entry, with distinct ids. *)
Definition imported (entries : list json) (m m' : machine) (t : string * string) : Prop :=
  (t.1 ∉ down m) /\
  exists rows, rows <> [] /\ NoDup (row_id <$> rows) /\ rows_of t.1 m' = rows /\
               Forall2 (stored_as (py_str m) t.2) entries rows.

(** Collection [t.1] was reached and its import failed: it is as before
    when the service fails on it, and empty otherwise. *)
Definition import_failed_at (m m' : machine) (t : string * string) : Prop :=
  (t.1 ∈ down m /\ rows_of t.1 m' = rows_of t.1 m) \/
  ((t.1 ∉ down m) /\ rows_of t.1 m' = []).

(** Collection [t.1] was not reached. *)
Definition not_attempted (m m' : machine) (t : string * string) : Prop :=
  rows_of t.1 m' = rows_of t.1 m.

(** A statement that adds no row: a collection that is empty stays empty. *)
Definition keeps_empty {A} (c : M A) : Prop :=
  forall m m' r n, c m = (m', r) -> rows_of n m = [] -> rows_of n m' = [].

(** *** More vocabulary *)

(** No line boundary in [s]. *)
Definition no_break (s : string) : Prop :=
  PyText.all_chars (fun c => negb (PyStr.is_linebreak c)) s = true.

(** No colon in [s]. *)
Definition no_colon (s : string) : Prop :=
  PyText.all_chars (fun c => negb (Ascii.eqb c ":")) s = true.

(** The "schema" value of the metadata, when it is a string, is ASCII
    text: there [PyStr.lower] is Python's [str.lower], and the test of a
    suffix on the bytes is the test on the characters. *)
Definition ascii_schema (meta : list (string * json)) : bool :=
  match dict_get meta "schema" with
  | Some (JStr v) => PyText.is_ascii v
  | _ => true
  end.

(** Two sessions with the same settings: they differ at most in the map
    of the listed ordinals. *)
Definition same_settings (ss ss' : session) : Prop :=
  model_name ss' = model_name ss /\ prefix ss' = prefix ss /\
  allowed_schemas ss' = allowed_schemas ss /\ source ss' = source ss.

(** ** Sample data used in the closed statements below *)

Module Sample.

(** An entry of an import file, with the three keys of an export. *)
Definition entry (i t : string) (mt : list (string * json)) : json :=
  JDict [("id", JStr i); ("text", JStr t); ("metadata", JDict mt)].

(** A machine holding the given collections; the service ranks rows in
    the order it lists them.  Every text in the samples is a string, so
    [py_str] is never consulted. *)
Definition machine_of (cs : list (string * list row)) (failing : list string) : machine :=
  Machine (list_to_map cs) (list_to_set failing) (fun _ _ rows => rows) (fun _ => "") [].

Definition bge_base : string := "bge_base_imported_data".
Definition bge_large : string := "bge_large_imported_data".
Definition e5_large : string := "e5_large_imported_data".

Definition tagged : list (string * json) := [("source", JStr "user")].

Definition legacy_rows (mname : string) : list row :=
  [Row "old-1" (format_for_embedding "legacy fact" mname "document") tagged].

(** Every collection of the model set holds one earlier fact. *)
Definition populated (failing : list string) : machine :=
  machine_of [(bge_base, legacy_rows "BAAI/bge-base-en-v1.5");
              (bge_large, legacy_rows "BAAI/bge-large-en-v1.5");
              (e5_large, legacy_rows "intfloat/e5-large-v2")] failing.

Definition two_facts : list fact :=
  [Fact "f1" "refund window is 30 days" tagged;
   Fact "f2" "orders ship in 2 days" tagged].

Definition two_entries : list json :=
  (fun f => entry (fact_id f) (fact_text f) (fact_meta f)) <$> two_facts.

Definition session_of (model : string) : session := start_session model None "user".

(** Three valid entries, then one without "metadata". *)
Definition four_entries : list json :=
  [entry "f1" "refund window is 30 days" tagged;
   entry "f2" "orders ship in 2 days" tagged;
   entry "f3" "support answers in 1 day" tagged;
   JDict [("id", JStr "f4"); ("text", JStr "returns are free")]].

(** A machine whose collections hold the given facts, each formatted for
    its model. *)
Definition synced (facts : list fact) (failing : list string) : machine :=
  machine_of [(bge_base, stored_row "BAAI/bge-base-en-v1.5" <$> facts);
              (bge_large, stored_row "BAAI/bge-large-en-v1.5" <$> facts);
              (e5_large, stored_row "intfloat/e5-large-v2" <$> facts)] failing.

End Sample.

(** * Properties *)

(** ** The registry and the formatter *)

Example resolve_alias : resolve_embedding_model "e5" = ("intfloat/e5-large-v2", "e5_large_").
Proof. reflexivity. Qed.

Example resolve_fallback :
  resolve_embedding_model "minilm" = ("BAAI/bge-base-en-v1.5", "bge_base_").
Proof. reflexivity. Qed.

Example format_bge_doc :
  format_for_embedding "refund window" "BAAI/bge-base-en-v1.5" "document" = "refund window".
Proof. reflexivity. Qed.

Example format_e5_doc :
  format_for_embedding "refund window" "intfloat/e5-large-v2" "document"
  = "passage: refund window".
Proof. reflexivity. Qed.

Example format_bge_query :
  format_for_embedding "refund policy" "BAAI/bge-large-en-v1.5" "query"
  = "Represent this sentence for searching relevant passages: refund policy".
Proof. reflexivity. Qed.

Lemma resolve_models_of_set :
  (fun model => resolve_embedding_model model) <$> models
  = [("BAAI/bge-base-en-v1.5", "bge_base_");
     ("BAAI/bge-large-en-v1.5", "bge_large_");
     ("intfloat/e5-large-v2", "e5_large_")].
Proof. reflexivity. Qed.

Lemma resolved_model_cases (model_input : string) :
  (resolve_embedding_model model_input).1 = "BAAI/bge-base-en-v1.5" \/
  (resolve_embedding_model model_input).1 = "BAAI/bge-large-en-v1.5" \/
  (resolve_embedding_model model_input).1 = "intfloat/e5-large-v2".
Proof.
  unfold resolve_embedding_model.
  replace (default ("", "") (dict_get model_map "bge-base"))
    with ("BAAI/bge-base-en-v1.5", "bge_base_") by reflexivity.
  unfold model_map, dict_get.
  repeat match goal with
         | |- context [String.eqb ?a model_input] =>
             destruct (String.eqb a model_input)
         end; cbn; auto.
Qed.

(** C6.  [format_for_embedding] is a total function of its three
    arguments, and its rules are those of the two families, tried in the
    order "bge", "e5".  If the lower-cased model identifier contains "bge",
    document mode returns the text unchanged and query mode puts the
    retrieval instruction before it; if it is not of the bge family and
    contains "e5", document mode puts "passage: " and query mode "query: "
    before the text; any other identifier returns the text unchanged in
    every mode.  Every model the program passes, whatever is given as
    embedding model, is of one family only, so there the rule of the
    family whose name it contains applies. *)
Theorem format_for_embedding_by_family (text model_id : string) :
  let m := PyStr.lower model_id in
  (PyStr.contains "bge" m = true ->
     format_for_embedding text model_id "document" = text /\
     format_for_embedding text model_id "query"
     = "Represent this sentence for searching relevant passages: " +:+ text) /\
  (PyStr.contains "bge" m = false -> PyStr.contains "e5" m = true ->
     format_for_embedding text model_id "document" = "passage: " +:+ text /\
     format_for_embedding text model_id "query" = "query: " +:+ text) /\
  (PyStr.contains "bge" m = false -> PyStr.contains "e5" m = false ->
     forall mode, format_for_embedding text model_id mode = text) /\
  (forall model_input,
     let resolved := (resolve_embedding_model model_input).1 in
     PyStr.contains "bge" (PyStr.lower resolved)
     = negb (PyStr.contains "e5" (PyStr.lower resolved)) /\
     (PyStr.contains "e5" (PyStr.lower resolved) = true ->
      format_for_embedding text resolved "document" = "passage: " +:+ text /\
      format_for_embedding text resolved "query" = "query: " +:+ text)).
Proof.
  intros m. split; [|split; [|split]].
  - unfold format_for_embedding. fold m. intros ->. split; reflexivity.
  - unfold format_for_embedding. fold m. intros -> ->. split; reflexivity.
  - unfold format_for_embedding. fold m. intros -> -> mode. reflexivity.
  - intros model_input. cbv zeta.
    destruct (resolved_model_cases model_input) as [-> | [-> | ->]];
      (split; [reflexivity|]); intros H; try discriminate H; split; reflexivity.
Qed.

Lemma format_for_embedding_by_family_witness :
  format_for_embedding "refund window" "intfloat/e5-large-v2" "document"
  = "passage: refund window" /\
  format_for_embedding "refund window" "BAAI/bge-base-en-v1.5" "query"
  = "Represent this sentence for searching relevant passages: refund window" /\
  format_for_embedding "refund window" "all-MiniLM-L6-v2" "query" = "refund window" /\
  format_for_embedding "refund window" (resolve_embedding_model "e5").1 "query"
  = "query: refund window".
Proof.
  split; [|split; [|split]].
  - destruct (format_for_embedding_by_family "refund window" "intfloat/e5-large-v2")
      as (_ & He5 & _).
    exact (proj1 (He5 eq_refl eq_refl)).
  - destruct (format_for_embedding_by_family "refund window" "BAAI/bge-base-en-v1.5")
      as (Hbge & _ & _).
    exact (proj2 (Hbge eq_refl)).
  - destruct (format_for_embedding_by_family "refund window" "all-MiniLM-L6-v2")
      as (_ & _ & Hother & _).
    apply Hother; reflexivity.
  - destruct (format_for_embedding_by_family "refund window" "")
      as (_ & _ & _ & Hreg).
    exact (proj2 (proj2 (Hreg "e5") eq_refl)).
Defined.

(** ** Running statements *)

Lemma bind_ok {A B} (c : M A) (k : A -> M B) (m m' : machine) (b : B) :
  bind c k m = (m', Ok b) ->
  exists a m1, c m = (m1, Ok a) /\ k a m1 = (m', Ok b).
Proof.
  unfold bind. destruct (c m) as [m1 [a|e]]; [eauto | discriminate].
Qed.

Lemma bind_step {A B} (c : M A) (k : A -> M B) (m m1 : machine) (a : A) :
  c m = (m1, Ok a) -> bind c k m = k a m1.
Proof. unfold bind. intros ->. reflexivity. Qed.

Lemma bind_raises {A B} (c : M A) (k : A -> M B) (m m1 : machine) (e : exn) :
  c m = (m1, Raise e) -> bind c k m = (m1, Raise e).
Proof. unfold bind. intros ->. reflexivity. Qed.

(** ** Schema filter of the query results *)

Lemma passes_schema_filter_pure allowed meta m m' r :
  passes_schema_filter allowed meta m = (m', r) -> m' = m.
Proof.
  unfold passes_schema_filter.
  destruct allowed as [[|s l]|]; try (intros [= <- _]; reflexivity).
  destruct (_ && _ && _); [|intros [= <- _]; reflexivity].
  destruct (dict_get meta "schema") as [[]|]; intros [= <- _]; reflexivity.
Qed.



(** The example of the specification: with the suffix "reporting", of
    three results with schema "x.reporting", schema "x.data_mart" and no
    schema, the first and the third stay. *)
Example schema_filter_reporting :
  (filter_by_schema (Some ["reporting"])
     [Row "a" "orders" [("schema", JStr "x.reporting")];
      Row "b" "stock" [("schema", JStr "x.data_mart")];
      Row "c" "notes" [("source", JStr "user")]]
     (Sample.machine_of [] [])).2
  = Ok [Row "a" "orders" [("schema", JStr "x.reporting")];
        Row "c" "notes" [("source", JStr "user")]].
Proof. reflexivity. Qed.



(** ** What a statement can change *)

Lemma pure_confined {A} names (c : M A) : pure_stmt c -> confined names c.
Proof. intros Hp m m' r H. apply Hp in H as ->. auto. Qed.

Lemma pure_ret {A} (a : A) : pure_stmt (ret a).
Proof. intros m m' r [= <- _]. reflexivity. Qed.

Lemma pure_raise {A} (e : exn) : pure_stmt (@raise A e).
Proof. intros m m' r [= <- _]. reflexivity. Qed.

Lemma pure_read {A} (f : machine -> A) : pure_stmt (read f).
Proof. intros m m' r [= <- _]. reflexivity. Qed.

Lemma pure_bind {A B} (c : M A) (k : A -> M B) :
  pure_stmt c -> (forall a, pure_stmt (k a)) -> pure_stmt (bind c k).
Proof.
  intros Hc Hk m m' r. unfold bind. destruct (c m) as [m1 [a|e]] eqn:E.
  - apply Hc in E as ->. apply Hk.
  - apply Hc in E as ->. intros [= <- _]. reflexivity.
Qed.

Lemma pure_for_each {A B} (f : A -> M B) (l : list A) :
  (forall x, pure_stmt (f x)) -> pure_stmt (for_each f l).
Proof.
  intros Hf. induction l as [|x l IH]; simpl.
  - apply pure_ret.
  - apply pure_bind; [apply Hf|]. intros y.
    apply pure_bind; [apply IH|]. intros ys. apply pure_ret.
Qed.

Lemma confined_print names (e : event) : confined names (print e).
Proof. intros m m' r [= <- _]. simpl. auto. Qed.

Lemma confined_bind {A B} names (c : M A) (k : A -> M B) :
  confined names c -> (forall a, confined names (k a)) -> confined names (bind c k).
Proof.
  intros Hc Hk m m' r. unfold bind. destruct (c m) as [m1 [a|e]] eqn:E.
  - intros H. apply Hc in E as (Hd & Hr & Hp & Hn).
    apply Hk in H as (Hd' & Hr' & Hp' & Hn').
    repeat split; try congruence. intros n Hnot. rewrite Hn', Hn; auto.
  - intros [= <- _]. exact (Hc _ _ _ E).
Qed.

Lemma confined_mono {A} names names' (c : M A) :
  names ⊆ names' -> confined names c -> confined names' c.
Proof.
  intros Hsub Hc m m' r H. apply Hc in H as (Hd & Hr & Hp & Hn).
  repeat split; auto.
Qed.

Lemma confined_for_loop {A} names (body : A -> M unit) (l : list A) :
  (forall x, x ∈ l -> confined names (body x)) -> confined names (for_loop body l).
Proof.
  induction l as [|x l IH]; intros Hb; simpl.
  - apply pure_confined, pure_ret.
  - apply confined_bind; [apply Hb; left|]. intros _.
    apply IH. intros y Hy. apply Hb. right. exact Hy.
Qed.

Lemma confined_call {A} names name (body : M A) :
  confined names body -> confined names (Service.call name body).
Proof.
  intros Hb m m' r. unfold Service.call. case_bool_decide.
  - intros [= <- _]. auto.
  - apply Hb.
Qed.

Lemma confined_get name : confined [] (Service.get name).
Proof. apply confined_call, pure_confined, pure_read. Qed.

Lemma confined_set_colls name (rows : machine -> list row) :
  confined [name] (fun m => (set_colls (insert name (rows m)) m, Ok tt)).
Proof.
  intros m m' r [= <- _]. simpl. repeat split; auto.
  intros n Hn. unfold rows_of. simpl. rewrite lookup_insert_ne; [reflexivity|set_solver].
Qed.

Lemma confined_delete name ids : confined [name] (Service.delete name ids).
Proof. apply confined_call, confined_set_colls. Qed.

Lemma confined_add name docs ids metas : confined [name] (Service.add name docs ids metas).
Proof.
  apply confined_call. intros m m' r.
  destruct (Service.typed_rows ids docs metas) as [[|r0 rs]|];
    try (intros [= <- _]; auto).
  case_bool_decide.
  - apply (confined_set_colls name
             (fun m => rows_of name m ++
                filter (fun r => row_id r ∉ (row_id <$> rows_of name m)) (r0 :: rs))
             m m' r).
  - intros [= <- _]. auto.
Qed.

Lemma confined_clear col report : confined [col] (clear_collection col report).
Proof.
  apply confined_bind.
  - apply (confined_mono []); [set_solver | apply confined_get].
  - intros [|r rs]; [apply pure_confined, pure_ret|].
    apply confined_bind; [apply confined_delete|]. intros _.
    destruct report; [apply confined_print | apply pure_confined, pure_ret].
Qed.

Lemma pure_subscript entry key : pure_stmt (subscript entry key).
Proof.
  destruct entry; try apply pure_raise. simpl.
  destruct (dict_get d key); [apply pure_ret | apply pure_raise].
Qed.

Lemma pure_format_value text mname mode :
  pure_stmt (format_for_embedding_value text mname mode).
Proof.
  apply pure_bind; [apply pure_read|]. intros str. apply pure_ret.
Qed.

Lemma confined_import_into entries col mname :
  confined [col] (import_into entries (col, mname)).
Proof.
  unfold import_into.
  apply confined_bind; [apply confined_clear|]. intros _.
  apply confined_bind.
  { apply pure_confined, pure_for_each. intros e.
    apply pure_bind; [apply pure_subscript|]. intros t. apply pure_format_value. }
  intros docs. apply confined_bind.
  { apply pure_confined, pure_for_each. intros e. apply pure_subscript. }
  intros ids. apply confined_bind.
  { apply pure_confined, pure_for_each. intros e. apply pure_subscript. }
  intros metas. apply confined_add.
Qed.

(** ** Import-file validation *)

Lemma add_outs_nil m : add_outs [] m = m.
Proof. destruct m. unfold add_outs. simpl. rewrite app_nil_r. reflexivity. Qed.

Lemma add_outs_one e m : add_out e m = add_outs [e] m.
Proof. reflexivity. Qed.

Lemma add_outs_app evs evs' m : add_outs evs' (add_outs evs m) = add_outs (evs ++ evs') m.
Proof. unfold add_outs. simpl. rewrite app_assoc. reflexivity. Qed.

Lemma validate_entries_run (entries : list json) (m : machine) :
  exists b evs,
    validate_entries entries m = (add_outs evs m, Ok b) /\
    (b = true <-> Forall entry_ok entries) /\
    (b = true -> evs = []).
Proof.
  induction entries as [|e entries IH]; simpl.
  - exists true, []. rewrite add_outs_nil. repeat split; auto.
  - assert (Hbad : forall why, ~ entry_ok e ->
      exists b evs,
        (print (EvInvalidFile why) ;; ret false) m = (add_outs evs m, Ok b) /\
        (b = true <-> Forall entry_ok (e :: entries)) /\ (b = true -> evs = [])).
    { intros why Hno. exists false, [EvInvalidFile why]. repeat split; try discriminate.
      intros H. inversion H; subst. contradiction. }
    destruct e as [| | | | |d]; try (apply Hbad; intros (d' & mt & [=] & _)).
    unfold dict_has.
    destruct (dict_get d "text") as [t|] eqn:Ht; simpl.
    2:{ apply Hbad. intros (d' & mt & [= <-] & Hne & _). congruence. }
    destruct (dict_get d "metadata") as [[| | | | |mt]|] eqn:Hm; simpl;
      try (apply Hbad; intros (d' & mt' & [= <-] & _ & Hmt); congruence).
    destruct IH as (b & evs & Hrun & Hb & Hevs).
    exists b, evs. repeat split; auto.
    + intros Hbt. constructor; [|apply Hb, Hbt].
      exists d, mt. repeat split; congruence.
    + intros H. inversion H; subst. apply Hb. assumption.
Qed.

Lemma validate_file_structure_run (file_data : json) (m : machine) :
  exists b evs,
    validate_file_structure file_data m = (add_outs evs m, Ok b) /\
    (b = true <->
     exists entries, file_data = JList entries /\ entries <> [] /\
                     Forall entry_ok (take 3 entries)) /\
    (b = true -> evs = []).
Proof.
  assert (Hbad : forall why,
    ~ (exists entries, file_data = JList entries /\ entries <> []) ->
    exists b evs,
      (print (EvInvalidFile why) ;; ret false) m = (add_outs evs m, Ok b) /\
      (b = true <->
       exists entries, file_data = JList entries /\ entries <> [] /\
                       Forall entry_ok (take 3 entries)) /\
      (b = true -> evs = [])).
  { intros why Hno. exists false, [EvInvalidFile why]. repeat split; try discriminate.
    intros (entries & ? & ? & _). exfalso. apply Hno. eauto. }
  destruct file_data as [| | | |l|]; try (apply Hbad; intros (? & [=] & _)).
  destruct l as [|e l]; [apply Hbad; intros (? & [= <-] & Hne); congruence|].
  unfold validate_file_structure.
  destruct (validate_entries_run (take 3 (e :: l)) m) as (b & evs & Hrun & Hb & Hevs).
  exists b, evs. repeat split; auto.
  - intros Hbt. exists (e :: l). repeat split; [discriminate | apply Hb, Hbt].
  - intros (entries & [= <-] & _ & Hall). apply Hb, Hall.
Qed.

Lemma structurally_invalid_fails (file_data : json) (m : machine) :
  structurally_invalid file_data ->
  exists evs, validate_file_structure file_data m = (add_outs evs m, Ok false).
Proof.
  intros Hinv.
  destruct (validate_file_structure_run file_data m) as (b & evs & Hrun & Hb & _).
  destruct b; [|eauto]. exfalso.
  destruct Hb as [Hb _]. destruct (Hb eq_refl) as (entries & -> & Hne & Hall).
  destruct Hinv as [Hempty | (entries' & e & [= <-] & Hin & Hbad)].
  - apply Hne, Hempty. reflexivity.
  - rewrite Forall_forall in Hall. destruct (Hall e Hin) as (d & mt & -> & Ht & Hm).
    destruct Hbad as [Hmiss | Hnot].
    + destruct (Hmiss d eq_refl); congruence.
    + exact (Hnot d mt eq_refl Hm).
Qed.

(** C8.  A file that fails structural validation is rejected before
    anything is written: the import command, and likewise the import of
    the file named at startup, prints the abort message and leaves every
    collection, the service and the session as they were, so no fact is
    added and no stored fact changes. *)
Theorem invalid_file_rejected_before_any_write
    (file_data : json) (ss : session) (m : machine) :
  structurally_invalid file_data ->
  ((cmd_import file_data ss m).1 = ss /\
   colls (cmd_import file_data ss m).2 = colls m /\
   (forall name, rows_of name (cmd_import file_data ss m).2 = rows_of name m) /\
   last (out (cmd_import file_data ss m).2) = Some EvAbortImport) /\
  (forall dont_clear,
     colls (startup_load dont_clear ss file_data m) = colls m /\
     last (out (startup_load dont_clear ss file_data m)) = Some EvAbortImport).
Proof.
  intros Hinv. destruct (structurally_invalid_fails file_data m Hinv) as (evs & Hrun).
  split.
  - unfold cmd_import, try_log, import_file. simpl.
    rewrite (bind_step _ _ _ _ _ Hrun). simpl.
    repeat split. apply last_snoc.
  - intros dont_clear. unfold startup_load, try_log, load_file.
    rewrite (bind_step _ _ _ _ _ Hrun). simpl.
    split; [reflexivity | apply last_snoc].
Qed.

Lemma invalid_file_rejected_before_any_write_witness :
  let file_data := JList [JDict [("id", JStr "f1"); ("text", JStr "returns are free")]] in
  colls (cmd_import file_data (Sample.session_of "bge-base") (Sample.populated [])).2
  = colls (Sample.populated []).
Proof.
  intros file_data.
  apply (invalid_file_rejected_before_any_write file_data
           (Sample.session_of "bge-base") (Sample.populated [])).
  right. exists [JDict [("id", JStr "f1"); ("text", JStr "returns are free")]],
           (JDict [("id", JStr "f1"); ("text", JStr "returns are free")]).
  split; [reflexivity|]. split; [left|].
  left. intros d [= <-]. right. reflexivity.
Defined.

(** ** The service's operations, run *)

Lemma rows_of_insert name rows m :
  rows_of name (set_colls (insert name rows) m) = rows.
Proof. unfold rows_of. simpl. rewrite lookup_insert_eq. reflexivity. Qed.

Lemma get_up name m :
  name ∉ down m -> Service.get name m = (m, Ok (rows_of name m)).
Proof.
  intros Hup. unfold Service.get, Service.call.
  rewrite bool_decide_eq_false_2 by exact Hup. reflexivity.
Qed.

Lemma get_down name m :
  name ∈ down m -> Service.get name m = (m, Raise (ServiceError name)).
Proof.
  intros Hdn. unfold Service.get, Service.call.
  rewrite bool_decide_eq_true_2 by exact Hdn. reflexivity.
Qed.

Lemma delete_up name ids m :
  name ∉ down m ->
  Service.delete name ids m
  = (set_colls (insert name (filter (fun r => row_id r ∉ ids) (rows_of name m))) m, Ok tt).
Proof.
  intros Hup. unfold Service.delete, Service.call.
  rewrite bool_decide_eq_false_2 by exact Hup. reflexivity.
Qed.

Lemma filter_listed_ids (l : list row) (ids : list string) :
  (forall r, r ∈ l -> row_id r ∈ ids) ->
  filter (fun r => row_id r ∉ ids) l = [].
Proof.
  induction l as [|r l IH]; intros Hall; [reflexivity|].
  rewrite filter_cons_False.
  - apply IH. intros r' Hr'. apply Hall. right. exact Hr'.
  - intros Hn. apply Hn, Hall. left.
Qed.

Lemma filter_own_ids (l : list row) :
  filter (fun r => row_id r ∉ (row_id <$> l)) l = [].
Proof.
  apply filter_listed_ids. intros r Hr. apply list_elem_of_fmap. eauto.
Qed.

Lemma filter_unlisted_ids (l : list row) (ids : list string) :
  (forall r, r ∈ l -> row_id r ∉ ids) ->
  filter (fun r => row_id r ∉ ids) l = l.
Proof.
  induction l as [|r l IH]; intros Hall; [reflexivity|].
  rewrite filter_cons_True by (apply Hall; left).
  f_equal. apply IH. intros r' Hr'. apply Hall. right. exact Hr'.
Qed.

(** Clearing a collection either empties it or, when the service fails
    on it, raises and changes nothing. *)
Lemma clear_collection_run col report m :
  ((col ∉ down m) /\
   exists m', clear_collection col report m = (m', Ok tt) /\
     rows_of col m' = [] /\
     (report = false -> out m' = out m)) \/
  (col ∈ down m /\ clear_collection col report m = (m, Raise (ServiceError col))).
Proof.
  destruct (decide (col ∈ down m)) as [Hdn|Hup].
  - right. split; [exact Hdn|]. unfold clear_collection.
    rewrite (bind_raises _ _ _ _ _ (get_down _ _ Hdn)). reflexivity.
  - left. split; [exact Hup|]. unfold clear_collection.
    rewrite (bind_step _ _ _ _ _ (get_up _ _ Hup)).
    destruct (rows_of col m) as [|r rs] eqn:Hrows.
    + exists m. repeat split. exact Hrows.
    + rewrite (bind_step _ _ _ _ _ (delete_up _ _ _ Hup)).
      rewrite Hrows, filter_own_ids.
      destruct report.
      * eexists. split; [reflexivity|]. split; [|discriminate].
        unfold print, add_out, rows_of. simpl. rewrite lookup_insert_eq. reflexivity.
      * eexists. split; [reflexivity|]. split; [apply rows_of_insert|reflexivity].
Qed.

Lemma typed_rows_inv ids docs metas rs :
  Service.typed_rows ids docs metas = Some rs ->
  ids = (fun r => JStr (row_id r)) <$> rs /\
  docs = (fun r => JStr (row_doc r)) <$> rs /\
  metas = (fun r => JDict (row_meta r)) <$> rs.
Proof.
  revert docs metas rs. induction ids as [|i ids IH]; intros [|d docs] [|mt metas] rs;
    simpl; try discriminate.
  - intros [= <-]. auto.
  - destruct i; try discriminate. destruct d; try discriminate.
    destruct mt; try discriminate. simpl.
    destruct (Service.typed_rows ids docs metas) as [rs'|] eqn:E; [|discriminate].
    intros [= <-]. destruct (IH _ _ _ E) as (-> & -> & ->). auto.
Qed.

Lemma typed_rows_fmap rs :
  Service.typed_rows ((fun r => JStr (row_id r)) <$> rs)
                     ((fun r => JStr (row_doc r)) <$> rs)
                     ((fun r => JDict (row_meta r)) <$> rs) = Some rs.
Proof.
  induction rs as [|[i d mt] rs IH]; [reflexivity|].
  csimpl. rewrite IH. reflexivity.
Qed.

Lemma add_inv name docs ids metas m m' r :
  Service.add name docs ids metas m = (m', r) ->
  (r = Ok tt /\ (name ∉ down m) /\
   exists rs, Service.typed_rows ids docs metas = Some rs /\ rs <> [] /\
     NoDup (row_id <$> rs) /\ out m' = out m /\
     rows_of name m'
     = rows_of name m ++ (filter (fun r => row_id r ∉ (row_id <$> rows_of name m)) rs)) \/
  ((exists e, r = Raise e) /\ m' = m).
Proof.
  unfold Service.add, Service.call. case_bool_decide as Hdn.
  { intros [= <- <-]. right. eauto. }
  destruct (Service.typed_rows ids docs metas) as [[|r0 rs]|] eqn:Ht;
    try (intros [= <- <-]; right; eauto).
  case_bool_decide as Hnd.
  - intros [= <- <-]. left. repeat split; [exact Hdn|].
    exists (r0 :: rs). repeat split; [discriminate | exact Hnd |].
    apply rows_of_insert.
  - intros [= <- <-]. right. eauto.
Qed.

Lemma add_up name rs m :
  name ∉ down m -> rs <> [] -> NoDup (row_id <$> rs) -> rows_of name m = [] ->
  exists m',
    Service.add name ((fun r => JStr (row_doc r)) <$> rs)
                     ((fun r => JStr (row_id r)) <$> rs)
                     ((fun r => JDict (row_meta r)) <$> rs) m = (m', Ok tt) /\
    rows_of name m' = rs /\ out m' = out m /\
    m' = set_colls (insert name rs) m.
Proof.
  intros Hup Hne Hnd Hempty. unfold Service.add, Service.call.
  rewrite bool_decide_eq_false_2 by exact Hup.
  rewrite typed_rows_fmap. destruct rs as [|r0 rs]; [contradiction|].
  rewrite bool_decide_eq_true_2 by exact Hnd.
  rewrite Hempty. simpl app.
  rewrite filter_unlisted_ids by (intros r _ H; inversion H).
  eexists. split; [reflexivity|]. split; [apply rows_of_insert|split; reflexivity].
Qed.

(** ** Importing into one collection *)

Lemma Forall2_conj {A B} (P Q : A -> B -> Prop) (l : list A) (k : list B) :
  Forall2 P l k -> Forall2 Q l k -> Forall2 (fun x y => P x y /\ Q x y) l k.
Proof.
  intros HP. induction HP; intros HQ; inversion HQ; subst; constructor; auto.
Qed.

Lemma for_each_pure_inv {A B} (f : A -> M B) (l : list A) m m' ys :
  (forall x, pure_stmt (f x)) ->
  for_each f l m = (m', Ok ys) ->
  Forall2 (fun x y => f x m = (m, Ok y)) l ys.
Proof.
  intros Hf. revert m' ys. induction l as [|x l IH]; intros m' ys; simpl.
  - intros [= _ <-]. constructor.
  - intros H. apply bind_ok in H as (y & m1 & Hy & H).
    pose proof (Hf _ _ _ _ Hy) as ->.
    apply bind_ok in H as (ys' & m2 & Hys & H).
    pose proof (pure_for_each f l Hf _ _ _ Hys) as ->.
    injection H as _ <-. constructor; [exact Hy | apply (IH _ _ Hys)].
Qed.

Lemma for_each_run {A B} (f : A -> M B) (l : list A) (ys : list B) m :
  Forall2 (fun x y => f x m = (m, Ok y)) l ys ->
  for_each f l m = (m, Ok ys).
Proof.
  induction 1 as [|x y l ys Hxy _ IH]; [reflexivity|].
  simpl. rewrite (bind_step _ _ _ _ _ Hxy), (bind_step _ _ _ _ _ IH). reflexivity.
Qed.

Lemma subscript_ok_inv e key m m' v :
  subscript e key m = (m', Ok v) -> exists d, e = JDict d /\ dict_get d key = Some v.
Proof.
  destruct e; try discriminate. simpl.
  destruct (dict_get d key) eqn:E; [|discriminate].
  intros [= _ <-]. eauto.
Qed.

Lemma subscript_run d key v m :
  dict_get d key = Some v -> subscript (JDict d) key m = (m, Ok v).
Proof. simpl. intros ->. reflexivity. Qed.

Lemma pure_doc_of_entry mname e : pure_stmt (doc_of_entry mname e).
Proof.
  apply pure_bind; [apply pure_subscript|]. intros t. apply pure_format_value.
Qed.

Lemma doc_of_entry_inv mname e m m' v :
  doc_of_entry mname e m = (m', Ok v) ->
  exists d t, e = JDict d /\ dict_get d "text" = Some t /\
              v = format_value (py_str m) t mname "document".
Proof.
  intros H. apply bind_ok in H as (t & m1 & Ht & H).
  pose proof (pure_subscript _ _ _ _ _ Ht) as ->.
  apply subscript_ok_inv in Ht as (d & -> & Hd).
  injection H as _ <-. eauto.
Qed.

Lemma imported_lists_stored mname entries m m1 m2 m3 docs ids metas rs :
  for_each (doc_of_entry mname) entries m = (m1, Ok docs) ->
  for_each (fun entry => subscript entry "id") entries m = (m2, Ok ids) ->
  for_each (fun entry => subscript entry "metadata") entries m = (m3, Ok metas) ->
  Service.typed_rows ids docs metas = Some rs ->
  Forall2 (stored_as (py_str m) mname) entries rs.
Proof.
  intros Hd Hi Hm Ht.
  apply for_each_pure_inv in Hd; [|apply pure_doc_of_entry].
  apply for_each_pure_inv in Hi; [|intros; apply pure_subscript].
  apply for_each_pure_inv in Hm; [|intros; apply pure_subscript].
  apply typed_rows_inv in Ht as (-> & -> & ->).
  rewrite Forall2_fmap_r in Hd, Hi, Hm.
  pose proof (Forall2_conj _ _ _ _ Hd (Forall2_conj _ _ _ _ Hi Hm)) as H.
  eapply Forall2_impl; [exact H|]. clear. intros e r (Hd & Hi & Hm).
  apply doc_of_entry_inv in Hd as (d & t & -> & Ht & Hf).
  apply subscript_ok_inv in Hi as (d1 & [= <-] & Hi).
  apply subscript_ok_inv in Hm as (d2 & [= <-] & Hm).
  exists d, t. auto.
Qed.

(** What [import_into] does to its collection: on success the collection
    holds one row per entry, in file order; on failure it is as before
    (the service failed on it) or empty (cleared, then not filled). *)
Lemma import_into_inv entries col mname m m' r :
  import_into entries (col, mname) m = (m', r) ->
  out m' = out m /\
  ((r = Ok tt /\ (col ∉ down m) /\
    exists rows, rows <> [] /\ NoDup (row_id <$> rows) /\ rows_of col m' = rows /\
                 Forall2 (stored_as (py_str m) mname) entries rows) \/
   ((exists e, r = Raise e) /\
    ((col ∈ down m /\ m' = m) \/ ((col ∉ down m) /\ rows_of col m' = [])))).
Proof.
  unfold import_into. fold (doc_of_entry mname).
  destruct (clear_collection_run col false m) as [(Hup & m1 & Hc & Hrows & Hout) | (Hdn & Hc)].
  2:{ rewrite (bind_raises _ _ _ _ _ Hc). intros [= <- <-].
      split; [reflexivity|]. right. split; [eauto|]. left. auto. }
  rewrite (bind_step _ _ _ _ _ Hc). specialize (Hout eq_refl).
  destruct (confined_clear col false _ _ _ Hc) as (_ & _ & Hpy & _).
  assert (Hfail : forall e, out m1 = out m /\
    ((Raise e = Ok tt /\ (col ∉ down m) /\
      exists rows, rows <> [] /\ NoDup (row_id <$> rows) /\ rows_of col m1 = rows /\
                   Forall2 (stored_as (py_str m) mname) entries rows) \/
     ((exists e', @Raise unit e = Raise e') /\
      ((col ∈ down m /\ m1 = m) \/ ((col ∉ down m) /\ rows_of col m1 = []))))).
  { intros e. split; [exact Hout|]. right. split; [eauto|]. right. auto. }
  unfold bind at 1.
  destruct (for_each (doc_of_entry mname) entries m1) as [m2 [docs|e]] eqn:Hd.
  2:{ pose proof (pure_for_each _ _ (pure_doc_of_entry mname) _ _ _ Hd) as ->.
      intros [= <- <-]. apply Hfail. }
  pose proof (pure_for_each _ _ (pure_doc_of_entry mname) _ _ _ Hd) as ->.
  unfold bind at 1.
  destruct (for_each (fun entry => subscript entry "id") entries m1) as [m2 [ids|e]] eqn:Hi.
  2:{ pose proof (pure_for_each _ _ (fun x => pure_subscript x "id") _ _ _ Hi) as ->.
      intros [= <- <-]. apply Hfail. }
  pose proof (pure_for_each _ _ (fun x => pure_subscript x "id") _ _ _ Hi) as ->.
  unfold bind at 1.
  destruct (for_each (fun entry => subscript entry "metadata") entries m1)
    as [m2 [metas|e]] eqn:Hm.
  2:{ pose proof (pure_for_each _ _ (fun x => pure_subscript x "metadata") _ _ _ Hm) as ->.
      intros [= <- <-]. apply Hfail. }
  pose proof (pure_for_each _ _ (fun x => pure_subscript x "metadata") _ _ _ Hm) as ->.
  intros Hadd. apply add_inv in Hadd
    as [(-> & _ & rs & Ht & Hne & Hnd & Hout' & Hrs) | ((e & ->) & ->)].
  - split; [congruence|]. left. repeat split; [exact Hup|].
    exists rs. repeat split; auto.
    + rewrite Hrs, Hrows. simpl. apply filter_unlisted_ids. intros r _ H. inversion H.
    + rewrite <- Hpy. eapply imported_lists_stored; eauto.
  - apply Hfail.
Qed.

Lemma stored_as_fact str mname e r f :
  stored_as str mname e r -> entry_fact e = Some f -> r = stored_row mname f.
Proof.
  intros (d & t & -> & Hi & Ht & Hf & Hm). simpl. rewrite Hi, Ht, Hm.
  destruct t; try discriminate. intros [= <-]. simpl in Hf.
  destruct r as [i doc mt]. unfold stored_row. simpl in *. congruence.
Qed.

Lemma stored_as_bge_fact str mname e r :
  PyStr.contains "bge" (PyStr.lower mname) = true ->
  stored_as str mname e r -> exists f, entry_fact e = Some f.
Proof.
  intros Hbge (d & t & -> & Hi & Ht & Hf & Hm). simpl. rewrite Hi, Ht, Hm.
  destruct t; simpl in Hf; rewrite ?Hbge in Hf; simpl in Hf; try discriminate.
  eauto.
Qed.

Lemma stored_rows_of_facts str mname entries rows facts :
  Forall2 (stored_as str mname) entries rows ->
  mapM entry_fact entries = Some facts ->
  rows = stored_row mname <$> facts.
Proof.
  intros Hst Hf. apply mapM_Some in Hf. revert rows Hst.
  induction Hf as [|e f entries facts Hef _ IH]; intros rows Hst; inversion Hst; subst.
  - reflexivity.
  - csimpl. f_equal; [eapply stored_as_fact; eauto | apply IH; assumption].
Qed.

Lemma facts_of_bge_rows str mname entries rows :
  PyStr.contains "bge" (PyStr.lower mname) = true ->
  Forall2 (stored_as str mname) entries rows ->
  exists facts, mapM entry_fact entries = Some facts.
Proof.
  intros Hbge Hst. induction Hst as [|e r entries rows Her _ [facts IH]].
  - exists []. reflexivity.
  - destruct (stored_as_bge_fact _ _ _ _ Hbge Her) as [f Hf].
    exists (f :: facts). apply mapM_Some. constructor; [exact Hf|].
    apply mapM_Some, IH.
Qed.

(** ** Opening the collections of the model set *)

Lemma get_or_create_run name m :
  exists m', Service.get_or_create_collection name m = (m', Ok name) /\ untouched m m'.
Proof.
  unfold Service.get_or_create_collection.
  destruct (colls m !! name) as [rows|] eqn:E.
  - exists m. repeat split.
  - eexists. split; [reflexivity|]. repeat split. intros n.
    unfold rows_of. simpl. destruct (decide (name = n)) as [<-|Hne].
    + rewrite lookup_insert_eq, E. reflexivity.
    + rewrite lookup_insert_ne by exact Hne. reflexivity.
Qed.

Lemma open_collections_keep_run ms m :
  exists m',
    open_collections false ms m
    = (m', Ok ((fun model => let '(mname, pfx) := resolve_embedding_model model in
                             (collection_name pfx, mname)) <$> ms)) /\
    untouched m m'.
Proof.
  revert m. induction ms as [|model ms IH]; intros m.
  - exists m. repeat split.
  - simpl. destruct (resolve_embedding_model model) as [mname pfx].
    destruct (get_or_create_run (collection_name pfx) m) as (m1 & Hg & Hu1).
    rewrite (bind_step _ _ _ _ _ Hg).
    destruct (IH m1) as (m2 & Ho & Hu2).
    unfold bind at 1. unfold ret at 1. rewrite (bind_step _ _ _ _ _ Ho).
    exists m2. split; [reflexivity|].
    destruct Hu1 as (R1 & D1 & K1 & P1 & O1), Hu2 as (R2 & D2 & K2 & P2 & O2).
    repeat split; [intros n; rewrite R2; apply R1 | congruence ..].
Qed.

Lemma get_all_collections_keep_run m :
  exists m', get_all_collections_for_type false m = (m', Ok model_set) /\ untouched m m'.
Proof. apply open_collections_keep_run. Qed.

Lemma model_set_value :
  model_set = [("bge_base_imported_data", "BAAI/bge-base-en-v1.5");
               ("bge_large_imported_data", "BAAI/bge-large-en-v1.5");
               ("e5_large_imported_data", "intfloat/e5-large-v2")].
Proof. reflexivity. Qed.

Lemma model_set_names_distinct : NoDup (model_set.*1).
Proof. rewrite model_set_value. by apply (bool_decide_unpack _). Qed.

(** ** The fan-out of the import *)

Lemma for_loop_cons {A} (body : A -> M unit) (x : A) (l : list A) (m : machine) :
  for_loop body (x :: l) m
  = match body x m with
    | (m1, Ok _) => for_loop body l m1
    | (m1, Raise e) => (m1, Raise e)
    end.
Proof. reflexivity. Qed.

Lemma confined_import_loop entries targets :
  confined (targets.*1) (for_loop (import_into entries) targets).
Proof.
  apply confined_for_loop. intros [col mname] Hin.
  apply (confined_mono [col]); [|apply confined_import_into].
  intros n Hn. apply list_elem_of_singleton in Hn as ->.
  apply list_elem_of_fmap. exists (col, mname). auto.
Qed.

Lemma silent_import_loop entries targets : silent (for_loop (import_into entries) targets).
Proof.
  induction targets as [|[col mname] ts IH]; intros m m' r.
  - intros [= <- _]. reflexivity.
  - rewrite for_loop_cons.
    destruct (import_into entries (col, mname) m) as [m1 [[]|e]] eqn:E.
    + intros H. apply IH in H. apply import_into_inv in E as [E _]. congruence.
    + intros [= <- _]. apply import_into_inv in E as [E _]. exact E.
Qed.

Lemma import_loop_inv entries targets m m' r :
  NoDup (targets.*1) ->
  for_loop (import_into entries) targets m = (m', r) ->
  (r = Ok tt /\ Forall (imported entries m m') targets) \/
  (exists e done target rest,
     r = Raise e /\ targets = done ++ target :: rest /\
     Forall (imported entries m m') done /\
     import_failed_at m m' target /\
     Forall (not_attempted m m') rest).
Proof.
  revert m. induction targets as [|[col mname] ts IH]; intros m Hnd.
  - intros [= <- <-]. left. split; [reflexivity | constructor].
  - rewrite fmap_cons in Hnd. apply NoDup_cons in Hnd as [Hcol Hnd]. cbn [fst] in Hcol.
    rewrite for_loop_cons.
    destruct (import_into entries (col, mname) m) as [m1 r1] eqn:E.
    pose proof (confined_import_into _ _ _ _ _ _ E) as (Hd1 & _ & Hp1 & Hfr1).
    apply import_into_inv in E
      as [_ [(-> & Hup & rows & Hne & Hids & Hrows & Hst) | ((e & ->) & Hat)]].
    + intros Hloop.
      pose proof (confined_import_loop _ _ _ _ _ Hloop) as (_ & _ & _ & Hfr).
      assert (Hhead : imported entries m m' (col, mname)).
      { split; [exact Hup|]. exists rows. repeat split; auto.
        simpl. rewrite Hfr by exact Hcol. exact Hrows. }
      assert (Hother : forall t, t ∈ ts -> rows_of t.1 m1 = rows_of t.1 m).
      { intros t Ht. apply Hfr1. intros Hin. apply list_elem_of_singleton in Hin.
        apply Hcol. rewrite <- Hin. apply list_elem_of_fmap. eauto. }
      assert (Hconv : forall l, (forall t, t ∈ l -> t ∈ ts) ->
                Forall (imported entries m1 m') l -> Forall (imported entries m m') l).
      { intros l _ Hl. eapply Forall_impl; [exact Hl|].
        intros t (Hu & rs & ? & ? & ? & ?).
        split; [congruence|]. exists rs. repeat split; auto. congruence. }
      apply IH in Hloop as [(-> & Hall) | (e & done & target & rest & -> & -> & Hdone & Hat & Hrest)];
        [| |exact Hnd].
      * left. split; [reflexivity|]. constructor; [exact Hhead|].
        apply (Hconv ts); auto.
      * right. exists e, ((col, mname) :: done), target, rest.
        split; [reflexivity|]. split; [reflexivity|].
        split; [constructor; [exact Hhead|]; apply (Hconv done); auto;
                intros t Ht; apply elem_of_app; auto|].
        split.
        -- assert (Ht : target ∈ done ++ target :: rest)
             by (apply elem_of_app; right; left).
           unfold import_failed_at in *. rewrite <- Hd1, <- (Hother _ Ht). exact Hat.
        -- rewrite Forall_forall in Hrest |- *. intros t Ht.
           unfold not_attempted. rewrite (Hrest t Ht). apply Hother.
           apply elem_of_app. right. right. exact Ht.
    + intros [= <- <-]. right. exists e, [], (col, mname), ts.
      repeat split; auto.
      * destruct Hat as [[Hdn ->] | [Hup Hrows]]; [left | right]; auto.
      * apply Forall_forall. intros t Ht. apply Hfr1.
        intros Hin. apply list_elem_of_singleton in Hin.
        apply Hcol. rewrite <- Hin. apply list_elem_of_fmap. eauto.
Qed.

Lemma imported_from_untouched entries m m0 m' t :
  untouched m m0 -> imported entries m0 m' t -> imported entries m m' t.
Proof.
  intros (_ & Hd & _ & Hp & _) (Hu & rows & ? & ? & ? & ?).
  split; [congruence|]. exists rows. repeat split; auto. congruence.
Qed.

(** The import after validation: either every collection of the model set
    received the entries and the success message is printed, or the
    fan-out stopped at the first collection whose import raised, and that
    one exception is all the caller gets. *)
Lemma import_all_inv entries m m' r :
  import_all (JList entries) m = (m', r) ->
  (r = Ok tt /\ out m' = out m ++ [EvImported (length entries)] /\
   Forall (imported entries m m') model_set) \/
  (exists e done target rest,
     r = Raise e /\ out m' = out m /\ model_set = done ++ target :: rest /\
     Forall (imported entries m m') done /\
     import_failed_at m m' target /\
     Forall (not_attempted m m') rest).
Proof.
  unfold import_all.
  destruct (get_all_collections_keep_run m) as (m0 & Hopen & Hu).
  rewrite (bind_step _ _ _ _ _ Hopen).
  unfold bind. destruct (for_loop (import_into entries) model_set m0) as [m1 r1] eqn:Hloop.
  pose proof (silent_import_loop _ _ _ _ _ Hloop) as Hout.
  pose proof Hu as (Hr0 & Hd0 & _ & _ & Ho0).
  apply import_loop_inv in Hloop
    as [(-> & Hall) | (e & done & target & rest & -> & Hsplit & Hdone & Hat & Hrest)];
    [| |apply model_set_names_distinct].
  - intros [= <- <-]. left. split; [reflexivity|]. split.
    + simpl. congruence.
    + eapply Forall_impl; [exact Hall|]. intros t Ht.
      apply (imported_from_untouched _ _ _ _ _ Hu).
      destruct Ht as (? & rows & ? & ? & ? & ?). split; [assumption|].
      exists rows. repeat split; auto.
  - intros [= <- <-]. right. exists e, done, target, rest.
    split; [reflexivity|]. split; [congruence|]. split; [exact Hsplit|].
    split; [|split].
    + eapply Forall_impl; [exact Hdone|]. intros t.
      apply (imported_from_untouched _ _ _ _ _ Hu).
    + unfold import_failed_at in *. rewrite <- Hd0, <- Hr0. exact Hat.
    + eapply Forall_impl; [exact Hrest|]. intros t. unfold not_attempted.
      rewrite Hr0. auto.
Qed.

Lemma stored_row_id mname (facts : list fact) :
  row_id <$> (stored_row mname <$> facts) = fact_id <$> facts.
Proof. rewrite <- list_fmap_compose. reflexivity. Qed.

Lemma stored_row_meta mname (facts : list fact) :
  row_meta <$> (stored_row mname <$> facts) = fact_meta <$> facts.
Proof. rewrite <- list_fmap_compose. reflexivity. Qed.

(** When the import succeeds, the entries were well-formed facts with
    distinct ids, and every collection of the model set holds exactly
    those facts, in file order, each with its text formatted for the
    collection's model. *)
Lemma import_all_success entries m m' :
  import_all (JList entries) m = (m', Ok tt) ->
  exists facts,
    mapM entry_fact entries = Some facts /\ facts <> [] /\
    NoDup (fact_id <$> facts) /\
    out m' = out m ++ [EvImported (length entries)] /\
    forall col mname, (col, mname) ∈ model_set ->
      (col ∉ down m) /\ rows_of col m' = stored_row mname <$> facts.
Proof.
  intros H. apply import_all_inv in H
    as [(_ & Hout & Hall) | (e & ? & ? & ? & [=] & _)].
  assert (Hfirst : imported entries m m' ("bge_base_imported_data", "BAAI/bge-base-en-v1.5")).
  { rewrite Forall_forall in Hall. apply Hall. rewrite model_set_value. left. }
  destruct Hfirst as (_ & rows & Hne & Hnd & Hrows & Hst). cbn [fst snd] in Hrows, Hst.
  destruct (facts_of_bge_rows (py_str m) "BAAI/bge-base-en-v1.5" entries rows eq_refl Hst)
    as [facts Hfacts].
  pose proof (stored_rows_of_facts _ _ _ _ _ Hst Hfacts) as ->.
  exists facts. split; [exact Hfacts|]. split.
  { intros ->. apply Hne. reflexivity. }
  split; [rewrite stored_row_id in Hnd; exact Hnd|]. split; [exact Hout|].
  intros col mname Hin. rewrite Forall_forall in Hall.
  destruct (Hall _ Hin) as (Hup & rows' & _ & _ & Hrows' & Hst').
  split; [exact Hup|]. simpl in Hrows'. rewrite Hrows'.
  eapply stored_rows_of_facts; eauto.
Qed.

(** ** The import succeeds on well-formed facts *)

Lemma entry_fact_inv e f :
  entry_fact e = Some f ->
  exists d, e = JDict d /\
    dict_get d "id" = Some (JStr (fact_id f)) /\
    dict_get d "text" = Some (JStr (fact_text f)) /\
    dict_get d "metadata" = Some (JDict (fact_meta f)).
Proof.
  destruct e as [| | | | |d]; try discriminate. simpl.
  intros H. repeat case_match; try discriminate. subst.
  injection H as <-. exists d. repeat split; assumption.
Qed.

Lemma import_into_run entries facts col mname m :
  mapM entry_fact entries = Some facts -> facts <> [] ->
  NoDup (fact_id <$> facts) -> col ∉ down m ->
  exists m', import_into entries (col, mname) m = (m', Ok tt).
Proof.
  intros Hfacts Hne Hnd Hup. apply mapM_Some in Hfacts.
  unfold import_into. fold (doc_of_entry mname).
  destruct (clear_collection_run col false m) as [(_ & m1 & Hc & Hrows & _) | (Hdn & _)];
    [|contradiction].
  destruct (confined_clear col false _ _ _ Hc) as (Hd & _ & _ & _).
  rewrite (bind_step _ _ _ _ _ Hc).
  set (rs := stored_row mname <$> facts).
  assert (Hdocs : for_each (doc_of_entry mname) entries m1
                  = (m1, Ok ((fun r => JStr (row_doc r)) <$> rs))).
  { apply for_each_run. unfold rs. rewrite !Forall2_fmap_r.
    eapply Forall2_impl; [exact Hfacts|]. intros e f Hef.
    apply entry_fact_inv in Hef as (d & -> & _ & Ht & _).
    unfold doc_of_entry. rewrite (bind_step _ _ _ _ _ (subscript_run _ _ _ _ Ht)).
    reflexivity. }
  assert (Hids : for_each (fun entry => subscript entry "id") entries m1
                 = (m1, Ok ((fun r => JStr (row_id r)) <$> rs))).
  { apply for_each_run. unfold rs. rewrite !Forall2_fmap_r.
    eapply Forall2_impl; [exact Hfacts|]. intros e f Hef.
    apply entry_fact_inv in Hef as (d & -> & Hi & _ & _).
    apply subscript_run. exact Hi. }
  assert (Hmetas : for_each (fun entry => subscript entry "metadata") entries m1
                   = (m1, Ok ((fun r => JDict (row_meta r)) <$> rs))).
  { apply for_each_run. unfold rs. rewrite !Forall2_fmap_r.
    eapply Forall2_impl; [exact Hfacts|]. intros e f Hef.
    apply entry_fact_inv in Hef as (d & -> & _ & _ & Hm).
    apply subscript_run. exact Hm. }
  rewrite (bind_step _ _ _ _ _ Hdocs), (bind_step _ _ _ _ _ Hids),
    (bind_step _ _ _ _ _ Hmetas).
  destruct (add_up col rs m1) as (m2 & Hadd & _).
  - congruence.
  - unfold rs. destruct facts; [contradiction | discriminate].
  - unfold rs. rewrite stored_row_id. exact Hnd.
  - exact Hrows.
  - eauto.
Qed.

Lemma import_loop_run entries facts targets m :
  mapM entry_fact entries = Some facts -> facts <> [] ->
  NoDup (fact_id <$> facts) ->
  Forall (fun t => t.1 ∉ down m) targets ->
  exists m', for_loop (import_into entries) targets m = (m', Ok tt).
Proof.
  intros Hfacts Hne Hnd. revert m.
  induction targets as [|[col mname] ts IH]; intros m Hup.
  - exists m. reflexivity.
  - apply Forall_cons in Hup as [Hcol Hts]. rewrite for_loop_cons.
    destruct (import_into_run _ _ col mname m Hfacts Hne Hnd Hcol) as (m1 & H1).
    rewrite H1.
    destruct (confined_import_into _ _ _ _ _ _ H1) as (Hd & _).
    apply IH. rewrite Hd. exact Hts.
Qed.

Lemma import_all_run entries facts m :
  mapM entry_fact entries = Some facts -> facts <> [] ->
  NoDup (fact_id <$> facts) ->
  (forall col mname, (col, mname) ∈ model_set -> col ∉ down m) ->
  exists m', import_all (JList entries) m = (m', Ok tt).
Proof.
  intros Hfacts Hne Hnd Hup. unfold import_all.
  destruct (get_all_collections_keep_run m) as (m0 & Hopen & (_ & Hd & _)).
  rewrite (bind_step _ _ _ _ _ Hopen).
  destruct (import_loop_run entries facts model_set m0 Hfacts Hne Hnd) as (m1 & Hloop).
  { apply Forall_forall. intros [col mname] Hin. rewrite Hd. eapply Hup, Hin. }
  rewrite (bind_step _ _ _ _ _ Hloop). eexists. reflexivity.
Qed.

(** A file of well-formed facts passes validation. *)
Lemma facts_validate entries facts m :
  mapM entry_fact entries = Some facts -> facts <> [] ->
  validate_file_structure (JList entries) m = (m, Ok true).
Proof.
  intros Hfacts Hne.
  destruct (validate_file_structure_run (JList entries) m) as (b & evs & Hrun & Hb & Hevs).
  assert (b = true) as ->.
  { apply Hb. exists entries. split; [reflexivity|]. apply mapM_Some in Hfacts. split.
    - intros ->. inversion Hfacts. subst. contradiction.
    - apply Forall_take. apply Forall_forall. intros e He.
      apply list_elem_of_lookup in He as [i Hi].
      destruct (Forall2_lookup_l _ _ _ _ _ Hfacts Hi) as (f & _ & Hef).
      apply entry_fact_inv in Hef as (d & -> & _ & Ht & Hm).
      exists d, (fact_meta f). repeat split; congruence. }
  rewrite Hrun, (Hevs eq_refl), add_outs_nil. reflexivity.
Qed.

Lemma import_all_confined file_data m m' r :
  import_all file_data m = (m', r) ->
  down m' = down m /\ ranking m' = ranking m /\ py_str m' = py_str m.
Proof.
  destruct file_data as [| | | |entries|]; try (intros [= <- _]; auto).
  unfold import_all.
  destruct (get_all_collections_keep_run m) as (m0 & Hopen & (_ & Hd & Hk & Hp & _)).
  rewrite (bind_step _ _ _ _ _ Hopen). intros H.
  assert (Hc : confined (model_set.*1)
                 (for_loop (import_into entries) model_set ;;
                  print (EvImported (length entries)))).
  { apply confined_bind; [apply confined_import_loop|]. intros _. apply confined_print. }
  apply Hc in H as (Hd' & Hk' & Hp' & _). repeat split; congruence.
Qed.

(** C5 (as the code has it).  Importing a file of N well-formed facts with
    distinct ids, while the service serves every collection of the model
    set, succeeds whatever the collections held before, and leaves exactly
    N rows in every collection: the ids and the metadata are those of the
    file, in file order, and the stored document is the text formatted for
    the collection's model, that is the text itself in the two bge
    collections and "passage: " followed by the text in the e5
    collection. *)
Theorem import_replaces_every_collection
    (entries : list json) (facts : list fact) (ss : session) (m : machine) :
  mapM entry_fact entries = Some facts ->
  facts <> [] ->
  NoDup (fact_id <$> facts) ->
  (forall col mname, (col, mname) ∈ model_set -> col ∉ down m) ->
  exists m',
    cmd_import (JList entries) ss m = (ss, m') /\
    out m' = out m ++ [EvImported (length entries)] /\
    (forall col mname, (col, mname) ∈ model_set ->
       length (rows_of col m') = length entries /\
       row_id <$> rows_of col m' = fact_id <$> facts /\
       row_meta <$> rows_of col m' = fact_meta <$> facts /\
       row_doc <$> rows_of col m'
       = (fun f => format_for_embedding (fact_text f) mname "document") <$> facts) /\
    row_doc <$> rows_of "bge_base_imported_data" m' = fact_text <$> facts /\
    row_doc <$> rows_of "bge_large_imported_data" m' = fact_text <$> facts /\
    row_doc <$> rows_of "e5_large_imported_data" m'
    = (fun f => "passage: " +:+ fact_text f) <$> facts.
Proof.
  intros Hfacts Hne Hnd Hup.
  destruct (import_all_run entries facts m Hfacts Hne Hnd Hup) as (m' & Hrun).
  exists m'.
  destruct (import_all_success _ _ _ Hrun) as (facts' & Hfacts' & _ & _ & Hout & Hrows).
  assert (facts' = facts) as -> by congruence.
  assert (Hdocs : forall col mname, (col, mname) ∈ model_set ->
            row_doc <$> rows_of col m'
            = (fun f => format_for_embedding (fact_text f) mname "document") <$> facts).
  { intros col mname Hin. destruct (Hrows _ _ Hin) as [_ ->].
    rewrite <- list_fmap_compose. reflexivity. }
  split; [|split; [exact Hout|split; [|split; [|split]]]].
  - unfold cmd_import, try_log, import_file.
    rewrite (bind_step _ _ _ _ _ (facts_validate _ _ m Hfacts Hne)), Hrun. reflexivity.
  - intros col mname Hin. destruct (Hrows _ _ Hin) as [_ Hr].
    split; [|split; [|split]].
    + rewrite Hr, length_fmap. apply length_mapM in Hfacts. congruence.
    + rewrite Hr. apply stored_row_id.
    + rewrite Hr. apply stored_row_meta.
    + apply Hdocs, Hin.
  - rewrite (Hdocs _ "BAAI/bge-base-en-v1.5") by (rewrite model_set_value; repeat constructor).
    reflexivity.
  - rewrite (Hdocs _ "BAAI/bge-large-en-v1.5") by (rewrite model_set_value; repeat constructor).
    reflexivity.
  - rewrite (Hdocs _ "intfloat/e5-large-v2") by (rewrite model_set_value; repeat constructor).
    reflexivity.
Qed.

Lemma import_replaces_every_collection_witness :
  exists m',
    cmd_import (JList Sample.two_entries) (Sample.session_of "bge-base")
      (Sample.populated []) = (Sample.session_of "bge-base", m') /\
    out m' = [EvImported 2] /\
    row_id <$> rows_of Sample.e5_large m' = ["f1"; "f2"] /\
    row_doc <$> rows_of Sample.bge_base m'
    = ["refund window is 30 days"; "orders ship in 2 days"] /\
    row_doc <$> rows_of Sample.e5_large m'
    = ["passage: refund window is 30 days"; "passage: orders ship in 2 days"].
Proof.
  destruct (import_replaces_every_collection Sample.two_entries Sample.two_facts
              (Sample.session_of "bge-base") (Sample.populated []))
    as (m' & Hcmd & Hout & Hall & Hbb & _ & He5).
  - reflexivity.
  - discriminate.
  - apply (bool_decide_unpack _). reflexivity.
  - intros col mname _. apply not_elem_of_empty.
  - exists m'. split; [exact Hcmd|]. split; [exact Hout|].
    split; [|split; [exact Hbb | exact He5]].
    apply (Hall Sample.e5_large "intfloat/e5-large-v2").
    rewrite model_set_value. repeat constructor.
Defined.

(** C5, as stated, fails on the text: in the e5 collection the stored
    document is not the imported text. *)
Lemma import_e5_documents_differ_from_texts :
  let m' := (cmd_import (JList Sample.two_entries) (Sample.session_of "bge-base")
               (Sample.populated [])).2 in
  rows_of Sample.e5_large (Sample.populated []) <> [] /\
  out m' = [EvImported 2] /\
  length (rows_of Sample.e5_large m') = 2 /\
  row_doc <$> rows_of Sample.e5_large m'
  = ["passage: refund window is 30 days"; "passage: orders ship in 2 days"] /\
  row_doc <$> rows_of Sample.e5_large m' <> fact_text <$> Sample.two_facts.
Proof. vm_compute. repeat split; discriminate. Qed.

(** C2 (as the code has it).  After an import that succeeded on every
    collection, listing any collection of the model set returns, for every
    imported fact, a row with the fact's id, its metadata unchanged, and as
    document the text formatted for the collection's model: the text
    itself for a bge model, and "passage: " followed by the text for the
    e5 model. *)
Theorem listing_after_import_returns_formatted_text
    (entries : list json) (m m' : machine) :
  import_all (JList entries) m = (m', Ok tt) ->
  exists facts,
    mapM entry_fact entries = Some facts /\
    forall f col mname,
      f ∈ facts -> (col, mname) ∈ model_set ->
      exists rows,
        Service.get col m' = (m', Ok rows) /\
        Row (fact_id f) (format_for_embedding (fact_text f) mname "document")
            (fact_meta f) ∈ rows /\
        (PyStr.contains "bge" (PyStr.lower mname) = true ->
         format_for_embedding (fact_text f) mname "document" = fact_text f) /\
        (mname = "intfloat/e5-large-v2" ->
         format_for_embedding (fact_text f) mname "document"
         = "passage: " +:+ fact_text f).
Proof.
  intros Hrun.
  destruct (import_all_success _ _ _ Hrun) as (facts & Hfacts & _ & _ & _ & Hrows).
  destruct (import_all_confined _ _ _ _ Hrun) as (Hd & _).
  exists facts. split; [exact Hfacts|].
  intros f col mname Hf Hin. destruct (Hrows _ _ Hin) as [Hup Hr].
  exists (stored_row mname <$> facts). split; [|split; [|split]].
  - rewrite get_up by (rewrite Hd; exact Hup). rewrite Hr. reflexivity.
  - apply list_elem_of_fmap. exists f. split; [reflexivity | exact Hf].
  - intros Hbge. unfold format_for_embedding. rewrite Hbge. reflexivity.
  - intros ->. reflexivity.
Qed.

Lemma listing_after_import_returns_formatted_text_witness :
  let m' := (import_all (JList Sample.two_entries) (Sample.populated [])).1 in
  exists rows,
    Service.get Sample.e5_large m' = (m', Ok rows) /\
    Row "f1" "passage: refund window is 30 days" Sample.tagged ∈ rows.
Proof.
  intros m'.
  destruct (listing_after_import_returns_formatted_text Sample.two_entries
              (Sample.populated []) m') as (facts & Hfacts & Hlist).
  - vm_compute. reflexivity.
  - injection Hfacts as <-.
    destruct (Hlist (Fact "f1" "refund window is 30 days" Sample.tagged)
                Sample.e5_large "intfloat/e5-large-v2") as (rows & Hget & Hin & _).
    + left.
    + rewrite model_set_value. repeat constructor.
    + exists rows. split; [exact Hget | exact Hin].
Defined.

(** C2, as stated, fails for the e5 collection: the document listed there
    is not the text that was passed in. *)
Lemma listing_e5_returns_prefixed_text :
  let m' := (import_all (JList [Sample.entry "f1" "refund window is 30 days" Sample.tagged])
               (Sample.populated [])).1 in
  import_all (JList [Sample.entry "f1" "refund window is 30 days" Sample.tagged])
    (Sample.populated []) = (m', Ok tt) /\
  (Service.get Sample.e5_large m').2
  = Ok [Row "f1" "passage: refund window is 30 days" Sample.tagged] /\
  "passage: refund window is 30 days" <> "refund window is 30 days".
Proof. vm_compute. split; [reflexivity|]. split; [reflexivity | discriminate]. Qed.

(** C4 (as the code has it).  When the import raises on a collection, the
    fan-out stops there: the collections before it in the model set hold
    the imported rows, the failing one is as before or left empty, the
    collections after it are not attempted and keep their rows, nothing is
    printed but one logged error carrying the exception, and the session
    is unchanged. *)
Theorem import_stops_at_first_failure
    (entries : list json) (ss : session) (m m' : machine) (e : exn) :
  (validate_file_structure (JList entries) m).2 = Ok true ->
  import_all (JList entries) m = (m', Raise e) ->
  cmd_import (JList entries) ss m = (ss, add_out (EvLogError e) m') /\
  out (add_out (EvLogError e) m') = out m ++ [EvLogError e] /\
  exists done target rest,
    model_set = done ++ target :: rest /\
    Forall (imported entries m m') done /\
    import_failed_at m m' target /\
    Forall (not_attempted m m') rest.
Proof.
  intros Hval Hrun.
  destruct (validate_file_structure_run (JList entries) m) as (b & evs & Hv & _ & Hevs).
  rewrite Hv in Hval. simpl in Hval. injection Hval as ->.
  rewrite (Hevs eq_refl), add_outs_nil in Hv.
  pose proof Hrun as Hinv. apply import_all_inv in Hinv
    as [([=] & _) | (e' & done & target & rest & [= <-] & Hout & Hsplit & Hd & Ht & Hr)].
  split; [|split].
  - unfold cmd_import, try_log, import_file.
    rewrite (bind_step _ _ _ _ _ Hv), Hrun. reflexivity.
  - simpl. rewrite Hout. reflexivity.
  - exists done, target, rest. auto.
Qed.

Lemma import_stops_at_first_failure_witness :
  let m' := (import_all (JList Sample.two_entries)
               (Sample.populated [Sample.bge_large])).1 in
  cmd_import (JList Sample.two_entries) (Sample.session_of "bge-base")
    (Sample.populated [Sample.bge_large])
  = (Sample.session_of "bge-base",
     add_out (EvLogError (ServiceError Sample.bge_large)) m').
Proof.
  apply (import_stops_at_first_failure Sample.two_entries
           (Sample.session_of "bge-base")
           (Sample.populated [Sample.bge_large])
           (import_all (JList Sample.two_entries)
              (Sample.populated [Sample.bge_large])).1
           (ServiceError Sample.bge_large)).
  - vm_compute. reflexivity.
  - vm_compute. reflexivity.
Defined.

(** C4, as stated, fails: with the second collection failing, the third
    is served by the service but is not attempted and keeps its old row,
    and the caller gets one logged error, no outcome per model. *)
Lemma import_failure_skips_later_collections :
  let m := Sample.populated [Sample.bge_large] in
  let m' := (cmd_import (JList Sample.two_entries) (Sample.session_of "bge-base") m).2 in
  row_id <$> rows_of Sample.bge_base m' = ["f1"; "f2"] /\
  rows_of Sample.bge_large m' = rows_of Sample.bge_large m /\
  (Sample.e5_large ∉ down m) /\
  rows_of Sample.e5_large m' = Sample.legacy_rows "intfloat/e5-large-v2" /\
  out m' = [EvLogError (ServiceError Sample.bge_large)].
Proof.
  split; [vm_compute; reflexivity|]. split; [vm_compute; reflexivity|]. split.
  - apply (bool_decide_unpack _). vm_compute. reflexivity.
  - split; vm_compute; reflexivity.
Qed.

(** ** An entry that validation does not look at *)

Lemma cmd_import_valid entries ss m :
  (validate_file_structure (JList entries) m).2 = Ok true ->
  cmd_import (JList entries) ss m = (ss, try_log (import_all (JList entries)) m).
Proof.
  intros Hval.
  destruct (validate_file_structure_run (JList entries) m) as (b & evs & Hv & _ & Hevs).
  rewrite Hv in Hval. simpl in Hval. injection Hval as ->.
  rewrite (Hevs eq_refl), add_outs_nil in Hv.
  unfold cmd_import, import_file, try_log.
  rewrite (bind_step _ _ _ _ _ Hv). reflexivity.
Qed.

Lemma first_three_valid entries m :
  entries <> [] -> Forall entry_ok (take 3 entries) ->
  (validate_file_structure (JList entries) m).2 = Ok true.
Proof.
  intros Hne Hok.
  destruct (validate_file_structure_run (JList entries) m) as (b & evs & Hv & Hb & _).
  rewrite Hv. simpl. f_equal. apply Hb. eauto.
Qed.

Lemma imported_has_metadata entries m m' t i d :
  imported entries m m' t -> entries !! i = Some (JDict d) ->
  dict_get d "metadata" <> None.
Proof.
  intros (_ & rows & _ & _ & _ & Hst) Hi.
  destruct (Forall2_lookup_l _ _ _ _ _ Hst Hi) as (r & _ & d' & t' & [= <-] & _ & _ & _ & Hm).
  congruence.
Qed.

(** An entry without "metadata" anywhere in the file makes the import
    raise in the first collection of the model set; the other two are not
    reached. *)
Lemma import_with_missing_metadata entries i d m m' r :
  entries !! i = Some (JDict d) -> dict_get d "metadata" = None ->
  import_all (JList entries) m = (m', r) ->
  exists e, r = Raise e /\ out m' = out m /\
    import_failed_at m m' ("bge_base_imported_data", "BAAI/bge-base-en-v1.5") /\
    not_attempted m m' ("bge_large_imported_data", "BAAI/bge-large-en-v1.5") /\
    not_attempted m m' ("e5_large_imported_data", "intfloat/e5-large-v2").
Proof.
  intros Hi Hm Hrun. apply import_all_inv in Hrun
    as [(_ & _ & Hall) | (e & done & target & rest & -> & Hout & Hsplit & Hd & Ht & Hr)].
  - exfalso. rewrite model_set_value in Hall. apply Forall_cons in Hall as [H1 _].
    exact (imported_has_metadata _ _ _ _ _ _ H1 Hi Hm).
  - destruct done as [|t0 done].
    + rewrite model_set_value in Hsplit. injection Hsplit as <- <-.
      apply Forall_cons in Hr as [H2 Hr]. apply Forall_cons in Hr as [H3 _].
      exists e. auto.
    + exfalso. apply Forall_cons in Hd as [H1 _].
      exact (imported_has_metadata _ _ _ _ _ _ H1 Hi Hm).
Qed.

(** C10 (as the code has it).  Validation looks at the first three entries
    only.  For a file whose first three entries are valid and whose fourth
    entry has no "metadata" key, validation succeeds and the import
    proceeds: it deletes the existing rows of the first collection of the
    model set (bge-base), then raises before that collection's add, and
    stops; the other two collections are not reached and keep their rows.
    The failed import is not atomic: the first collection's earlier rows
    are lost. *)
Theorem unchecked_fourth_entry_empties_first_collection
    (entries : list json) (d : list (string * json)) (ss : session) (m : machine) :
  Forall entry_ok (take 3 entries) ->
  entries !! 3 = Some (JDict d) ->
  dict_get d "metadata" = None ->
  "bge_base_imported_data" ∉ down m ->
  let m' := (cmd_import (JList entries) ss m).2 in
  (validate_file_structure (JList entries) m).2 = Ok true /\
  rows_of "bge_base_imported_data" m' = [] /\
  rows_of "bge_large_imported_data" m' = rows_of "bge_large_imported_data" m /\
  rows_of "e5_large_imported_data" m' = rows_of "e5_large_imported_data" m /\
  exists e, out m' = out m ++ [EvLogError e].
Proof.
  intros Hok Hi Hm Hup m'.
  assert (Hval : (validate_file_structure (JList entries) m).2 = Ok true).
  { apply first_three_valid; [|exact Hok]. intros ->. discriminate. }
  split; [exact Hval|].
  subst m'. rewrite (cmd_import_valid _ _ _ Hval). cbn [snd]. unfold try_log.
  destruct (import_all (JList entries) m) as [m1 r] eqn:Hrun.
  destruct (import_with_missing_metadata _ _ _ _ _ _ Hi Hm Hrun)
    as (e & -> & Hout & Hat & H2 & H3).
  destruct Hat as [[Hdn _] | [_ Hempty]]; [exfalso; exact (Hup Hdn)|].
  split; [exact Hempty|]. split; [exact H2|]. split; [exact H3|].
  exists e. simpl. rewrite Hout. reflexivity.
Qed.

Lemma sample_entry_ok i t mt : entry_ok (Sample.entry i t mt).
Proof. exists [("id", JStr i); ("text", JStr t); ("metadata", JDict mt)], mt. by repeat split. Qed.

Lemma unchecked_fourth_entry_empties_first_collection_witness :
  let m := Sample.populated [] in
  let m' := (cmd_import (JList Sample.four_entries) (Sample.session_of "bge-base") m).2 in
  (validate_file_structure (JList Sample.four_entries) m).2 = Ok true /\
  rows_of "bge_base_imported_data" m' = [] /\
  rows_of "bge_large_imported_data" m' = rows_of "bge_large_imported_data" m /\
  rows_of "e5_large_imported_data" m' = rows_of "e5_large_imported_data" m /\
  exists e, out m' = out m ++ [EvLogError e].
Proof.
  apply (unchecked_fourth_entry_empties_first_collection Sample.four_entries
           [("id", JStr "f4"); ("text", JStr "returns are free")]).
  - repeat (apply Forall_cons_2; [apply sample_entry_ok|]). apply Forall_nil_2.
  - reflexivity.
  - reflexivity.
  - apply not_elem_of_empty.
Defined.

(** C10, as stated, fails on "each collection": the exception leaves the
    loop over the collections, so only the first collection is emptied.
    On the sample the other two keep their row, and no such file empties
    a later collection that held rows. *)
Lemma failed_import_keeps_later_collections :
  (let m := Sample.populated [] in
   let m' := (cmd_import (JList Sample.four_entries)
                (Sample.session_of "bge-base") m).2 in
   rows_of Sample.bge_base m' = [] /\
   rows_of Sample.bge_large m' = Sample.legacy_rows "BAAI/bge-large-en-v1.5" /\
   rows_of Sample.e5_large m' = Sample.legacy_rows "intfloat/e5-large-v2" /\
   out m' = [EvLogError (KeyError "metadata")]) /\
  ~ (exists entries d ss m,
       Forall entry_ok (take 3 entries) /\
       entries !! 3 = Some (JDict d) /\
       dict_get d "metadata" = None /\
       rows_of "bge_large_imported_data" m <> [] /\
       rows_of "bge_large_imported_data" (cmd_import (JList entries) ss m).2 = []).
Proof.
  split.
  - vm_compute. repeat split.
  - intros (entries & d & ss & m & Hok & Hi & Hm & Hne & Hempty).
    assert (Hval : (validate_file_structure (JList entries) m).2 = Ok true).
    { apply first_three_valid; [|exact Hok]. intros ->. discriminate. }
    rewrite (cmd_import_valid _ _ _ Hval) in Hempty. cbn [snd] in Hempty.
    unfold try_log in Hempty.
    destruct (import_all (JList entries) m) as [m1 r] eqn:Hrun.
    destruct (import_with_missing_metadata _ _ _ _ _ _ Hi Hm Hrun)
      as (e & -> & _ & _ & H2 & _).
    apply Hne. rewrite <- H2. exact Hempty.
Qed.

(** ** Clearing and deleting across the model set *)

Lemma keeps_empty_pure {A} (c : M A) : pure_stmt c -> keeps_empty c.
Proof. intros Hp m m' r n H. apply Hp in H as ->. auto. Qed.

Lemma keeps_empty_print e : keeps_empty (print e).
Proof. intros m m' r n [= <- _]. auto. Qed.

Lemma keeps_empty_bind {A B} (c : M A) (k : A -> M B) :
  keeps_empty c -> (forall a, keeps_empty (k a)) -> keeps_empty (bind c k).
Proof.
  intros Hc Hk m m' r n. unfold bind. destruct (c m) as [m1 [a|e]] eqn:E.
  - intros H Hn. eapply Hk; [exact H|]. eapply Hc; eauto.
  - intros [= <- _]. eapply Hc; eauto.
Qed.

Lemma keeps_empty_for_loop {A} (body : A -> M unit) (l : list A) :
  (forall x, keeps_empty (body x)) -> keeps_empty (for_loop body l).
Proof.
  intros Hb. induction l as [|x l IH]; simpl.
  - apply keeps_empty_pure, pure_ret.
  - apply keeps_empty_bind; [apply Hb|]. intros _. exact IH.
Qed.

Lemma keeps_empty_get_or_create name :
  keeps_empty (Service.get_or_create_collection name).
Proof.
  intros m m' r n H Hn.
  destruct (get_or_create_run name m) as (m1 & Hrun & (Hr & _)).
  rewrite Hrun in H. injection H as <- _. rewrite Hr. exact Hn.
Qed.

Lemma keeps_empty_delete name ids : keeps_empty (Service.delete name ids).
Proof.
  intros m m' r n. unfold Service.delete, Service.call. case_bool_decide.
  - intros [= <- _]. auto.
  - intros [= <- _] Hn. unfold rows_of in *. simpl.
    destruct (decide (name = n)) as [<-|Hne].
    + rewrite lookup_insert_eq. simpl. rewrite Hn. reflexivity.
    + rewrite lookup_insert_ne by exact Hne. exact Hn.
Qed.

Lemma keeps_empty_clear col report : keeps_empty (clear_collection col report).
Proof.
  apply keeps_empty_bind.
  - intros m m' r n H. apply (confined_get col) in H as (_ & _ & _ & H).
    intros Hn. rewrite H; [exact Hn | apply not_elem_of_nil].
  - intros [|r rs]; [apply keeps_empty_pure, pure_ret|].
    apply keeps_empty_bind; [apply keeps_empty_delete|]. intros _.
    destruct report; [apply keeps_empty_print | apply keeps_empty_pure, pure_ret].
Qed.

Lemma keeps_empty_open clear ms : keeps_empty (open_collections clear ms).
Proof.
  induction ms as [|model ms IH]; simpl.
  - apply keeps_empty_pure, pure_ret.
  - destruct (resolve_embedding_model model) as [mname pfx].
    apply keeps_empty_bind; [apply keeps_empty_get_or_create|]. intros col.
    apply keeps_empty_bind.
    { destruct clear; [apply keeps_empty_clear | apply keeps_empty_pure, pure_ret]. }
    intros _. apply keeps_empty_bind; [exact IH|]. intros cols.
    apply keeps_empty_pure, pure_ret.
Qed.

(** Opening the model set with clearing: when it returns, every
    collection was served and is empty. *)
Lemma open_collections_clear_inv ms m m' cols :
  open_collections true ms m = (m', Ok cols) ->
  cols = targets_of ms /\ down m' = down m /\
  Forall (fun t => rows_of t.1 m' = [] /\ t.1 ∉ down m) cols.
Proof.
  revert m m' cols. induction ms as [|model ms IH]; intros m m' cols.
  - intros [= <- <-]. repeat split. constructor.
  - unfold targets_of. rewrite fmap_cons. fold (targets_of ms). simpl open_collections.
    destruct (resolve_embedding_model model) as [mname pfx].
    intros H. apply bind_ok in H as (col & m1 & Hg & H).
    destruct (get_or_create_run (collection_name pfx) m) as (m1' & Hg' & (_ & Hd1 & _)).
    rewrite Hg' in Hg. injection Hg as <- <-.
    apply bind_ok in H as ([] & m2 & Hc & H).
    destruct (confined_clear _ _ _ _ _ Hc) as (Hd2 & _).
    destruct (clear_collection_run (collection_name pfx) true m1')
      as [(Hup & m2' & Hc' & Hempty & _) | (_ & Hc')];
      rewrite Hc' in Hc; [|discriminate]. injection Hc as <-.
    apply bind_ok in H as (cols' & m3 & Ho & H). injection H as <- <-.
    pose proof (keeps_empty_open true ms _ _ _ _ Ho Hempty) as Hempty'.
    apply IH in Ho as (-> & Hd3 & Hall).
    split; [reflexivity|]. split; [congruence|]. constructor.
    + simpl. split; [exact Hempty' | congruence].
    + eapply Forall_impl; [exact Hall|]. intros t [? ?]. split; [assumption | congruence].
Qed.

Lemma open_collections_clear_run ms m :
  Forall (fun t => t.1 ∉ down m) (targets_of ms) ->
  exists m', open_collections true ms m = (m', Ok (targets_of ms)) /\
             down m' = down m /\
             forall evs, out m = evs -> exists more, out m' = evs ++ more /\
               Forall (fun ev => exists n c, ev = EvCleared n c) more.
Proof.
  revert m. induction ms as [|model ms IH]; intros m Hup.
  - exists m. repeat split. intros evs <-. exists []. rewrite app_nil_r. auto.
  - unfold targets_of in *. rewrite fmap_cons in *. fold (targets_of ms) in *.
    simpl open_collections.
    destruct (resolve_embedding_model model) as [mname pfx].
    apply Forall_cons in Hup as [Hcol Hup]. simpl in Hcol.
    destruct (get_or_create_run (collection_name pfx) m) as (m1 & Hg & (_ & Hd1 & _ & _ & Ho1)).
    rewrite (bind_step _ _ _ _ _ Hg).
    destruct (clear_collection_run (collection_name pfx) true m1)
      as [(_ & m2 & Hc & _) | (Hdn & _)]; [|exfalso; apply Hcol; congruence].
    destruct (confined_clear _ _ _ _ _ Hc) as (Hd2 & _).
    rewrite (bind_step _ _ _ _ _ Hc).
    destruct (IH m2) as (m3 & Ho & Hd3 & Hout).
    { eapply Forall_impl; [exact Hup|]. intros t Ht. simpl in *. congruence. }
    rewrite (bind_step _ _ _ _ _ Ho).
    exists m3. split; [reflexivity|]. split; [congruence|].
    intros evs <-.
    assert (Hc_out : exists more, out m2 = out m ++ more /\
              Forall (fun ev => exists n c, ev = EvCleared n c) more).
    { unfold clear_collection in Hc.
      destruct (decide (collection_name pfx ∈ down m1)) as [Hdn|Hu].
      - rewrite (bind_raises _ _ _ _ _ (get_down _ _ Hdn)) in Hc. discriminate.
      - rewrite (bind_step _ _ _ _ _ (get_up _ _ Hu)) in Hc.
        destruct (rows_of (collection_name pfx) m1) as [|r rs].
        + injection Hc as <-. exists []. rewrite app_nil_r. auto.
        + rewrite (bind_step _ _ _ _ _ (delete_up _ _ _ Hu)) in Hc.
          injection Hc as <-. eexists [_]. simpl. rewrite Ho1. split; [reflexivity|].
          constructor; [eauto | constructor]. }
    destruct Hc_out as (more1 & Hm1 & Hf1).
    destruct (Hout _ eq_refl) as (more2 & Hm2 & Hf2).
    exists (more1 ++ more2). split.
    + rewrite Hm2, Hm1, app_assoc. reflexivity.
    + apply Forall_app. auto.
Qed.

Lemma targets_of_models : targets_of models = model_set.
Proof. reflexivity. Qed.

Lemma delete_loop_run (uid : string) (targets : list (string * string)) m :
  Forall (fun t => t.1 ∉ down m) targets ->
  exists m', for_loop (fun '(col, _) => Service.delete col [uid]) targets m = (m', Ok tt) /\
             out m' = out m.
Proof.
  revert m. induction targets as [|[col mname] ts IH]; intros m Hup.
  - exists m. split; reflexivity.
  - apply Forall_cons in Hup as [Hcol Hts]. rewrite for_loop_cons.
    rewrite (delete_up _ _ _ Hcol).
    destruct (IH (set_colls (insert col
                (filter (fun r => row_id r ∉ [uid]) (rows_of col m))) m) Hts)
      as (m' & Hrun & Hout).
    exists m'. split; [exact Hrun | exact Hout].
Qed.

(** Deleting by ordinal, when it returns, has emptied every collection of
    the model set. *)
Lemma delete_fact_inv idx uid m m' :
  delete_fact idx uid m = (m', Ok tt) ->
  last (out m') = Some (EvDeletedFact idx) /\
  forall col mname, (col, mname) ∈ model_set -> rows_of col m' = [].
Proof.
  intros H. unfold delete_fact, get_all_collections_for_type in H.
  apply bind_ok in H as (cols & m1 & Hopen & H).
  apply bind_ok in H as ([] & m2 & Hloop & H). injection H as <-.
  split; [apply last_snoc|].
  apply open_collections_clear_inv in Hopen as (-> & _ & Hall).
  intros col mname Hin. rewrite targets_of_models, Forall_forall in Hall.
  destruct (Hall _ Hin) as [Hempty _]. simpl in Hempty.
  change (rows_of col m2 = []).
  eapply (keeps_empty_for_loop (fun '(col, _) => Service.delete col [uid]));
    [|exact Hloop|exact Hempty].
  intros [c ?]. apply keeps_empty_delete.
Qed.

Lemma delete_fact_run idx uid m :
  (forall col mname, (col, mname) ∈ model_set -> col ∉ down m) ->
  exists m', delete_fact idx uid m = (m', Ok tt).
Proof.
  intros Hup. unfold delete_fact, get_all_collections_for_type.
  destruct (open_collections_clear_run models m) as (m1 & Hopen & Hd & _).
  { rewrite targets_of_models. apply Forall_forall. intros [col mname] Hin.
    eapply Hup, Hin. }
  rewrite (bind_step _ _ _ _ _ Hopen).
  destruct (delete_loop_run uid (targets_of models) m1) as (m2 & Hloop & _).
  { rewrite targets_of_models. apply Forall_forall. intros [col mname] Hin.
    rewrite Hd. eapply Hup, Hin. }
  rewrite (bind_step _ _ _ _ _ Hloop). eexists. reflexivity.
Qed.

Lemma delete_everything_inv m m' :
  delete_everything m = (m', Ok tt) ->
  forall col mname, (col, mname) ∈ model_set -> rows_of col m' = [].
Proof.
  intros H. unfold delete_everything, get_all_collections_for_type in H.
  apply bind_ok in H as (cols & m1 & Hopen & H).
  apply bind_ok in H as ([] & m2 & Hloop & H). injection H as <-.
  apply open_collections_clear_inv in Hopen as (-> & _ & Hall).
  intros col mname Hin. rewrite targets_of_models, Forall_forall in Hall.
  destruct (Hall _ Hin) as [Hempty _]. simpl in Hempty.
  change (rows_of col m2 = []).
  eapply (keeps_empty_for_loop (fun '(col, _) => clear_collection col false));
    [|exact Hloop|exact Hempty].
  intros [c ?]. apply keeps_empty_clear.
Qed.

Lemma clear_loop_run (targets : list (string * string)) (m : machine) :
  Forall (fun t => t.1 ∉ down m) targets ->
  exists m', for_loop (fun '(col, _) => clear_collection col false) targets m = (m', Ok tt) /\
             out m' = out m /\ down m' = down m.
Proof.
  revert m. induction targets as [|[col mname] ts IH]; intros m Hup.
  - exists m. repeat split.
  - apply Forall_cons in Hup as [Hcol Hts]. rewrite for_loop_cons.
    destruct (clear_collection_run col false m) as [(_ & m1 & Hc & _ & Hout) | (Hdn & _)];
      [|contradiction].
    destruct (confined_clear _ _ _ _ _ Hc) as (Hd & _).
    rewrite Hc. destruct (IH m1) as (m' & Hrun & Hout' & Hd').
    { eapply Forall_impl; [exact Hts|]. intros t Ht. simpl in *. congruence. }
    exists m'. split; [exact Hrun|]. split; [rewrite Hout'; auto | congruence].
Qed.

Lemma delete_everything_run (m : machine) :
  (forall col mname, (col, mname) ∈ model_set -> col ∉ down m) ->
  exists m', delete_everything m = (m', Ok tt) /\ last (out m') = Some EvClearedAll.
Proof.
  intros Hup. unfold delete_everything, get_all_collections_for_type.
  destruct (open_collections_clear_run models m) as (m1 & Hopen & Hd & _).
  { rewrite targets_of_models. apply Forall_forall. intros [col mname] Hin.
    eapply Hup, Hin. }
  rewrite (bind_step _ _ _ _ _ Hopen).
  destruct (clear_loop_run (targets_of models) m1) as (m2 & Hloop & _).
  { rewrite targets_of_models. apply Forall_forall. intros [col mname] Hin.
    rewrite Hd. eapply Hup, Hin. }
  rewrite (bind_step _ _ _ _ _ Hloop). eexists. split; [reflexivity|]. apply last_snoc.
Qed.




(** C3 (the code deviates).  On collections that hold the facts "f1" and
    "f2", listing and then deleting ordinal 1 leaves every collection of
    the model set empty: the fact "f2", which was not named, is gone as
    well, while the index map still offers it under ordinal 2. *)
Lemma delete_by_ordinal_removes_unnamed_facts :
  let m0 := Sample.synced Sample.two_facts [] in
  let listed := cmd_list (Sample.session_of "bge-base") m0 in
  let deleted := cmd_delete_index 1 listed.1 listed.2 in
  id_map listed.1 !! 1 = Some "f1" /\
  id_map listed.1 !! 2 = Some "f2" /\
  row_id <$> rows_of Sample.e5_large listed.2 = ["f1"; "f2"] /\
  rows_of Sample.bge_base deleted.2 = [] /\
  rows_of Sample.bge_large deleted.2 = [] /\
  rows_of Sample.e5_large deleted.2 = [] /\
  id_map deleted.1 !! 2 = Some "f2" /\
  last (out deleted.2) = Some (EvDeletedFact 1).
Proof. vm_compute. repeat split. Qed.

(** ** The index map *)

Lemma display_entries_run (rows : list row) :
  forall (idx : nat) (im : gmap nat string) (m : machine),
  exists im',
    display_entries idx rows im m
    = (add_outs (imap (fun i r => EvStoredEntry (idx + i) (row_doc r) (row_meta r)) rows) m,
       Ok im') /\
    forall k, im' !! k = if decide (idx <= k < idx + length rows)
                         then row_id <$> rows !! (k - idx)
                         else im !! k.
Proof.
  induction rows as [|r rows IH]; intros idx im m.
  - exists im. simpl. rewrite add_outs_nil. split; [reflexivity|].
    intros k. case_decide; [lia | reflexivity].
  - destruct (IH (S idx) (<[idx := row_id r]> im)
                (add_out (EvStoredEntry idx (row_doc r) (row_meta r)) m))
      as (im' & Hrun & Hlk).
    exists im'. split.
    + simpl display_entries. unfold bind at 1, print at 1. rewrite Hrun.
      f_equal. rewrite add_outs_one, add_outs_app. f_equal.
      rewrite imap_cons. rewrite Nat.add_0_r. simpl. f_equal.
      apply imap_ext. intros i x _. simpl. f_equal. lia.
    + intros k. rewrite Hlk. simpl length.
      destruct (decide (k = idx)) as [->|Hne].
      * rewrite decide_False by lia. rewrite decide_True by lia.
        rewrite lookup_insert_eq, Nat.sub_diag. reflexivity.
      * rewrite lookup_insert_ne by congruence.
        destruct (decide (S idx <= k < S idx + length rows)) as [Hin|Hout].
        -- rewrite decide_True by lia.
           replace (k - idx) with (S (k - S idx)) by lia. reflexivity.
        -- rewrite decide_False by lia. reflexivity.
Qed.

Lemma cmd_list_run (ss : session) (m : machine) :
  collection ss ∉ down m ->
  exists im,
    cmd_list ss m
    = (set_id_map im ss,
       add_outs (match rows_of (collection ss) m with
                 | [] => [EvNoFactsStored]
                 | rows =>
                     imap (fun i r => EvStoredEntry (S i) (row_doc r) (row_meta r)) rows
                     ++ [EvEndOfList]
                 end) m) /\
    forall k, im !! k = if decide (1 <= k <= length (rows_of (collection ss) m))
                        then row_id <$> rows_of (collection ss) m !! (k - 1)
                        else None.
Proof.
  intros Hup. unfold cmd_list, display_stored_facts.
  rewrite (bind_step _ _ _ _ _ (get_up _ _ Hup)).
  destruct (rows_of (collection ss) m) as [|r rows] eqn:Hrows.
  - exists ∅. split; [reflexivity|]. intros k. simpl. case_decide; [lia|].
    apply lookup_empty.
  - destruct (display_entries_run (r :: rows) 1 ∅ m) as (im & Hrun & Hlk).
    exists im. split.
    + rewrite (bind_step _ _ _ _ _ Hrun). simpl. unfold add_out, add_outs. simpl.
      rewrite <- !app_assoc. reflexivity.
    + intros k. rewrite Hlk. rewrite lookup_empty.
      destruct (decide (1 <= k < 1 + length (r :: rows))).
      * rewrite decide_True by (simpl in *; lia). reflexivity.
      * rewrite decide_False by (simpl in *; lia). reflexivity.
Qed.

Lemma cmd_delete_index_resolved (k : nat) (uid : string) (ss : session) (m : machine) :
  id_map ss !! k = Some uid ->
  cmd_delete_index k ss m
  = match delete_fact k uid m with
    | (m', Ok _) => (set_id_map (delete k (id_map ss)) ss, m')
    | (m', Raise e) => (ss, add_out (EvLogError e) m')
    end.
Proof. unfold cmd_delete_index. intros ->. reflexivity. Qed.

(** C9 (as the code has it).  Listing the session's collection displays
    its M rows numbered 1..M in the order the service returns them and
    makes the index map send each ordinal k in 1..M to the id of the k-th
    displayed row, and no other ordinal to anything.  A deletion by such
    an ordinal then passes that id to the deletion across the model set,
    which, when the service serves every collection, reports the deletion,
    forgets the ordinal and leaves the id in no collection.  A similarity
    query leaves the index map as it was.  An ordinal that is not in the
    index map is answered with a warning and nothing else happens. *)
Theorem listing_builds_the_index_map (ss : session) (m : machine) :
  collection ss ∉ down m ->
  let rows := rows_of (collection ss) m in
  let ss' := (cmd_list ss m).1 in
  (rows <> [] ->
   out (cmd_list ss m).2
   = out m ++ imap (fun i r => EvStoredEntry (S i) (row_doc r) (row_meta r)) rows
       ++ [EvEndOfList]) /\
  (forall k, 1 <= k <= length rows -> id_map ss' !! k = row_id <$> rows !! (k - 1)) /\
  (forall k, ~ (1 <= k <= length rows) -> id_map ss' !! k = None) /\
  (forall k r m1,
     1 <= k -> rows !! (k - 1) = Some r ->
     cmd_delete_index k ss' m1
     = match delete_fact k (row_id r) m1 with
       | (m2, Ok _) => (set_id_map (delete k (id_map ss')) ss', m2)
       | (m2, Raise e) => (ss', add_out (EvLogError e) m2)
       end /\
     ((forall col mname, (col, mname) ∈ model_set -> col ∉ down m1) ->
      exists m2,
        cmd_delete_index k ss' m1 = (set_id_map (delete k (id_map ss')) ss', m2) /\
        last (out m2) = Some (EvDeletedFact k) /\
        forall col mname r', (col, mname) ∈ model_set -> r' ∈ rows_of col m2 ->
                             row_id r' <> row_id r)) /\
  (forall mk q ss0 m1, (cmd_query mk q ss0 m1).1 = ss0) /\
  (forall k ss0 m1,
     id_map ss0 !! k = None ->
     cmd_delete_index k ss0 m1 = (ss0, add_out (EvWarnNoFact k) m1)).
Proof.
  intros Hup rows ss'.
  destruct (cmd_list_run ss m Hup) as (im & Hrun & Hlk).
  assert (Hmap : id_map ss' = im) by (subst ss'; rewrite Hrun; reflexivity).
  split; [|split; [|split; [|split; [|split]]]].
  - intros Hne. rewrite Hrun. simpl. fold rows. destruct rows; [contradiction|reflexivity].
  - intros k Hk. rewrite Hmap, Hlk. fold rows. rewrite decide_True by exact Hk. reflexivity.
  - intros k Hk. rewrite Hmap, Hlk. fold rows. rewrite decide_False by exact Hk. reflexivity.
  - intros k r m1 Hk Hr.
    assert (Hres : id_map ss' !! k = Some (row_id r)).
    { rewrite Hmap, Hlk. fold rows.
      rewrite decide_True by (apply lookup_lt_Some in Hr; lia).
      rewrite Hr. reflexivity. }
    split; [apply cmd_delete_index_resolved, Hres|].
    intros Hall. destruct (delete_fact_run k (row_id r) m1 Hall) as (m2 & Hdel).
    exists m2. rewrite (cmd_delete_index_resolved _ _ _ _ Hres), Hdel.
    split; [reflexivity|].
    apply delete_fact_inv in Hdel as [Hlast Hempty]. split; [exact Hlast|].
    intros col mname r' Hin Hr'. rewrite (Hempty _ _ Hin) in Hr'. inversion Hr'.
  - reflexivity.
  - intros k ss0 m1 Hk. unfold cmd_delete_index. rewrite Hk. reflexivity.
Qed.

Lemma listing_builds_the_index_map_witness :
  let m := Sample.synced Sample.two_facts [] in
  let ss' := (cmd_list (Sample.session_of "e5") m).1 in
  id_map ss' !! 2
  = row_id <$> rows_of (collection (Sample.session_of "e5")) m !! (2 - 1).
Proof.
  intros m ss'.
  destruct (listing_builds_the_index_map (Sample.session_of "e5") m)
    as (_ & Hres & _).
  - apply not_elem_of_empty.
  - apply (Hres 2). vm_compute. lia.
Defined.

(** C9, as stated, fails for the query: a query that displays a result
    under ordinal 1 leaves the index map empty, so deleting ordinal 1
    afterwards only warns and the displayed fact stays stored. *)
Lemma query_does_not_build_the_index_map :
  let m := Sample.populated [] in
  let ss := Sample.session_of "bge-base" in
  let queried := cmd_query Plain "legacy" ss m in
  let deleted := cmd_delete_index 1 queried.1 queried.2 in
  out queried.2 = [EvMatch 1 "legacy fact" None] /\
  id_map queried.1 !! 1 = None /\
  out deleted.2 = [EvMatch 1 "legacy fact" None; EvWarnNoFact 1] /\
  rows_of Sample.bge_base deleted.2 = [Row "old-1" "legacy fact" Sample.tagged].
Proof. vm_compute. repeat split. Qed.

(** A session from start to end: a fact typed at the prompt is stored in
    the session's collection only; listing shows it under ordinal 1; a
    query finds it; deleting ordinal 1 leaves the three collections
    empty. *)
Example session_store_list_query_delete :
  let ss0 := Sample.session_of "bge-base" in
  let m0 := Sample.machine_of [] [] in
  let stored := cmd_store "refund window is 30 days" "fact_1700000000000"
                  "2023-11-14 22:13:20" ss0 m0 in
  let listed := cmd_list stored.1 stored.2 in
  let queried := cmd_query Plain "refund policy" listed.1 listed.2 in
  let deleted := cmd_delete_index 1 queried.1 queried.2 in
  rows_of Sample.bge_base stored.2
  = [Row "fact_1700000000000" "refund window is 30 days"
       [("source", JStr "user"); ("timestamp", JStr "2023-11-14 22:13:20")]] /\
  rows_of Sample.e5_large stored.2 = [] /\
  id_map listed.1 !! 1 = Some "fact_1700000000000" /\
  last (out queried.2) = Some (EvMatch 1 "refund window is 30 days" None) /\
  rows_of Sample.bge_base deleted.2 = [] /\
  rows_of Sample.bge_large deleted.2 = [] /\
  rows_of Sample.e5_large deleted.2 = [] /\
  (cmd_list deleted.1 deleted.2).1 = set_id_map ∅ deleted.1.
Proof. vm_compute. repeat split. Qed.

(** * Further properties *)

(** ** The registry and the formatter, continued *)

(** X1.  Whatever is given as embedding model, the session's collection
    and model are one of the three pairs of the model set, so every
    fan-out over the model set reaches the collection the session lists
    and queries. *)
Theorem session_collection_in_model_set
    (embedding_model : string) (schemas : option (list string)) (src : string) :
  let ss := start_session embedding_model schemas src in
  (collection ss, model_name ss) ∈ model_set.
Proof.
  unfold start_session, resolve_embedding_model.
  replace (default ("", "") (dict_get model_map "bge-base"))
    with ("BAAI/bge-base-en-v1.5", "bge_base_") by reflexivity.
  unfold model_map, dict_get. rewrite model_set_value.
  repeat match goal with
         | |- context [String.eqb ?a embedding_model] =>
             destruct (String.eqb a embedding_model)
         end; cbn; repeat constructor.
Qed.

Lemma append_inj_l (p a b : string) : p +:+ a = p +:+ b -> a = b.
Proof. induction p as [|c p IH]; simpl; [auto|]. intros [= H]. auto. Qed.

(** X2.  For a model and a mode the formatter only puts a fixed prefix,
    one of four, in front of the text; so two texts that are formatted
    alike are the same text. *)
Theorem format_for_embedding_prefixes (model_name mode : string) :
  (exists p,
     p ∈ [""; "Represent this sentence for searching relevant passages: ";
          "query: "; "passage: "] /\
     forall text, format_for_embedding text model_name mode = p +:+ text) /\
  (forall a b,
     format_for_embedding a model_name mode = format_for_embedding b model_name mode ->
     a = b).
Proof.
  assert (H : exists p,
     p ∈ [""; "Represent this sentence for searching relevant passages: ";
          "query: "; "passage: "] /\
     forall text, format_for_embedding text model_name mode = p +:+ text).
  { unfold format_for_embedding.
    destruct (PyStr.contains "bge" (PyStr.lower model_name));
      [|destruct (PyStr.contains "e5" (PyStr.lower model_name))];
      try destruct (String.eqb (PyStr.lower mode) "query").
    - exists bge_query_prefix. split; [repeat constructor | reflexivity].
    - exists "". split; [repeat constructor | reflexivity].
    - exists "query: ". split; [repeat constructor | reflexivity].
    - exists "passage: ". split; [repeat constructor | reflexivity].
    - exists "". split; [repeat constructor | reflexivity].
    - exists "". split; [repeat constructor | reflexivity]. }
  split; [exact H|].
  destruct H as (p & _ & Hp). intros a b. rewrite !Hp. apply append_inj_l.
Qed.

Lemma format_for_embedding_prefixes_witness :
  "refund window" = "refund window".
Proof.
  apply (proj2 (format_for_embedding_prefixes "intfloat/e5-large-v2" "document")).
  reflexivity.
Defined.

(** ** Import-file validation, continued *)

Lemma validate_entries_report (entries : list json) (m : machine) :
  exists b evs,
    validate_entries entries m = (add_outs evs m, Ok b) /\
    (b = true -> evs = []) /\
    (b = false -> exists why, evs = [EvInvalidFile why]).
Proof.
  induction entries as [|e entries IH]; simpl.
  - exists true, []. rewrite add_outs_nil. repeat split; auto. discriminate.
  - assert (Hbad : forall why,
      exists b evs,
        (print (EvInvalidFile why) ;; ret false) m = (add_outs evs m, Ok b) /\
        (b = true -> evs = []) /\ (b = false -> exists why, evs = [EvInvalidFile why])).
    { intros why. exists false, [EvInvalidFile why].
      split; [reflexivity|]. split; [discriminate|]. eauto. }
    destruct e as [| | | | |d]; try apply Hbad.
    destruct (negb (dict_has d "text") || negb (dict_has d "metadata")); [apply Hbad|].
    destruct (dict_get d "metadata") as [[| | | | |mt]|]; try apply Hbad.
    exact IH.
Qed.

(** X3.  Validation never raises and never writes.  It answers [True]
    exactly for a non-empty list whose first three entries are
    dictionaries with a "text" key and a dictionary under "metadata"; it
    then prints nothing, and otherwise prints exactly one complaint. *)
Theorem validate_file_structure_verdict (file_data : json) (m : machine) :
  exists b evs,
    validate_file_structure file_data m = (add_outs evs m, Ok b) /\
    (b = true <->
     exists entries, file_data = JList entries /\ entries <> [] /\
                     Forall entry_ok (take 3 entries)) /\
    (b = true -> evs = []) /\
    (b = false -> exists why, evs = [EvInvalidFile why]).
Proof.
  destruct (validate_file_structure_run file_data m) as (b & evs & Hrun & Hb & Hevs).
  exists b, evs. split; [exact Hrun|]. split; [exact Hb|]. split; [exact Hevs|].
  intros ->.
  assert (Hrep : exists b' evs',
            validate_file_structure file_data m = (add_outs evs' m, Ok b') /\
            (b' = false -> exists why, evs' = [EvInvalidFile why])).
  { destruct file_data as [| | | |l|];
      try (exists false; eexists [_]; split; [reflexivity | eauto]).
    destruct l as [|e l].
    - exists false. eexists [_]. split; [reflexivity | eauto].
    - destruct (validate_entries_report (take 3 (e :: l)) m) as (b' & evs' & Hr & _ & Hf).
      exists b', evs'. split; [exact Hr | exact Hf]. }
  destruct Hrep as (b' & evs' & Hrun' & Hf).
  rewrite Hrun in Hrun'. injection Hrun' as Hout <-.
  apply app_inv_head in Hout.
  subst evs'. apply Hf. reflexivity.
Qed.

Lemma imported_has_id entries m m' t i d :
  imported entries m m' t -> entries !! i = Some (JDict d) ->
  dict_get d "id" <> None.
Proof.
  intros (_ & rows & _ & _ & _ & Hst) Hi.
  destruct (Forall2_lookup_l _ _ _ _ _ Hst Hi) as (r & _ & d' & t' & [= <-] & Hid & _).
  congruence.
Qed.

(** X4.  Validation never looks at "id".  A file whose first three entries
    pass validation and in which some entry, checked or not, has no "id"
    key is accepted; the import then deletes the rows of the first
    collection of the model set, raises while it builds that collection's
    lists, and stops: the first collection is left empty, the other two
    keep their rows, and one error is logged. *)
Theorem entry_without_id_passes_validation
    (entries : list json) (i : nat) (d : list (string * json))
    (ss : session) (m : machine) :
  Forall entry_ok (take 3 entries) ->
  entries !! i = Some (JDict d) ->
  dict_get d "id" = None ->
  "bge_base_imported_data" ∉ down m ->
  let m' := (cmd_import (JList entries) ss m).2 in
  (validate_file_structure (JList entries) m).2 = Ok true /\
  rows_of "bge_base_imported_data" m' = [] /\
  rows_of "bge_large_imported_data" m' = rows_of "bge_large_imported_data" m /\
  rows_of "e5_large_imported_data" m' = rows_of "e5_large_imported_data" m /\
  exists e, out m' = out m ++ [EvLogError e].
Proof.
  intros Hok Hi Hid Hup m'.
  assert (Hval : (validate_file_structure (JList entries) m).2 = Ok true).
  { apply first_three_valid; [|exact Hok]. intros ->. discriminate. }
  split; [exact Hval|].
  subst m'. rewrite (cmd_import_valid _ _ _ Hval). cbn [snd]. unfold try_log.
  destruct (import_all (JList entries) m) as [m1 r] eqn:Hrun.
  apply import_all_inv in Hrun
    as [(_ & _ & Hall) | (e & done & target & rest & -> & Hout & Hsplit & Hd & Ht & Hr)].
  - exfalso. rewrite model_set_value in Hall. apply Forall_cons in Hall as [H1 _].
    exact (imported_has_id _ _ _ _ _ _ H1 Hi Hid).
  - destruct done as [|t0 done].
    + rewrite model_set_value in Hsplit. injection Hsplit as <- <-.
      apply Forall_cons in Hr as [H2 Hr]. apply Forall_cons in Hr as [H3 _].
      destruct Ht as [[Hdn _] | [_ Hempty]]; [exfalso; exact (Hup Hdn)|].
      split; [exact Hempty|]. split; [exact H2|]. split; [exact H3|].
      exists e. simpl. rewrite Hout. reflexivity.
    + exfalso. apply Forall_cons in Hd as [H1 _].
      exact (imported_has_id _ _ _ _ _ _ H1 Hi Hid).
Qed.

Lemma entry_without_id_passes_validation_witness :
  let m := Sample.populated [] in
  let entries := [JDict [("text", JStr "returns are free");
                         ("metadata", JDict Sample.tagged)]] in
  let m' := (cmd_import (JList entries) (Sample.session_of "bge-base") m).2 in
  (validate_file_structure (JList entries) m).2 = Ok true /\
  rows_of "bge_base_imported_data" m' = [] /\
  rows_of "bge_large_imported_data" m' = rows_of "bge_large_imported_data" m /\
  rows_of "e5_large_imported_data" m' = rows_of "e5_large_imported_data" m /\
  exists e, out m' = out m ++ [EvLogError e].
Proof.
  apply (entry_without_id_passes_validation
           [JDict [("text", JStr "returns are free"); ("metadata", JDict Sample.tagged)]]
           0 [("text", JStr "returns are free"); ("metadata", JDict Sample.tagged)]).
  - apply Forall_cons_2; [|apply Forall_nil_2].
    eexists _, _. split; [reflexivity|]. split; [discriminate | reflexivity].
  - reflexivity.
  - reflexivity.
  - apply not_elem_of_empty.
Defined.

(** ** Importing again *)

Lemma cmd_import_facts entries facts ss m :
  mapM entry_fact entries = Some facts -> facts <> [] ->
  NoDup (fact_id <$> facts) ->
  (forall col mname, (col, mname) ∈ model_set -> col ∉ down m) ->
  exists m',
    cmd_import (JList entries) ss m = (ss, m') /\
    down m' = down m /\
    forall col mname, (col, mname) ∈ model_set ->
      rows_of col m' = stored_row mname <$> facts.
Proof.
  intros Hfacts Hne Hnd Hup.
  destruct (import_all_run entries facts m Hfacts Hne Hnd Hup) as (m' & Hrun).
  exists m'. split; [|split].
  - unfold cmd_import, try_log, import_file.
    rewrite (bind_step _ _ _ _ _ (facts_validate _ _ m Hfacts Hne)), Hrun. reflexivity.
  - apply (import_all_confined _ _ _ _ Hrun).
  - destruct (import_all_success _ _ _ Hrun) as (facts' & Hfacts' & _ & _ & _ & Hrows).
    assert (facts' = facts) as -> by congruence.
    intros col mname Hin. apply (Hrows _ _ Hin).
Qed.

(** X5.  The import replaces: what the collections of the model set hold
    after an import of well-formed facts depends on the file only, not on
    what they held before, and importing the same file a second time
    leaves every collection as the first import left it. *)
Theorem import_twice_is_import_once
    (entries : list json) (facts : list fact) (ss : session) (m0 m : machine) :
  mapM entry_fact entries = Some facts ->
  facts <> [] ->
  NoDup (fact_id <$> facts) ->
  (forall col mname, (col, mname) ∈ model_set -> col ∉ down m) ->
  (forall col mname, (col, mname) ∈ model_set -> col ∉ down m0) ->
  let once := (cmd_import (JList entries) ss m).2 in
  let twice := (cmd_import (JList entries) ss once).2 in
  let other := (cmd_import (JList entries) ss m0).2 in
  forall col mname, (col, mname) ∈ model_set ->
    rows_of col twice = rows_of col once /\
    rows_of col other = rows_of col once.
Proof.
  intros Hfacts Hne Hnd Hup Hup0 once twice other col mname Hin.
  destruct (cmd_import_facts entries facts ss m Hfacts Hne Hnd Hup) as (m1 & H1 & Hd1 & R1).
  destruct (cmd_import_facts entries facts ss m0 Hfacts Hne Hnd Hup0) as (m0' & H0 & _ & R0).
  assert (Hup1 : forall col mname, (col, mname) ∈ model_set -> col ∉ down m1).
  { intros c mn Hc. rewrite Hd1. eapply Hup, Hc. }
  subst once twice other. rewrite H1. cbn [snd].
  destruct (cmd_import_facts entries facts ss m1 Hfacts Hne Hnd Hup1) as (m2 & H2 & _ & R2).
  rewrite H2, H0. cbn [snd].
  rewrite (R1 _ _ Hin), (R2 _ _ Hin), (R0 _ _ Hin). split; reflexivity.
Qed.

Lemma import_twice_is_import_once_witness :
  let once := (cmd_import (JList Sample.two_entries) (Sample.session_of "e5")
                 (Sample.populated [])).2 in
  let twice := (cmd_import (JList Sample.two_entries) (Sample.session_of "e5") once).2 in
  let other := (cmd_import (JList Sample.two_entries) (Sample.session_of "e5")
                  (Sample.machine_of [] [])).2 in
  rows_of Sample.e5_large twice = rows_of Sample.e5_large once /\
  rows_of Sample.e5_large other = rows_of Sample.e5_large once.
Proof.
  apply (import_twice_is_import_once Sample.two_entries Sample.two_facts
           (Sample.session_of "e5") (Sample.machine_of [] []) (Sample.populated []))
    with (mname := "intfloat/e5-large-v2").
  - reflexivity.
  - discriminate.
  - apply (bool_decide_unpack _). reflexivity.
  - intros col mname _. apply not_elem_of_empty.
  - intros col mname _. apply not_elem_of_empty.
  - rewrite model_set_value. repeat constructor.
Defined.

(** ** Startup *)

Lemma entry_lists_run mname entries facts m :
  mapM entry_fact entries = Some facts ->
  let rs := stored_row mname <$> facts in
  for_each (doc_of_entry mname) entries m = (m, Ok ((fun r => JStr (row_doc r)) <$> rs)) /\
  for_each (fun entry => subscript entry "id") entries m
  = (m, Ok ((fun r => JStr (row_id r)) <$> rs)) /\
  for_each (fun entry => subscript entry "metadata") entries m
  = (m, Ok ((fun r => JDict (row_meta r)) <$> rs)).
Proof.
  intros Hfacts rs. apply mapM_Some in Hfacts. unfold rs. repeat split.
  - apply for_each_run. rewrite !Forall2_fmap_r.
    eapply Forall2_impl; [exact Hfacts|]. intros e f Hef.
    apply entry_fact_inv in Hef as (d & -> & _ & Ht & _).
    unfold doc_of_entry. rewrite (bind_step _ _ _ _ _ (subscript_run _ _ _ _ Ht)).
    reflexivity.
  - apply for_each_run. rewrite !Forall2_fmap_r.
    eapply Forall2_impl; [exact Hfacts|]. intros e f Hef.
    apply entry_fact_inv in Hef as (d & -> & Hi & _ & _).
    apply subscript_run. exact Hi.
  - apply for_each_run. rewrite !Forall2_fmap_r.
    eapply Forall2_impl; [exact Hfacts|]. intros e f Hef.
    apply entry_fact_inv in Hef as (d & -> & _ & _ & Hm).
    apply subscript_run. exact Hm.
Qed.

Lemma rows_of_insert_ne name n rows m :
  n <> name -> rows_of n (set_colls (insert name rows) m) = rows_of n m.
Proof.
  intros Hne. unfold rows_of. simpl. rewrite lookup_insert_ne by congruence. reflexivity.
Qed.

Lemma startup_load_run entries facts ss m :
  mapM entry_fact entries = Some facts -> facts <> [] ->
  NoDup (fact_id <$> facts) -> collection ss ∉ down m ->
  let m' := startup_load false ss (JList entries) m in
  rows_of (collection ss) m' = stored_row (model_name ss) <$> facts /\
  (forall n, n <> collection ss -> rows_of n m' = rows_of n m) /\
  down m' = down m /\
  last (out m') = Some (EvImportedMain (length entries)) /\
  (validate_file_structure (JList entries) m).2 = Ok true /\
  (load_file false ss (JList entries) m).2 = Ok tt.
Proof.
  intros Hfacts Hne Hnd Hup.
  split; [|split; [|split; [|split; [|split]]]];
    [| | | | rewrite (facts_validate _ _ m Hfacts Hne); reflexivity |];
    unfold startup_load, try_log, load_file;
    rewrite (bind_step _ _ _ _ _ (facts_validate _ _ m Hfacts Hne));
    cbn [negb];
    (destruct (clear_collection_run (collection ss) true m)
      as [(_ & m1 & Hc & Hrows & _) | (Hdn & _)]; [|contradiction]);
    destruct (confined_clear _ _ _ _ _ Hc) as (Hd & _ & _ & Hfr);
    rewrite (bind_step _ _ _ _ _ Hc);
    destruct (entry_lists_run (model_name ss) entries facts m1 Hfacts) as (Hdocs & Hids & Hmetas);
    rewrite (bind_step _ _ _ _ _ Hdocs), (bind_step _ _ _ _ _ Hids),
      (bind_step _ _ _ _ _ Hmetas);
    (destruct (add_up (collection ss) (stored_row (model_name ss) <$> facts) m1)
      as (m2 & Hadd & Hr2 & _ & Hm2);
     [congruence
     | destruct facts; [contradiction | discriminate]
     | rewrite stored_row_id; exact Hnd
     | exact Hrows
     | rewrite (bind_step _ _ _ _ _ Hadd); cbn]).
  - exact Hr2.
  - intros n Hn. change (rows_of n m2 = rows_of n m). rewrite Hm2.
    rewrite rows_of_insert_ne by exact Hn. apply Hfr.
    intros Hin. apply list_elem_of_singleton in Hin. contradiction.
  - rewrite Hm2. simpl. exact Hd.
  - apply last_snoc.
  - reflexivity.
Qed.

Lemma open_session_clear_run ss m :
  collection ss ∉ down m ->
  exists m1,
    open_session false ss m = (m1, Ok tt) /\
    rows_of (collection ss) m1 = [] /\
    (forall n, n <> collection ss -> rows_of n m1 = rows_of n m) /\
    down m1 = down m.
Proof.
  intros Hup. unfold open_session.
  destruct (get_or_create_run (collection ss) m) as (m0 & Hg & (Hr0 & Hd0 & _)).
  rewrite (bind_step _ _ _ _ _ Hg). cbn [negb].
  destruct (clear_collection_run (collection ss) true m0)
    as [(_ & m1 & Hc & Hempty & _) | (Hdn & _)]; [|exfalso; apply Hup; congruence].
  destruct (confined_clear _ _ _ _ _ Hc) as (Hd1 & _ & _ & Hfr).
  exists m1. split; [exact Hc|]. split; [exact Hempty|]. split; [|congruence].
  intros n Hn. rewrite <- Hr0. apply Hfr.
  intros Hin. apply list_elem_of_singleton in Hin. contradiction.
Qed.

(** X6.  Started without [--dont-clear] and with a file of well-formed
    facts, the program fills the session's collection only: it holds the
    facts of the file, formatted for the session's model, and every other
    collection is as it was, so the other collections of the model set do
    not receive the loaded facts. *)
Theorem startup_fills_the_session_collection_only
    (entries : list json) (facts : list fact) (ss : session) (m : machine) :
  mapM entry_fact entries = Some facts ->
  facts <> [] ->
  NoDup (fact_id <$> facts) ->
  collection ss ∉ down m ->
  exists m',
    startup false (Some (JList entries)) ss m = (m', Ok true) /\
    rows_of (collection ss) m' = stored_row (model_name ss) <$> facts /\
    (forall n, n <> collection ss -> rows_of n m' = rows_of n m) /\
    last (out m') = Some (EvImportedMain (length entries)).
Proof.
  intros Hfacts Hne Hnd Hup.
  destruct (open_session_clear_run ss m Hup) as (m1 & Hopen & _ & Hfr & Hd1).
  unfold startup. rewrite (bind_step _ _ _ _ _ Hopen).
  assert (Hup1 : collection ss ∉ down m1) by congruence.
  destruct (startup_load_run entries facts ss m1 Hfacts Hne Hnd Hup1)
    as (Hrows & Hother & _ & Hlast & Hval & Hload).
  destruct (validate_file_structure (JList entries) m1) as [mv rv].
  destruct (load_file false ss (JList entries) m1) as [ml rl].
  cbn [snd] in Hval, Hload. rewrite Hval, Hload.
  eexists. split; [reflexivity|]. split; [exact Hrows|]. split; [|exact Hlast].
  intros n Hn. rewrite (Hother n Hn). apply Hfr, Hn.
Qed.

Lemma startup_fills_the_session_collection_only_witness :
  exists m',
    startup false (Some (JList Sample.two_entries)) (Sample.session_of "bge-base")
      (Sample.populated []) = (m', Ok true) /\
    rows_of Sample.bge_base m' = stored_row "BAAI/bge-base-en-v1.5" <$> Sample.two_facts /\
    rows_of Sample.e5_large m' = rows_of Sample.e5_large (Sample.populated []).
Proof.
  destruct (startup_fills_the_session_collection_only Sample.two_entries Sample.two_facts
              (Sample.session_of "bge-base") (Sample.populated []))
    as (m' & Hrun & Hrows & Hother & _).
  - reflexivity.
  - discriminate.
  - apply (bool_decide_unpack _). reflexivity.
  - apply not_elem_of_empty.
  - exists m'. split; [exact Hrun|]. split; [exact Hrows|].
    apply Hother. discriminate.
Defined.

(** ** Storing and listing *)

(** X7.  A line stored as a fact goes to the session's collection only: a
    row with the clock's id, the text formatted for the session's model
    and the metadata "source" and "timestamp" is appended there, every
    other collection is as it was, and a listing afterwards shows the new
    fact under the ordinal after the last one. *)
Theorem stored_fact_is_appended_to_the_session_collection
    (user_input uid timestamp : string) (ss : session) (m : machine) :
  collection ss ∉ down m ->
  uid ∉ row_id <$> rows_of (collection ss) m ->
  let m' := (cmd_store user_input uid timestamp ss m).2 in
  (cmd_store user_input uid timestamp ss m).1 = ss /\
  rows_of (collection ss) m'
  = rows_of (collection ss) m ++
      [Row uid (format_for_embedding user_input (model_name ss) "document")
           [("source", JStr (source ss)); ("timestamp", JStr timestamp)]] /\
  (forall n, n <> collection ss -> rows_of n m' = rows_of n m) /\
  out m' = out m ++ [EvStoredFact user_input] /\
  id_map (cmd_list ss m').1 !! S (length (rows_of (collection ss) m)) = Some uid.
Proof.
  intros Hup Hfresh m'.
  assert (Hrun : cmd_store user_input uid timestamp ss m
    = (ss, add_out (EvStoredFact user_input)
             (set_colls (insert (collection ss)
                (rows_of (collection ss) m ++
                 [Row uid (format_for_embedding user_input (model_name ss) "document")
                      [("source", JStr (source ss)); ("timestamp", JStr timestamp)]])) m))).
  { unfold cmd_store, try_log, store_fact, bind, Service.add, Service.call.
    rewrite bool_decide_eq_false_2 by exact Hup. cbn [Service.typed_rows Service.as_str
      Service.as_dict].
    rewrite bool_decide_eq_true_2 by (cbn; apply NoDup_singleton).
    rewrite filter_unlisted_ids; [reflexivity|].
    intros r Hr. apply list_elem_of_singleton in Hr as ->. exact Hfresh. }
  subst m'. rewrite Hrun. cbn [fst snd].
  split; [reflexivity|]. split; [apply rows_of_insert|]. split; [|split].
  - intros n Hn. apply (rows_of_insert_ne _ _ _ m Hn).
  - reflexivity.
  - match goal with |- context [cmd_list ss ?x] => set (m1 := x) end.
    destruct (cmd_list_run ss m1) as (im & Hl & Hlk); [exact Hup|].
    rewrite Hl. cbn [fst id_map set_id_map]. rewrite Hlk.
    assert (Hrows : rows_of (collection ss) m1
                    = rows_of (collection ss) m ++
                      [Row uid (format_for_embedding user_input (model_name ss) "document")
                           [("source", JStr (source ss)); ("timestamp", JStr timestamp)]])
      by apply rows_of_insert.
    rewrite Hrows, length_app. cbn [length].
    rewrite decide_True by lia.
    replace (S (length (rows_of (collection ss) m)) - 1)
      with (length (rows_of (collection ss) m) + 0) by lia.
    rewrite lookup_app_r by lia.
    replace (length (rows_of (collection ss) m) + 0 - length (rows_of (collection ss) m))
      with 0 by lia.
    reflexivity.
Qed.

Lemma stored_fact_is_appended_to_the_session_collection_witness :
  let m := Sample.populated [] in
  let m' := (cmd_store "returns are free" "fact_1700000000000" "2023-11-14 22:13:20"
               (Sample.session_of "e5") m).2 in
  rows_of Sample.e5_large m'
  = rows_of Sample.e5_large m ++
      [Row "fact_1700000000000" "passage: returns are free"
           [("source", JStr "user"); ("timestamp", JStr "2023-11-14 22:13:20")]].
Proof.
  intros m m'.
  apply (stored_fact_is_appended_to_the_session_collection "returns are free"
           "fact_1700000000000" "2023-11-14 22:13:20" (Sample.session_of "e5") m).
  - apply not_elem_of_empty.
  - apply (bool_decide_unpack _). vm_compute. reflexivity.
Defined.

(** X8.  Listing never writes: the rows of every collection are as before.
    When the service fails on the session's collection, the index map is
    kept as it was and the error is logged. *)
Theorem listing_is_read_only (ss : session) (m : machine) :
  (forall n, rows_of n (cmd_list ss m).2 = rows_of n m) /\
  (collection ss ∈ down m ->
   cmd_list ss m = (ss, add_out (EvLogError (ServiceError (collection ss))) m)).
Proof.
  split.
  - intros n. destruct (decide (collection ss ∈ down m)) as [Hdn|Hup].
    + unfold cmd_list, display_stored_facts.
      rewrite (bind_raises _ _ _ _ _ (get_down _ _ Hdn)). reflexivity.
    + destruct (cmd_list_run ss m Hup) as (im & -> & _). reflexivity.
  - intros Hdn. unfold cmd_list, display_stored_facts.
    rewrite (bind_raises _ _ _ _ _ (get_down _ _ Hdn)). reflexivity.
Qed.

Lemma listing_is_read_only_witness :
  cmd_list (Sample.session_of "bge-large") (Sample.populated [Sample.bge_large])
  = (Sample.session_of "bge-large",
     add_out (EvLogError (ServiceError Sample.bge_large))
       (Sample.populated [Sample.bge_large])).
Proof.
  apply (listing_is_read_only (Sample.session_of "bge-large")
           (Sample.populated [Sample.bge_large])).
  apply (bool_decide_unpack _). vm_compute. reflexivity.
Defined.

(** ** Queries *)

Lemma passes_schema_filter_outcome allowed meta m :
  (exists b, passes_schema_filter allowed meta m = (m, Ok b)) \/
  passes_schema_filter allowed meta m = (m, Raise AttributeError).
Proof.
  unfold passes_schema_filter.
  destruct allowed as [[|s l]|]; try (left; eexists; reflexivity).
  destruct (_ && _ && _); [|left; eexists; reflexivity].
  destruct (dict_get meta "schema") as [[]|];
    try (right; reflexivity); left; eexists; reflexivity.
Qed.

Lemma pure_filter_by_schema allowed raw : pure_stmt (filter_by_schema allowed raw).
Proof.
  induction raw as [|r raw IH]; simpl.
  - apply pure_ret.
  - apply pure_bind.
    + intros m m' res H. eapply passes_schema_filter_pure, H.
    + intros keep. apply pure_bind; [exact IH|]. intros rest. apply pure_ret.
Qed.

Lemma filter_by_schema_sublist allowed raw m m' filtered :
  filter_by_schema allowed raw m = (m', Ok filtered) -> filtered `sublist_of` raw.
Proof.
  revert m m' filtered. induction raw as [|r raw IH]; intros m m' filtered; simpl.
  - intros [= _ <-]. constructor.
  - intros H. apply bind_ok in H as (keep & m1 & Hk & H).
    apply bind_ok in H as (rest & m2 & Hr & H). injection H as _ <-.
    apply IH in Hr. destruct keep; [apply sublist_skip | apply sublist_cons]; exact Hr.
Qed.

Lemma pure_schema_table doc : pure_stmt (schema_table doc).
Proof.
  apply pure_bind.
  - apply pure_for_each. intros line.
    destruct (PyStr.after_colon line); [apply pure_ret | apply pure_raise].
  - intros parts. apply pure_ret.
Qed.

Lemma confined_print_matches mk idx filtered :
  confined [] (print_matches mk idx filtered).
Proof.
  revert idx. induction filtered as [|r rest IH]; intros idx; simpl.
  - apply pure_confined, pure_ret.
  - apply confined_bind; [|intros _; apply IH].
    destruct mk; try apply confined_print.
    apply confined_bind; [apply pure_confined, pure_schema_table|].
    intros label. apply confined_print.
Qed.

Lemma confined_run_query ss mk q : confined [] (run_query ss mk q).
Proof.
  unfold run_query. apply confined_bind.
  - apply confined_call. intros m m' r [= <- _]. auto.
  - intros raw. apply confined_bind.
    + apply pure_confined, pure_filter_by_schema.
    + intros [|r filtered]; [apply confined_print | apply confined_print_matches].
Qed.

(** X9.  A query never writes, in any of its three forms and whether it
    fails or not: the session is unchanged and the rows of every
    collection are as before. *)
Theorem query_is_read_only
    (mk : query_marker) (query_string : string) (ss : session) (m : machine) :
  (cmd_query mk query_string ss m).1 = ss /\
  forall n, rows_of n (cmd_query mk query_string ss m).2 = rows_of n m.
Proof.
  split; [reflexivity|]. intros n. unfold cmd_query, try_log. cbn [snd].
  destruct (run_query ss mk query_string m) as [m' r] eqn:Hrun.
  apply confined_run_query in Hrun as (_ & _ & _ & Hfr).
  destruct r; simpl; apply Hfr, not_elem_of_nil.
Qed.

Lemma print_matches_run (mk : query_marker) (filtered : list row) :
  mk <> TableNames ->
  forall (idx : nat) (m : machine),
    print_matches mk idx filtered m
    = (add_outs (imap (fun i r => EvMatch (idx + i) (row_doc r)
                                    (match mk with Longer => Some r | _ => None end))
                   filtered) m, Ok tt).
Proof.
  intros Hmk. induction filtered as [|r rest IH]; intros idx m.
  - simpl. rewrite add_outs_nil. reflexivity.
  - simpl print_matches. unfold bind at 1.
    assert (Hp : (match mk with
                  | TableNames => let* label := schema_table (row_doc r) in
                                  print (EvMatch idx label None)
                  | Longer => print (EvMatch idx (row_doc r) (Some r))
                  | Plain => print (EvMatch idx (row_doc r) None)
                  end) m
                 = (add_out (EvMatch idx (row_doc r)
                               (match mk with Longer => Some r | _ => None end)) m, Ok tt)).
    { destruct mk; [reflexivity | reflexivity | contradiction]. }
    rewrite Hp, IH. f_equal.
    rewrite add_outs_one, add_outs_app. f_equal.
    rewrite imap_cons, Nat.add_0_r. simpl. f_equal.
    apply imap_ext. intros i x _. simpl. f_equal. lia.
Qed.

Lemma cmd_query_filtered_run
    (mk : query_marker) (query_string : string) (ss : session) (m : machine)
    (filtered : list row) :
  mk <> TableNames ->
  collection ss ∉ down m ->
  (filter_by_schema (allowed_schemas ss)
     (take (n_results mk)
        (ranking m (collection ss)
           (format_for_embedding query_string (model_name ss) "query")
           (rows_of (collection ss) m))) m).2 = Ok filtered ->
  cmd_query mk query_string ss m
  = (ss, add_outs
           (match filtered with
            | [] => [EvNoMatches]
            | _ => imap (fun i r => EvMatch (S i) (row_doc r)
                                      (match mk with Longer => Some r | _ => None end))
                     filtered
            end) m).
Proof.
  intros Hmk Hup Hf.
  match type of Hf with (filter_by_schema _ ?x _).2 = _ => set (raw := x) in * end.
  destruct (filter_by_schema (allowed_schemas ss) raw m) as [m1 r1] eqn:Hfilter.
  simpl in Hf. subst r1.
  pose proof (pure_filter_by_schema _ _ _ _ _ Hfilter) as ->.
  unfold cmd_query, try_log, run_query.
  assert (Hq : Service.query (collection ss)
                 (format_for_embedding query_string (model_name ss) "query")
                 (n_results mk) m = (m, Ok raw)).
  { unfold Service.query, Service.call.
    rewrite bool_decide_eq_false_2 by exact Hup. reflexivity. }
  rewrite (bind_step _ _ _ _ _ Hq), (bind_step _ _ _ _ _ Hfilter).
  destruct filtered as [|r rest]; [reflexivity|].
  rewrite (print_matches_run mk (r :: rest) Hmk 1 m). reflexivity.
Qed.

(** X10.  A plain or detailed query that the service answers with rows
    whose "schema" values are ASCII text, and whose filter does not raise,
    either prints that nothing matches, or displays the results that pass
    the filter numbered 1, 2, ... in the order of the service's answer;
    they are a sub-sequence of the first 8 (plain) or 16 (detailed)
    ranked rows, so never more than that many. *)
Theorem query_displays_numbered_matches
    (mk : query_marker) (query_string : string) (ss : session) (m : machine)
    (filtered : list row) :
  mk <> TableNames ->
  collection ss ∉ down m ->
  let raw := take (n_results mk)
               (ranking m (collection ss)
                  (format_for_embedding query_string (model_name ss) "query")
                  (rows_of (collection ss) m)) in
  Forall (fun r => ascii_schema (row_meta r) = true) raw ->
  (filter_by_schema (allowed_schemas ss) raw m).2 = Ok filtered ->
  cmd_query mk query_string ss m
  = (ss, add_outs
           (match filtered with
            | [] => [EvNoMatches]
            | _ => imap (fun i r => EvMatch (S i) (row_doc r)
                                      (match mk with Longer => Some r | _ => None end))
                     filtered
            end) m) /\
  filtered `sublist_of` raw /\
  length filtered <= n_results mk.
Proof.
  intros Hmk Hup raw _ Hf.
  split; [apply cmd_query_filtered_run; assumption|].
  assert (Hsub : filtered `sublist_of` raw).
  { destruct (filter_by_schema (allowed_schemas ss) raw m) as [m1 r1] eqn:Hfilter.
    simpl in Hf. subst r1. eapply filter_by_schema_sublist; eauto. }
  split; [exact Hsub|].
  apply sublist_length in Hsub. etransitivity; [exact Hsub|].
  unfold raw. rewrite length_take. lia.
Qed.

Lemma query_displays_numbered_matches_witness :
  cmd_query Longer "legacy" (Sample.session_of "e5") (Sample.populated [])
  = (Sample.session_of "e5",
     add_outs [EvMatch 1 "passage: legacy fact"
                 (Some (Row "old-1" "passage: legacy fact" Sample.tagged))]
       (Sample.populated [])).
Proof.
  apply (query_displays_numbered_matches Longer "legacy" (Sample.session_of "e5")
           (Sample.populated [])
           [Row "old-1" "passage: legacy fact" Sample.tagged]).
  - discriminate.
  - apply not_elem_of_empty.
  - apply (bool_decide_unpack _). vm_compute. reflexivity.
  - vm_compute. reflexivity.
Defined.

Lemma filter_by_schema_bad_value (suffixes : list string) (raw : list row) (m : machine)
    (r : row) (v : json) :
  suffixes <> [] -> suffixes <> ["all"] ->
  r ∈ raw ->
  dict_get (row_meta r) "schema" = Some v ->
  (forall s, v <> JStr s) ->
  filter_by_schema (Some suffixes) raw m = (m, Raise AttributeError).
Proof.
  intros Hne Hall Hin Hget Hv.
  induction raw as [|r0 raw IH]; [inversion Hin|].
  simpl filter_by_schema.
  assert (Hr : passes_schema_filter (Some suffixes) (row_meta r) m
               = (m, Raise AttributeError)).
  { unfold passes_schema_filter, dict_has. destruct suffixes as [|s l]; [contradiction|].
    rewrite bool_decide_eq_false_2 by exact Hall. rewrite Hget.
    destruct (row_meta r) as [|kv meta']; [discriminate|]. simpl.
    destruct v; try reflexivity. exfalso. eapply Hv. reflexivity. }
  destruct (passes_schema_filter_outcome (Some suffixes) (row_meta r0) m) as [[b Hb] | Hb].
  - rewrite (bind_step _ _ _ _ _ Hb).
    apply elem_of_cons in Hin as [-> | Hin]; [congruence|].
    rewrite (bind_raises _ _ _ _ _ (IH Hin)). reflexivity.
  - rewrite (bind_raises _ _ _ _ _ Hb). reflexivity.
Qed.

(** X11.  While the schema filter is active, one result whose "schema"
    value is not a string (a number, say) makes the whole query fail:
    nothing is displayed, not even the results before it, and an
    [AttributeError] is logged. *)
Theorem query_fails_on_non_string_schema
    (mk : query_marker) (query_string : string) (ss : session) (m : machine)
    (suffixes : list string) (r : row) (v : json) :
  collection ss ∉ down m ->
  allowed_schemas ss = Some suffixes ->
  suffixes <> [] -> suffixes <> ["all"] ->
  r ∈ take (n_results mk)
        (ranking m (collection ss)
           (format_for_embedding query_string (model_name ss) "query")
           (rows_of (collection ss) m)) ->
  dict_get (row_meta r) "schema" = Some v ->
  (forall s, v <> JStr s) ->
  cmd_query mk query_string ss m = (ss, add_out (EvLogError AttributeError) m).
Proof.
  intros Hup Hallowed Hne Hall Hin Hget Hv.
  unfold cmd_query, try_log, run_query.
  assert (Hq : Service.query (collection ss)
                 (format_for_embedding query_string (model_name ss) "query")
                 (n_results mk) m
               = (m, Ok (take (n_results mk)
                           (ranking m (collection ss)
                              (format_for_embedding query_string (model_name ss) "query")
                              (rows_of (collection ss) m))))).
  { unfold Service.query, Service.call.
    rewrite bool_decide_eq_false_2 by exact Hup. reflexivity. }
  rewrite (bind_step _ _ _ _ _ Hq), Hallowed.
  rewrite (bind_raises _ _ _ _ _
             (filter_by_schema_bad_value suffixes _ m r v Hne Hall Hin Hget Hv)).
  reflexivity.
Qed.

Lemma query_fails_on_non_string_schema_witness :
  let m := Sample.machine_of
             [(Sample.bge_base, [Row "a" "orders" [("schema", JNum 3)]])] [] in
  cmd_query Plain "orders" (Sample.session_of "bge-base") m
  = (Sample.session_of "bge-base", add_out (EvLogError AttributeError) m).
Proof.
  intros m.
  apply (query_fails_on_non_string_schema Plain "orders" (Sample.session_of "bge-base") m
           ["data_mart"; "reporting"] (Row "a" "orders" [("schema", JNum 3)]) (JNum 3)).
  - apply not_elem_of_empty.
  - reflexivity.
  - discriminate.
  - discriminate.
  - vm_compute. left.
  - reflexivity.
  - intros s. discriminate.
Defined.

Lemma filter_by_schema_off (raw : list row) (m : machine) :
  filter_by_schema None raw m = (m, Ok raw).
Proof.
  induction raw as [|r raw IH]; [reflexivity|].
  simpl. unfold bind at 1. simpl. rewrite (bind_step _ _ _ _ _ IH). reflexivity.
Qed.

(** X12.  Started with the single schema "all", in any letter case, the
    session has no schema filter: a plain or detailed query that the
    service answers displays the first 8 or 16 ranked rows as they are,
    whatever their "schema". *)
Theorem schema_all_disables_the_filter
    (s embedding_model src : string) (mk : query_marker) (query_string : string)
    (m : machine) :
  PyStr.lower s = "all" ->
  mk <> TableNames ->
  let ss := start_session embedding_model (Some [s]) src in
  collection ss ∉ down m ->
  let raw := take (n_results mk)
               (ranking m (collection ss)
                  (format_for_embedding query_string (model_name ss) "query")
                  (rows_of (collection ss) m)) in
  allowed_schemas ss = None /\
  cmd_query mk query_string ss m
  = (ss, add_outs
           (match raw with
            | [] => [EvNoMatches]
            | _ => imap (fun i r => EvMatch (S i) (row_doc r)
                                      (match mk with Longer => Some r | _ => None end))
                     raw
            end) m).
Proof.
  intros Hs Hmk ss Hup raw.
  assert (Hnone : allowed_schemas ss = None).
  { subst ss. unfold start_session.
    destruct (resolve_embedding_model embedding_model) as [mname pfx]. simpl.
    unfold allowed_schemas_of. csimpl. rewrite Hs.
    rewrite bool_decide_eq_true_2 by reflexivity. reflexivity. }
  split; [exact Hnone|].
  apply cmd_query_filtered_run; [exact Hmk | exact Hup|].
  rewrite Hnone, filter_by_schema_off. reflexivity.
Qed.

Lemma schema_all_disables_the_filter_witness :
  allowed_schemas (start_session "bge-base" (Some ["ALL"]) "user") = None.
Proof.
  apply (schema_all_disables_the_filter "ALL" "bge-base" "user" Plain "orders"
           (Sample.populated [])).
  - reflexivity.
  - discriminate.
  - apply not_elem_of_empty.
Defined.

(** ** The label of a stored text *)

Lemma append_cons (c : ascii) (a b : string) : String c a +:+ b = String c (a +:+ b).
Proof. reflexivity. Qed.

Lemma append_nil_r (s : string) : s +:+ "" = s.
Proof.
  induction s as [|c s IH]; [reflexivity|]. rewrite append_cons, IH. reflexivity.
Qed.

Lemma append_assoc (a b c : string) : (a +:+ b) +:+ c = a +:+ (b +:+ c).
Proof.
  induction a as [|x a IH]; [reflexivity|]. rewrite !append_cons, IH. reflexivity.
Qed.

Lemma all_chars_app p (a b : string) :
  PyText.all_chars p (a +:+ b) = PyText.all_chars p a && PyText.all_chars p b.
Proof.
  induction a as [|c a IH]; [reflexivity|].
  rewrite append_cons. simpl. rewrite IH, andb_assoc. reflexivity.
Qed.

Lemma splitlines_from_line (a rest cur : string) :
  no_break a ->
  PyStr.splitlines_from cur false (a +:+ String "010" rest)
  = (cur +:+ a) :: PyStr.splitlines_from "" false rest.
Proof.
  revert cur. induction a as [|c a IH]; intros cur Ha.
  - simpl. rewrite append_nil_r. reflexivity.
  - simpl in Ha. apply andb_true_iff in Ha as [Hc Ha].
    apply negb_true_iff in Hc. rewrite append_cons.
    cbn [PyStr.splitlines_from andb].
    rewrite Hc, (IH _ Ha), append_assoc. reflexivity.
Qed.

Lemma splitlines_from_last (a cur : string) :
  no_break a -> cur +:+ a <> "" ->
  PyStr.splitlines_from cur false a = [cur +:+ a].
Proof.
  revert cur. induction a as [|c a IH]; intros cur Ha Hne.
  - simpl. rewrite append_nil_r in *. destruct cur; [contradiction | reflexivity].
  - simpl in Ha. apply andb_true_iff in Ha as [Hc Ha].
    apply negb_true_iff in Hc. cbn [PyStr.splitlines_from andb].
    rewrite Hc, IH, append_assoc; [reflexivity | exact Ha|].
    rewrite append_assoc. simpl. destruct cur; discriminate.
Qed.

Lemma after_colon_found (k x : string) :
  no_colon k -> PyStr.after_colon (k +:+ String ":" x) = Some x.
Proof.
  induction k as [|c k IH]; intros Hk; [reflexivity|].
  simpl in Hk. apply andb_true_iff in Hk as [Hc Hk]. apply negb_true_iff in Hc.
  simpl. rewrite Hc. apply IH, Hk.
Qed.


(** X13.  For a stored ASCII text whose first two lines are
    "label: value", the label shown by [?!] is the two values joined by a
    dot, each stripped of surrounding blanks and then of surrounding
    backticks and double quotes; what follows the second line does not
    matter. *)
Theorem schema_table_of_labelled_lines
    (k1 x1 k2 x2 tail : string) (m : machine) :
  let doc := (k1 +:+ String ":" x1) +:+ String "010" ((k2 +:+ String ":" x2) +:+ tail) in
  PyText.is_ascii doc = true ->
  no_colon k1 -> no_break k1 -> no_break x1 ->
  no_colon k2 -> no_break k2 -> no_break x2 ->
  (tail = "" \/ exists t, tail = String "010" t) ->
  let clean x := PyStr.strip_chars ["`"%char; ascii_of_nat 34] (PyStr.strip x) in
  schema_table doc m = (m, Ok (clean x1 +:+ "." +:+ clean x2)).
Proof.
  intros doc _ Hc1 Hb1 Hbx1 Hc2 Hb2 Hbx2 Htail clean. subst doc.
  assert (Hl1 : no_break (k1 +:+ String ":" x1)).
  { unfold no_break in *. rewrite all_chars_app, Hb1. simpl. exact Hbx1. }
  assert (Hl2 : no_break (k2 +:+ String ":" x2)).
  { unfold no_break in *. rewrite all_chars_app, Hb2. simpl. exact Hbx2. }
  assert (Hlines : exists more,
            PyStr.splitlines
              ((k1 +:+ String ":" x1) +:+ String "010" ((k2 +:+ String ":" x2) +:+ tail))
            = (k1 +:+ String ":" x1) :: (k2 +:+ String ":" x2) :: more).
  { unfold PyStr.splitlines.
    rewrite (splitlines_from_line _ _ "" Hl1).
    destruct Htail as [-> | (t & ->)].
    - exists []. f_equal. rewrite append_nil_r.
      rewrite (splitlines_from_last _ "" Hl2); [reflexivity|].
      destruct k2; discriminate.
    - eexists. f_equal.
      rewrite (splitlines_from_line _ _ "" Hl2). reflexivity. }
  destruct Hlines as (more & Hlines).
  unfold schema_table. rewrite Hlines. cbn [take for_each].
  unfold bind, ret. rewrite (after_colon_found _ _ Hc1), (after_colon_found _ _ Hc2).
  reflexivity.
Qed.

Lemma schema_table_of_labelled_lines_witness :
  schema_table
    (("schema" +:+ String ":" " `sales` ") +:+
     String "010" (("table" +:+ String ":" " orders") +:+ ""))
    (Sample.populated [])
  = (Sample.populated [], Ok "sales.orders").
Proof.
  apply (schema_table_of_labelled_lines "schema" " `sales` " "table" " orders" ""
           (Sample.populated [])); try reflexivity.
  left. reflexivity.
Defined.





(** ** Deleting, continued *)

Lemma open_collections_cons (clear : bool) (model : string) (ms : list string) :
  open_collections clear (model :: ms)
  = (let '(mname, pfx) := resolve_embedding_model model in
     let* col := Service.get_or_create_collection (collection_name pfx) in
     (if clear then clear_collection col true else ret tt) ;;
     let* collections := open_collections clear ms in
     ret ((col, mname) :: collections)).
Proof. reflexivity. Qed.

Lemma targets_of_cons (model : string) (ms : list string) :
  targets_of (model :: ms) = targets_of [model] ++ targets_of ms.
Proof. reflexivity. Qed.

(** Opening with clearing up to a collection the service fails on: the
    collections before it are emptied, the others are as they were. *)
Lemma open_collections_clear_fails (ms1 : list string) (x : string) (ms2 : list string)
    (t : string * string) (m : machine) :
  targets_of [x] = [t] ->
  Forall (fun t' => t'.1 ∉ down m) (targets_of ms1) ->
  t.1 ∈ down m ->
  exists m',
    open_collections true (ms1 ++ x :: ms2) m = (m', Raise (ServiceError t.1)) /\
    down m' = down m /\
    Forall (fun t' => rows_of t'.1 m' = []) (targets_of ms1) /\
    (forall n, n ∉ (targets_of ms1).*1 -> rows_of n m' = rows_of n m) /\
    exists evs, out m' = out m ++ evs /\
                Forall (fun ev => exists k c, ev = EvCleared k c) evs.
Proof.
  intros Ht. revert m. induction ms1 as [|model ms1 IH]; intros m Hup Hdn.
  - simpl app. rewrite open_collections_cons.
    unfold targets_of in Ht. simpl in Ht.
    destruct (resolve_embedding_model x) as [mname pfx]. injection Ht as <-.
    simpl in Hdn.
    destruct (get_or_create_run (collection_name pfx) m) as (m0 & Hg & (Hr0 & Hd0 & _ & _ & Ho0)).
    rewrite (bind_step _ _ _ _ _ Hg).
    destruct (clear_collection_run (collection_name pfx) true m0)
      as [(Hu & _) | (_ & Hc)]; [exfalso; apply Hu; congruence|].
    rewrite (bind_raises _ _ _ _ _ Hc).
    exists m0. split; [reflexivity|]. split; [exact Hd0|]. split; [constructor|].
    split; [intros n _; apply Hr0|].
    exists []. rewrite app_nil_r. split; [exact Ho0 | constructor].
  - rewrite <- app_comm_cons, open_collections_cons.
    rewrite targets_of_cons in Hup. apply Forall_app in Hup as [Hcol Hup].
    unfold targets_of in Hcol. simpl in Hcol.
    rewrite targets_of_cons. unfold targets_of at 1 3. simpl fmap at 1 3.
    destruct (resolve_embedding_model model) as [mname pfx].
    apply Forall_cons in Hcol as [Hcol _]. simpl in Hcol.
    destruct (get_or_create_run (collection_name pfx) m) as (m0 & Hg & (Hr0 & Hd0 & _ & _ & Ho0)).
    rewrite (bind_step _ _ _ _ _ Hg).
    destruct (clear_collection_run (collection_name pfx) true m0)
      as [(_ & m1 & Hc & Hempty & _) | (Hd & _)]; [|exfalso; apply Hcol; congruence].
    destruct (confined_clear _ _ _ _ _ Hc) as (Hd1 & _ & _ & Hfr).
    rewrite (bind_step _ _ _ _ _ Hc).
    destruct (IH m1) as (m' & Hopen & Hd' & Hemp' & Hfr' & evs & Hout' & Hevs).
    { eapply Forall_impl; [exact Hup|]. intros t' Ht'. simpl in *. congruence. }
    { congruence. }
    rewrite (bind_raises _ _ _ _ _ Hopen).
    exists m'. split; [reflexivity|]. split; [congruence|]. split; [|split].
    + simpl. constructor; [|exact Hemp'].
      simpl. eapply (keeps_empty_open true (ms1 ++ x :: ms2)); [exact Hopen | exact Hempty].
    + intros n Hn. simpl in Hn. apply not_elem_of_cons in Hn as [Hne Hn].
      rewrite (Hfr' n Hn), <- Hr0. apply Hfr.
      intros Hin. apply list_elem_of_singleton in Hin. contradiction.
    + assert (Hc_out : exists more, out m1 = out m ++ more /\
                Forall (fun ev => exists k c, ev = EvCleared k c) more).
      { unfold clear_collection in Hc.
        assert (Hu : collection_name pfx ∉ down m0) by congruence.
        rewrite (bind_step _ _ _ _ _ (get_up _ _ Hu)) in Hc.
        destruct (rows_of (collection_name pfx) m0) as [|r rs].
        + injection Hc as <-. exists []. rewrite app_nil_r. auto.
        + rewrite (bind_step _ _ _ _ _ (delete_up _ _ _ Hu)) in Hc.
          injection Hc as <-. eexists [_]. simpl. rewrite Ho0. split; [reflexivity|].
          constructor; [eauto | constructor]. }
      destruct Hc_out as (more & Hm1 & Hmore).
      exists (more ++ evs). split.
      * rewrite Hout', Hm1, app_assoc. reflexivity.
      * apply Forall_app. auto.
Qed.

(** X15.  A deletion by ordinal while the service fails on one collection
    of the model set: every collection before the failing one has lost
    all its rows, the failing one and those after it are as they were,
    no deletion is reported, the index map is kept, and one error naming
    the failing collection is logged. *)
Theorem deletion_by_ordinal_during_an_outage
    (k : nat) (uid : string) (ss : session) (m : machine)
    (done : list (string * string)) (t : string * string) (rest : list (string * string)) :
  model_set = done ++ t :: rest ->
  id_map ss !! k = Some uid ->
  Forall (fun t' => t'.1 ∉ down m) done ->
  t.1 ∈ down m ->
  let m' := (cmd_delete_index k ss m).2 in
  (cmd_delete_index k ss m).1 = ss /\
  last (out m') = Some (EvLogError (ServiceError t.1)) /\
  (EvDeletedFact k ∉ drop (length (out m)) (out m')) /\
  Forall (fun t' => rows_of t'.1 m' = []) done /\
  Forall (fun t' => rows_of t'.1 m' = rows_of t'.1 m) (t :: rest).
Proof.
  intros Hsplit Hk Hup Hdn m'.
  unfold model_set, targets_of in Hsplit.
  apply fmap_app_inv in Hsplit as (ms1 & ms' & Hdone & Hrest & Hms).
  symmetry in Hrest. apply fmap_cons_inv in Hrest as (x & ms2 & Hx & Hms2 & ->).
  assert (Ht : targets_of [x] = [t]) by (unfold targets_of; simpl; congruence).
  fold (targets_of ms1) in Hdone. fold (targets_of ms2) in Hms2.
  destruct (open_collections_clear_fails ms1 x ms2 t m Ht) as
    (m1 & Hopen & _ & Hemp & Hfr & evs & Hout & Hevs); [congruence | exact Hdn|].
  assert (Hrun : delete_fact k uid m = (m1, Raise (ServiceError t.1))).
  { unfold delete_fact, get_all_collections_for_type. rewrite Hms.
    rewrite (bind_raises _ _ _ _ _ Hopen). reflexivity. }
  subst m'. rewrite (cmd_delete_index_resolved _ _ _ _ Hk), Hrun. cbn [fst snd].
  split; [reflexivity|]. split; [apply last_snoc|]. split; [|split].
  - simpl. rewrite Hout, <- app_assoc, drop_app_length.
    intros Hin. apply elem_of_app in Hin as [Hin | Hin].
    + rewrite Forall_forall in Hevs. destruct (Hevs _ Hin) as (? & ? & [=]).
    + apply list_elem_of_singleton in Hin. discriminate.
  - rewrite Hdone. exact Hemp.
  - pose proof model_set_names_distinct as Hnd.
    unfold model_set in Hnd. rewrite Hms in Hnd.
    change (targets_of (ms1 ++ x :: ms2)) with (targets_of (ms1 ++ [x] ++ ms2)) in Hnd.
    unfold targets_of in Hnd. rewrite !fmap_app in Hnd.
    fold (targets_of ms1) (targets_of [x]) (targets_of ms2) in Hnd.
    rewrite Ht, <- Hdone, <- Hms2 in Hnd.
    apply NoDup_app in Hnd as (_ & Hdisj & _).
    apply Forall_forall. intros t' Ht'. simpl. apply Hfr. rewrite <- Hdone.
    intros Hin. apply (Hdisj _ Hin). rewrite <- fmap_app.
    apply list_elem_of_fmap. exists t'. split; [reflexivity|]. exact Ht'.
Qed.

Lemma deletion_by_ordinal_during_an_outage_witness :
  let m := Sample.synced Sample.two_facts [Sample.bge_large] in
  let ss := (cmd_list (Sample.session_of "e5") m).1 in
  let m' := (cmd_delete_index 2 ss m).2 in
  (cmd_delete_index 2 ss m).1 = ss /\
  last (out m') = Some (EvLogError (ServiceError Sample.bge_large)) /\
  (EvDeletedFact 2 ∉ drop (length (out m)) (out m')) /\
  Forall (fun t' => rows_of t'.1 m' = [])
    [(Sample.bge_base, "BAAI/bge-base-en-v1.5")] /\
  Forall (fun t' => rows_of t'.1 m' = rows_of t'.1 m)
    [(Sample.bge_large, "BAAI/bge-large-en-v1.5");
     (Sample.e5_large, "intfloat/e5-large-v2")].
Proof.
  intros m ss.
  apply (deletion_by_ordinal_during_an_outage 2 "f2" ss m
           [(Sample.bge_base, "BAAI/bge-base-en-v1.5")]
           (Sample.bge_large, "BAAI/bge-large-en-v1.5")
           [(Sample.e5_large, "intfloat/e5-large-v2")]).
  - reflexivity.
  - vm_compute. reflexivity.
  - apply Forall_cons_2; [|apply Forall_nil_2].
    apply (bool_decide_unpack _). vm_compute. reflexivity.
  - apply (bool_decide_unpack _). vm_compute. reflexivity.
Defined.

(** X16.  "-all" asks for confirmation.  With the ASCII reply "yes", in
    any letter case and with blanks around it, and the service serving
    the model set, every collection of the model set is emptied and the
    clearing is reported; the index map is not reset.  With any other
    ASCII reply nothing changes but the cancellation message. *)
Theorem delete_all_needs_yes (inp : inputs) (ss : session) (m : machine) :
  PyText.is_ascii (answer inp) = true ->
  (PyStr.lower (PyStr.strip (answer inp)) = "yes" ->
   (forall col mname, (col, mname) ∈ model_set -> col ∉ down m) ->
   exists m',
     run_command inp LDeleteAll ss m = Some (ss, m') /\
     last (out m') = Some EvClearedAll /\
     forall col mname, (col, mname) ∈ model_set -> rows_of col m' = []) /\
  (PyStr.lower (PyStr.strip (answer inp)) <> "yes" ->
   run_command inp LDeleteAll ss m = Some (ss, add_out EvDeletionCancelled m)).
Proof.
  intros _. split.
  - intros Hyes Hup. destruct (delete_everything_run m Hup) as (m' & Hrun & Hlast).
    exists m'. split; [|split; [exact Hlast|]].
    + unfold run_command, cmd_delete_all, try_log. rewrite Hyes, Hrun. reflexivity.
    + apply (delete_everything_inv _ _ Hrun).
  - intros Hno. unfold run_command, cmd_delete_all.
    destruct (String.eqb_spec (PyStr.lower (PyStr.strip (answer inp))) "yes");
      [contradiction | reflexivity].
Qed.

Lemma delete_all_needs_yes_witness :
  (exists m',
     run_command (Inputs " YES " (fun _ => Raise ValueError) "fact_1" "now") LDeleteAll
       (Sample.session_of "bge-base") (Sample.populated [])
     = Some (Sample.session_of "bge-base", m') /\
     last (out m') = Some EvClearedAll /\
     rows_of Sample.e5_large m' = []) /\
  run_command (Inputs "y" (fun _ => Raise ValueError) "fact_1" "now") LDeleteAll
    (Sample.session_of "bge-base") (Sample.populated [])
  = Some (Sample.session_of "bge-base", add_out EvDeletionCancelled (Sample.populated [])).
Proof.
  split.
  - destruct (proj1 (delete_all_needs_yes
                       (Inputs " YES " (fun _ => Raise ValueError) "fact_1" "now")
                       (Sample.session_of "bge-base") (Sample.populated []) eq_refl)
                eq_refl)
      as (m' & Hrun & Hlast & Hempty).
    + intros col mname _. apply not_elem_of_empty.
    + exists m'. split; [exact Hrun|]. split; [exact Hlast|].
      apply (Hempty _ "intfloat/e5-large-v2"). rewrite model_set_value. repeat constructor.
  - apply (proj2 (delete_all_needs_yes
                    (Inputs "y" (fun _ => Raise ValueError) "fact_1" "now")
                    (Sample.session_of "bge-base") (Sample.populated []) eq_refl)).
    discriminate.
Defined.

(** X17.  An ordinal is used up by a deletion: after a deletion by ordinal
    k that succeeded, k is no longer in the index map, so repeating it only
    warns and changes nothing; the other ordinals keep their ids. *)
Theorem ordinal_is_single_shot (k : nat) (uid : string) (ss : session) (m : machine) :
  id_map ss !! k = Some uid ->
  (forall col mname, (col, mname) ∈ model_set -> col ∉ down m) ->
  let ss1 := (cmd_delete_index k ss m).1 in
  let m1 := (cmd_delete_index k ss m).2 in
  last (out m1) = Some (EvDeletedFact k) /\
  id_map ss1 !! k = None /\
  (forall j, j <> k -> id_map ss1 !! j = id_map ss !! j) /\
  cmd_delete_index k ss1 m1 = (ss1, add_out (EvWarnNoFact k) m1).
Proof.
  intros Hk Hup ss1 m1.
  destruct (delete_fact_run k uid m Hup) as (m' & Hrun).
  pose proof (delete_fact_inv _ _ _ _ Hrun) as [Hlast _].
  subst ss1 m1. rewrite (cmd_delete_index_resolved _ _ _ _ Hk), Hrun. cbn [fst snd].
  split; [exact Hlast|].
  assert (Hgone : id_map (set_id_map (delete k (id_map ss)) ss) !! k = None)
    by apply lookup_delete_eq.
  split; [exact Hgone|]. split.
  - intros j Hj. simpl. apply lookup_delete_ne. congruence.
  - unfold cmd_delete_index. rewrite Hgone. reflexivity.
Qed.

Lemma ordinal_is_single_shot_witness :
  let m := Sample.synced Sample.two_facts [] in
  let ss := (cmd_list (Sample.session_of "bge-base") m).1 in
  let ss1 := (cmd_delete_index 1 ss m).1 in
  let m1 := (cmd_delete_index 1 ss m).2 in
  last (out m1) = Some (EvDeletedFact 1) /\
  id_map ss1 !! 1 = None /\
  (forall j, j <> 1 -> id_map ss1 !! j = id_map ss !! j) /\
  cmd_delete_index 1 ss1 m1 = (ss1, add_out (EvWarnNoFact 1) m1).
Proof.
  intros m ss.
  apply (ordinal_is_single_shot 1 "f1" ss m).
  - vm_compute. reflexivity.
  - intros col mname _. apply not_elem_of_empty.
Defined.

(** ** Export and import *)

Lemma export_entries_facts (rows : list row) :
  mapM entry_fact (export_entry <$> rows)
  = Some ((fun r => Fact (row_id r) (row_doc r) (row_meta r)) <$> rows).
Proof.
  apply mapM_Some. induction rows as [|r rows IH]; [constructor|].
  rewrite !fmap_cons. constructor; [reflexivity | exact IH].
Qed.

Lemma cmd_export_run filename ss m :
  collection ss ∉ down m ->
  cmd_export filename ss m
  = (m, Some (filename, JList (export_entry <$> rows_of (collection ss) m))).
Proof.
  intros Hup. unfold cmd_export, export_collection.
  rewrite (bind_step _ _ _ _ _ (get_up _ _ Hup)). reflexivity.
Qed.

(** X18.  Exporting the session's collection and importing the file again
    puts, into every collection of the model set, one row per exported
    row with the same id and metadata and with the exported document
    formatted for that collection's model.  So the two bge collections
    get the exported rows as they are, and the e5 collection gets every
    document with "passage: " in front once more, also when the export
    came from the e5 collection itself. *)
Theorem export_then_import
    (filename : string) (ss : session) (m : machine) :
  let rows := rows_of (collection ss) m in
  collection ss ∉ down m ->
  (forall col mname, (col, mname) ∈ model_set -> col ∉ down m) ->
  rows <> [] ->
  NoDup (row_id <$> rows) ->
  exists file m',
    cmd_export filename ss m = (m, Some (filename, file)) /\
    cmd_import file ss m = (ss, m') /\
    (forall col mname, (col, mname) ∈ model_set ->
       rows_of col m'
       = (fun r => Row (row_id r) (format_for_embedding (row_doc r) mname "document")
                       (row_meta r)) <$> rows) /\
    rows_of "bge_base_imported_data" m' = rows /\
    rows_of "bge_large_imported_data" m' = rows /\
    rows_of "e5_large_imported_data" m'
    = (fun r => Row (row_id r) ("passage: " +:+ row_doc r) (row_meta r)) <$> rows.
Proof.
  intros rows Hup Hall Hne Hnd.
  set (facts := (fun r => Fact (row_id r) (row_doc r) (row_meta r)) <$> rows).
  destruct (cmd_import_facts (export_entry <$> rows) facts ss m) as (m' & Himp & _ & Hrows).
  - apply export_entries_facts.
  - unfold facts. destruct rows; [contradiction | discriminate].
  - unfold facts. rewrite <- list_fmap_compose. exact Hnd.
  - exact Hall.
  - assert (Hgen : forall col mname, (col, mname) ∈ model_set ->
       rows_of col m'
       = (fun r => Row (row_id r) (format_for_embedding (row_doc r) mname "document")
                       (row_meta r)) <$> rows).
    { intros col mname Hin. rewrite (Hrows _ _ Hin). unfold facts.
      rewrite <- list_fmap_compose. reflexivity. }
    assert (Hid : (fun r => Row (row_id r) (row_doc r) (row_meta r)) <$> rows = rows).
    { rewrite <- (list_fmap_id rows) at 2. apply list_fmap_ext.
      intros i [? ? ?] _. reflexivity. }
    exists (JList (export_entry <$> rows)), m'.
    split; [apply cmd_export_run, Hup|]. split; [exact Himp|]. split; [exact Hgen|].
    split; [|split].
    + rewrite (Hgen _ "BAAI/bge-base-en-v1.5") by (rewrite model_set_value; repeat constructor).
      exact Hid.
    + rewrite (Hgen _ "BAAI/bge-large-en-v1.5") by (rewrite model_set_value; repeat constructor).
      exact Hid.
    + rewrite (Hgen _ "intfloat/e5-large-v2") by (rewrite model_set_value; repeat constructor).
      reflexivity.
Qed.

Lemma export_then_import_witness :
  let ss := Sample.session_of "e5" in
  let m := Sample.synced Sample.two_facts [] in
  exists file m',
    cmd_export "facts.json" ss m = (m, Some ("facts.json", file)) /\
    cmd_import file ss m = (ss, m') /\
    row_doc <$> rows_of "e5_large_imported_data" m'
    = ["passage: passage: refund window is 30 days";
       "passage: passage: orders ship in 2 days"].
Proof.
  intros ss m.
  destruct (export_then_import "facts.json" ss m)
    as (file & m' & Hexp & Himp & _ & _ & _ & He5).
  - apply not_elem_of_empty.
  - intros col mname _. apply not_elem_of_empty.
  - discriminate.
  - apply (bool_decide_unpack _). vm_compute. reflexivity.
  - exists file, m'. split; [exact Hexp|]. split; [exact Himp|].
    rewrite He5. reflexivity.
Defined.

(** X19.  The export of an empty collection is the empty list, which the
    import rejects: such a file cannot be read back, and reading it
    changes nothing. *)
Theorem export_of_empty_collection_is_rejected
    (filename : string) (ss : session) (m : machine) :
  collection ss ∉ down m ->
  rows_of (collection ss) m = [] ->
  cmd_export filename ss m = (m, Some (filename, JList [])) /\
  (cmd_import (JList []) ss m).1 = ss /\
  colls (cmd_import (JList []) ss m).2 = colls m /\
  last (out (cmd_import (JList []) ss m).2) = Some EvAbortImport.
Proof.
  intros Hup Hrows. split.
  - rewrite (cmd_export_run _ _ _ Hup), Hrows. reflexivity.
  - split; [reflexivity|]. split; [reflexivity|].
    unfold cmd_import, import_file, try_log, bind, validate_file_structure, print, ret.
    cbn. rewrite <- app_assoc, last_app. reflexivity.
Qed.

Lemma export_of_empty_collection_is_rejected_witness :
  cmd_export "facts.json" (Sample.session_of "bge-base") (Sample.machine_of [] [])
  = (Sample.machine_of [] [], Some ("facts.json", JList [])).
Proof.
  apply (export_of_empty_collection_is_rejected "facts.json"
           (Sample.session_of "bge-base") (Sample.machine_of [] [])).
  - apply not_elem_of_empty.
  - reflexivity.
Defined.

(** ** The prompt's dispatcher *)

Lemma parse_query_cases (u : string) :
  parse_query u = LList \/ exists mk q, parse_query u = LQuery mk q.
Proof.
  unfold parse_query.
  destruct (match String.get 1 u with
            | Some "?"%char => (Longer, PyStr.strip (PyText.skip 2 u))
            | Some "!"%char => (TableNames, PyStr.strip (PyText.skip 2 u))
            | _ => (Plain, PyStr.strip (PyText.skip 1 u))
            end) as [mk [|c q]]; [left | right]; eauto.
Qed.

Lemma prefix_dash (u : string) :
  String.prefix "-" u = true -> exists u', u = String "-" u'.
Proof.
  destruct u as [|c u']; [discriminate|]. intros H.
  destruct (ascii_dec "-" c) as [<-|Hne]; [eauto|]. exfalso.
  unfold String.prefix in H. destruct (ascii_dec "-" c); [contradiction | discriminate].
Qed.

(** X20.  A line that starts with "-" and is followed neither by "all"
    nor by digits only is no command: it leaves the chain of tests of
    the loop and is stored as a fact, dash included.  (ASCII lines.) *)
Theorem dash_line_that_is_no_deletion_is_stored
    (inp : inputs) (line : string) (ss : session) (m : machine) :
  PyText.is_ascii line = true ->
  String.prefix "-" (PyStr.strip line) = true ->
  PyStr.lower (PyStr.strip (PyText.skip 1 (PyStr.strip line))) <> "all" ->
  PyText.isdigit (PyStr.lower (PyStr.strip (PyText.skip 1 (PyStr.strip line)))) = false ->
  parse_line line = LStore (PyStr.strip line) /\
  loop_step inp line ss m
  = Some (cmd_store (PyStr.strip line) (now_uid inp) (now_stamp inp) ss m).
Proof.
  intros _ Hdash Hall Hdig.
  assert (Hp : parse_line line = LStore (PyStr.strip line)).
  { unfold parse_line. rewrite Hdash, Hdig.
    apply String.eqb_neq in Hall. rewrite Hall.
    destruct (prefix_dash _ Hdash) as (u' & ->). reflexivity. }
  split; [exact Hp|]. unfold loop_step. rewrite Hp. reflexivity.
Qed.

Lemma dash_line_that_is_no_deletion_is_stored_witness :
  parse_line " - 12a " = LStore "- 12a".
Proof.
  apply (dash_line_that_is_no_deletion_is_stored
           (Inputs "" (fun _ => Raise TypeError) "fact_1" "2024-01-01 00:00:00")
           " - 12a " (Sample.session_of "bb") (Sample.machine_of [] []));
    [reflexivity | reflexivity | discriminate | reflexivity].
Defined.

(** X21.  The loop ends on the lines "exit" and "quit", in any case and
    with any white space around them, and on no other line.  (ASCII
    lines.) *)
Theorem loop_ends_only_on_exit
    (inp : inputs) (line : string) (ss : session) (m : machine) :
  PyText.is_ascii line = true ->
  loop_step inp line ss m = None <->
  PyStr.lower (PyStr.strip line) = "exit" \/ PyStr.lower (PyStr.strip line) = "quit".
Proof.
  intros _. unfold loop_step, parse_line.
  set (u := PyStr.strip line).
  destruct (String.eqb u "") eqn:Hblank.
  { apply String.eqb_eq in Hblank. rewrite Hblank. simpl.
    split; [discriminate | intros [|]; discriminate]. }
  destruct (String.eqb (PyStr.lower u) "exit") eqn:He.
  { apply String.eqb_eq in He. simpl. split; auto. }
  destruct (String.eqb (PyStr.lower u) "quit") eqn:Hq.
  { apply String.eqb_eq in Hq. simpl. split; auto. }
  apply String.eqb_neq in He, Hq. cbn [orb].
  split; [|intros [|]; contradiction].
  intros Hnone. exfalso. revert Hnone.
  destruct (String.prefix "?" u).
  { destruct (parse_query_cases u) as [-> | (mk & q & ->)]; discriminate. }
  destruct (String.prefix "-" u).
  { destruct (String.eqb _ "all"); [discriminate|].
    destruct (PyText.isdigit _); discriminate. }
  destruct (String.prefix "w " _); [discriminate|].
  destruct (String.prefix "r " _); [|discriminate].
  simpl. destruct (file inp _); discriminate.
Qed.

Lemma loop_ends_only_on_exit_witness :
  loop_step (Inputs "" (fun _ => Raise TypeError) "fact_1" "2024-01-01 00:00:00")
            "  QuIt " (Sample.session_of "bb") (Sample.machine_of [] []) = None.
Proof.
  apply (loop_ends_only_on_exit
           (Inputs "" (fun _ => Raise TypeError) "fact_1" "2024-01-01 00:00:00")
           "  QuIt " (Sample.session_of "bb") (Sample.machine_of [] []));
    [reflexivity | right; reflexivity].
Defined.

Lemma endswith_refl (s : string) : PyStr.endswith s s = true.
Proof. destruct s; simpl; [reflexivity|]. rewrite Ascii.eqb_refl, String.eqb_refl. reflexivity. Qed.

Lemma endswith_app (a b : string) : PyStr.endswith (a +:+ b) b = true.
Proof.
  induction a as [|c a IH].
  - apply endswith_refl.
  - rewrite append_cons. simpl. rewrite IH. apply orb_true_r.
Qed.

Lemma json_filename_suffix (f : string) :
  PyStr.endswith (json_filename f) ".json" = true.
Proof.
  unfold json_filename. destruct (PyStr.endswith (PyStr.strip f) ".json") eqn:E.
  - exact E.
  - apply endswith_app.
Qed.

(** X22.  The file that "w" writes and "r" reads always has a name that
    ends in ".json": it is what follows the command letter and the
    space, without the white space around it, and with ".json" appended
    unless it ends so already.  (ASCII lines.) *)
Theorem file_commands_name_a_json_file (line filename : string) :
  PyText.is_ascii line = true ->
  parse_line line = LExport filename \/ parse_line line = LImport filename ->
  PyStr.endswith filename ".json" = true /\
  filename = json_filename (PyText.skip 2 (PyStr.strip line)).
Proof.
  intros _ Hp.
  assert (Hf : filename = json_filename (PyText.skip 2 (PyStr.strip line))).
  { revert Hp. unfold parse_line. set (u := PyStr.strip line).
    destruct (String.eqb u ""); [intros [|]; discriminate|].
    destruct (_ || _); [intros [|]; discriminate|].
    destruct (String.prefix "?" u).
    { destruct (parse_query_cases u) as [-> | (mk & q & ->)]; intros [|]; discriminate. }
    destruct (String.prefix "-" u).
    { destruct (String.eqb _ "all"); [intros [|]; discriminate|].
      destruct (PyText.isdigit _); intros [|]; discriminate. }
    destruct (String.prefix "w " _); [intros [[= <-]|]; [reflexivity | discriminate]|].
    destruct (String.prefix "r " _); [intros [|[= <-]]; [discriminate | reflexivity]|].
    intros [|]; discriminate. }
  split; [|exact Hf]. rewrite Hf. apply json_filename_suffix.
Qed.

Lemma file_commands_name_a_json_file_witness :
  PyStr.endswith "facts.json" ".json" = true /\
  "facts.json" = json_filename (PyText.skip 2 (PyStr.strip "W  facts ")).
Proof.
  apply (file_commands_name_a_json_file "W  facts " "facts.json");
    [reflexivity | left; reflexivity].
Defined.

(** ** What a turn of the loop can reach *)

Lemma cmd_list_rows ss m n : rows_of n (cmd_list ss m).2 = rows_of n m.
Proof.
  destruct (decide (collection ss ∈ down m)) as [Hdn|Hup].
  - unfold cmd_list, display_stored_facts.
    rewrite (bind_raises _ _ _ _ _ (get_down _ _ Hdn)). reflexivity.
  - destruct (cmd_list_run ss m Hup) as (im & -> & _). reflexivity.
Qed.

Lemma cmd_query_rows mk q ss m n : rows_of n (cmd_query mk q ss m).2 = rows_of n m.
Proof.
  unfold cmd_query, try_log. cbn [snd].
  destruct (run_query ss mk q m) as [m' r] eqn:Hrun.
  apply confined_run_query in Hrun as (_ & _ & _ & Hfr).
  destruct r; simpl; apply Hfr, not_elem_of_nil.
Qed.

Lemma cmd_export_rows filename ss m n :
  rows_of n (cmd_export filename ss m).1 = rows_of n m.
Proof.
  unfold cmd_export, export_collection.
  destruct (decide (collection ss ∈ down m)) as [Hdn|Hup].
  - rewrite (bind_raises _ _ _ _ _ (get_down _ _ Hdn)). reflexivity.
  - rewrite (bind_step _ _ _ _ _ (get_up _ _ Hup)). reflexivity.
Qed.

Lemma cmd_store_rows text uid stamp ss m n :
  n <> collection ss -> rows_of n (cmd_store text uid stamp ss m).2 = rows_of n m.
Proof.
  intros Hn. unfold cmd_store, try_log. cbn [snd].
  destruct (store_fact ss text uid stamp m) as [m' r] eqn:Hrun.
  assert (Hc : confined [collection ss] (store_fact ss text uid stamp)).
  { apply confined_bind; [apply confined_add|]. intros _. apply confined_print. }
  apply Hc in Hrun as (_ & _ & _ & Hfr).
  destruct r; simpl; apply Hfr; intros Hin; apply list_elem_of_singleton in Hin; contradiction.
Qed.

(** X23.  Only the lines that start with "-" or with "r " reach a
    collection other than the session's: after any other line every
    other collection holds the rows it held, and after a line that
    starts with "?" or with "w " so does the session's collection.
    (ASCII lines.) *)
Theorem only_deletion_and_import_reach_other_collections
    (inp : inputs) (line : string) (ss ss' : session) (m m' : machine) :
  PyText.is_ascii line = true ->
  loop_step inp line ss m = Some (ss', m') ->
  String.prefix "-" (PyStr.strip line) = false ->
  String.prefix "r " (PyStr.lower (PyStr.strip line)) = false ->
  (forall n, n <> collection ss -> rows_of n m' = rows_of n m) /\
  (String.prefix "?" (PyStr.strip line) = true \/
   String.prefix "w " (PyStr.lower (PyStr.strip line)) = true ->
   forall n, rows_of n m' = rows_of n m).
Proof.
  intros _. unfold loop_step, parse_line. set (u := PyStr.strip line).
  intros Hstep Hdash Hr. revert Hstep. rewrite Hdash, Hr.
  destruct (String.eqb u "") eqn:Hblank.
  { apply String.eqb_eq in Hblank. intros [= <- <-]. split; [reflexivity|].
    rewrite Hblank. intros [|]; discriminate. }
  destruct (_ || _); [discriminate|].
  assert (Hsnd : forall (r : session * machine), Some r = Some (ss', m') -> m' = r.2).
  { intros r [= ->]. reflexivity. }
  destruct (String.prefix "?" u).
  { destruct (parse_query_cases u) as [-> | (mk & q & ->)];
      intros H; apply Hsnd in H as ->.
    - split; intros; apply cmd_list_rows.
    - split; intros; apply cmd_query_rows. }
  destruct (String.prefix "w " _).
  { intros H; apply Hsnd in H as ->. split; intros; apply cmd_export_rows. }
  intros H; apply Hsnd in H as ->. split.
  - intros n Hn. apply cmd_store_rows, Hn.
  - intros [|]; discriminate.
Qed.

Lemma only_deletion_and_import_reach_other_collections_witness :
  let inp := Inputs "" (fun _ => Raise TypeError) "fact_1" "2024-01-01 00:00:00" in
  let ss := Sample.session_of "e5" in
  let m := Sample.synced Sample.two_facts [] in
  exists m',
    loop_step inp "orders ship in 2 days" ss m = Some (ss, m') /\
    rows_of "bge_base_imported_data" m' = rows_of "bge_base_imported_data" m.
Proof.
  intros inp ss m.
  exists (cmd_store "orders ship in 2 days" "fact_1" "2024-01-01 00:00:00" ss m).2.
  split; [reflexivity|].
  refine (proj1 (only_deletion_and_import_reach_other_collections inp
                   "orders ship in 2 days" ss ss m _ _ _ _ _) _ _);
    [reflexivity | reflexivity | reflexivity | reflexivity | discriminate].
Defined.

(** ** The model cache and the pre-download script *)

(** X24.  The directory of a model under the cache is a single path
    segment: whatever the model's name, it contains no "/", so the
    model's path is a direct child of the cache directory. *)
Theorem model_cache_entry_is_one_path_segment (model_name : string) :
  PyText.all_chars (fun c => negb (Ascii.eqb c "/")) (model_cache_entry model_name) = true.
Proof.
  unfold model_cache_entry. rewrite all_chars_app. apply andb_true_intro.
  split; [reflexivity|].
  induction model_name as [|c s IH]; [reflexivity|].
  cbn [PyText.replace_char]. destruct (Ascii.eqb c "/") eqn:E.
  - rewrite all_chars_app, IH. reflexivity.
  - cbn [PyText.all_chars]. rewrite E, IH. reflexivity.
Qed.

Lemma download_all_run (cached fetch : string -> bool) (ms started : list string)
    (successful failed : nat) :
  Preload.download_all cached fetch ms started successful failed
  = (started ++ List.filter (fun n => negb (cached n)) ms,
     (successful + length (List.filter (fun n => cached n || fetch n) ms),
      failed + length (List.filter (fun n => negb (cached n) && negb (fetch n)) ms))).
Proof.
  revert started successful failed.
  induction ms as [|n ms IH]; intros started successful failed.
  - cbn. rewrite app_nil_r, !Nat.add_0_r. reflexivity.
  - cbn [Preload.download_all List.filter]. unfold Preload.download_model.
    destruct (cached n), (fetch n); cbn [negb orb andb]; rewrite IH; cbn [length];
      rewrite <- ?app_assoc; cbn [app]; (f_equal; f_equal; lia).
Qed.

(** X25.  The pre-download script over a list of distinct models starts
    a download for exactly the models that are not cached, in the order
    of the list; every model is counted once, as successful or as
    failed; the failed ones are those that were not cached and whose
    download raised; and the exit code is 0 when every model was cached
    or fetched, and 1 otherwise. *)
Theorem preload_counts_every_model_once
    (cached fetch : string -> bool) (ms : list string) :
  NoDup ms ->
  let started := (Preload.main_over cached fetch ms).1 in
  let s := (Preload.main_over cached fetch ms).2 in
  started = List.filter (fun n => negb (cached n)) ms /\
  Preload.successful_downloads s + Preload.failed_downloads s = length ms /\
  Preload.failed_downloads s
  = length (List.filter (fun n => negb (cached n) && negb (fetch n)) ms) /\
  (Preload.exit_code s = 0 <-> forall n, n ∈ ms -> cached n = true \/ fetch n = true) /\
  (Preload.exit_code s = 0 \/ Preload.exit_code s = 1).
Proof.
  intros _. unfold Preload.main_over. rewrite download_all_run. cbn.
  set (bad := List.filter (fun n => negb (cached n) && negb (fetch n)) ms).
  assert (Hlen : length (List.filter (fun n => cached n || fetch n) ms) + length bad
                 = length ms).
  { subst bad. induction ms as [|n ms IH]; [reflexivity|]. cbn.
    destruct (cached n), (fetch n); cbn; lia. }
  assert (Hbad : bad = [] <-> forall n, n ∈ ms -> cached n = true \/ fetch n = true).
  { subst bad. clear Hlen. induction ms as [|n ms IH].
    - split; [|reflexivity]. intros _ n Hn. inversion Hn.
    - assert (Htl : (forall x, x ∈ n :: ms -> cached x = true \/ fetch x = true) <->
                    (cached n = true \/ fetch n = true) /\
                    (forall x, x ∈ ms -> cached x = true \/ fetch x = true)).
      { split.
        - intros H. split; [apply H; left|]. intros x Hx. apply H. right. exact Hx.
        - intros [H1 H2] x Hx. apply elem_of_cons in Hx as [->|Hx]; [exact H1 | apply H2, Hx]. }
      rewrite Htl, <- IH. cbn [List.filter].
      destruct (cached n) eqn:Ec; [|destruct (fetch n) eqn:Ef]; cbn [negb andb].
      + split; [auto | intros [_ H]; exact H].
      + split; [auto | intros [_ H]; exact H].
      + split; [discriminate|]. intros [[H|H] _]; discriminate. }
  split; [reflexivity|]. split; [exact Hlen|]. split; [reflexivity|]. split.
  - rewrite <- Hbad. destruct bad; cbn; split; congruence.
  - destruct bad; cbn; auto.
Qed.

Lemma preload_counts_every_model_once_witness :
  let cached := String.eqb "BAAI/bge-base-en-v1.5" in
  let fetch := String.eqb "intfloat/e5-large-v2" in
  (Preload.main cached fetch).1 = ["BAAI/bge-large-en-v1.5"; "intfloat/e5-large-v2"] /\
  Preload.failed_downloads (Preload.main cached fetch).2 = 1.
Proof.
  intros cached fetch.
  destruct (preload_counts_every_model_once cached fetch Preload.MODELS_TO_DOWNLOAD)
    as (Hs & _ & Hf & _).
  - apply (bool_decide_unpack _). vm_compute. reflexivity.
  - split; [exact Hs | exact Hf].
Defined.

(** X26.  The pre-download script and the interactive tool agree on the
    models: every model the tool can resolve, whatever is typed for
    [--embedding-model], is in the script's list, and every model of the
    list is the one of some collection of the model set.  So when the
    script exits with 0, every model the tool can select was cached or
    fetched. *)
Theorem preload_covers_every_resolved_model (cached fetch : string -> bool) :
  (forall model_input,
     (resolve_embedding_model model_input).1 ∈ Preload.MODELS_TO_DOWNLOAD) /\
  (forall mname, mname ∈ Preload.MODELS_TO_DOWNLOAD -> mname ∈ model_set.*2) /\
  (Preload.exit_code (Preload.main cached fetch).2 = 0 ->
   forall model_input,
     cached (resolve_embedding_model model_input).1 = true \/
     fetch (resolve_embedding_model model_input).1 = true).
Proof.
  assert (Hin : forall model_input,
     (resolve_embedding_model model_input).1 ∈ Preload.MODELS_TO_DOWNLOAD).
  { intros k. unfold Preload.MODELS_TO_DOWNLOAD.
    destruct (resolved_model_cases k) as [-> | [-> | ->]]; repeat constructor. }
  split; [exact Hin|]. split.
  - intros mname. rewrite model_set_value. intros H. exact H.
  - unfold Preload.main, Preload.main_over. rewrite download_all_run. cbn [snd Preload.exit_code].
    intros Hexit k. specialize (Hin k).
    set (x := (resolve_embedding_model k).1) in *. clearbody x.
    destruct (cached x) eqn:Ec; [auto|]. destruct (fetch x) eqn:Ef; [auto|]. exfalso.
    assert (Hbad : x ∈ List.filter (fun n => negb (cached n) && negb (fetch n))
                        Preload.MODELS_TO_DOWNLOAD).
    { apply list_elem_of_In, List.filter_In. split; [apply list_elem_of_In, Hin|].
      rewrite Ec, Ef. reflexivity. }
    destruct (List.filter _ _); [inversion Hbad|]. cbn in Hexit. discriminate.
Qed.

(** ** The loop *)

Lemma confined_bind_ret {A B} names (c : M A) (k : A -> M B) (P : A -> Prop) :
  confined names c ->
  (forall m m' a, c m = (m', Ok a) -> P a) ->
  (forall a, P a -> confined names (k a)) ->
  confined names (bind c k).
Proof.
  intros Hc HP Hk m m' r. unfold bind. destruct (c m) as [m1 [a|e]] eqn:E.
  - intros H. pose proof (HP _ _ _ E) as Ha.
    apply Hc in E as (Hd & Hr & Hp & Hn).
    apply (Hk a Ha) in H as (Hd' & Hr' & Hp' & Hn').
    repeat split; try congruence. intros n Hnot. rewrite Hn', Hn; auto.
  - intros [= <- <-]. apply Hc in E. exact E.
Qed.

Lemma confined_get_or_create name :
  confined [] (Service.get_or_create_collection name).
Proof.
  intros m m' r H.
  destruct (get_or_create_run name m) as (m1 & Hrun & (Hr & Hd & Hk & Hp & _)).
  rewrite Hrun in H. injection H as <- _. auto.
Qed.

Lemma get_or_create_returns name m m' a :
  Service.get_or_create_collection name m = (m', Ok a) -> a = name.
Proof.
  intros H. destruct (get_or_create_run name m) as (m1 & Hrun & _).
  rewrite Hrun in H. injection H as _ <-. reflexivity.
Qed.

Lemma confined_open clear ms :
  confined ((targets_of ms).*1) (open_collections clear ms).
Proof.
  induction ms as [|model ms IH].
  - apply pure_confined, pure_ret.
  - rewrite open_collections_cons. unfold targets_of. rewrite fmap_cons.
    fold (targets_of ms).
    destruct (resolve_embedding_model model) as [mname pfx]. rewrite fmap_cons. cbn [fst].
    apply (confined_bind_ret _ _ _ (fun a => a = collection_name pfx)).
    + apply (confined_mono []); [intros x Hx; inversion Hx | apply confined_get_or_create].
    + intros m m' a. apply get_or_create_returns.
    + intros a ->. apply confined_bind.
      * apply (confined_mono [collection_name pfx]).
        { intros x Hx. apply list_elem_of_singleton in Hx as ->. left. }
        destruct clear; [apply confined_clear | apply pure_confined, pure_ret].
      * intros _. apply confined_bind.
        { apply (confined_mono ((targets_of ms).*1)); [|exact IH].
          intros x Hx. right. exact Hx. }
        intros cols. apply pure_confined, pure_ret.
Qed.

Lemma open_collections_returns clear ms m m' cols :
  open_collections clear ms m = (m', Ok cols) -> cols = targets_of ms.
Proof.
  destruct clear.
  - intros H. apply open_collections_clear_inv in H as (-> & _). reflexivity.
  - intros H. destruct (open_collections_keep_run ms m) as (m1 & Hrun & _).
    rewrite Hrun in H. injection H as _ <-. reflexivity.
Qed.

Lemma confined_over_model_set {B} clear (k : list (string * string) -> M B) :
  confined (model_set.*1) (k model_set) ->
  confined (model_set.*1) (bind (get_all_collections_for_type clear) k).
Proof.
  intros Hk. apply (confined_bind_ret _ _ _ (fun a => a = model_set)).
  - apply confined_open.
  - intros m m' a H. apply open_collections_returns in H. exact H.
  - intros a ->. exact Hk.
Qed.

Lemma confined_delete_fact idx uid : confined (model_set.*1) (delete_fact idx uid).
Proof.
  apply confined_over_model_set. apply confined_bind; [|intros _; apply confined_print].
  apply confined_for_loop. intros [col mname] Hin.
  apply (confined_mono [col]); [|apply confined_delete].
  intros n Hn. apply list_elem_of_singleton in Hn as ->.
  apply list_elem_of_fmap. exists (col, mname). auto.
Qed.

Lemma confined_delete_everything : confined (model_set.*1) delete_everything.
Proof.
  apply confined_over_model_set. apply confined_bind; [|intros _; apply confined_print].
  apply confined_for_loop. intros [col mname] Hin.
  apply (confined_mono [col]); [|apply confined_clear].
  intros n Hn. apply list_elem_of_singleton in Hn as ->.
  apply list_elem_of_fmap. exists (col, mname). auto.
Qed.

Lemma confined_validate file_data : confined [] (validate_file_structure file_data).
Proof.
  intros m m' r H.
  destruct (validate_file_structure_run file_data m) as (b & evs & Hrun & _).
  rewrite Hrun in H. injection H as <- _. auto.
Qed.

Lemma confined_import_file file_data : confined (model_set.*1) (import_file file_data).
Proof.
  apply confined_bind.
  - apply (confined_mono []); [intros x Hx; inversion Hx | apply confined_validate].
  - intros [|]; [|apply confined_print].
    destruct file_data; try (apply pure_confined, pure_raise).
    apply confined_over_model_set.
    apply confined_bind; [apply confined_import_loop | intros _; apply confined_print].
Qed.

Lemma try_log_rows names (c : M unit) (m : machine) (n : string) :
  confined names c -> n ∉ names -> rows_of n (try_log c m) = rows_of n m.
Proof.
  intros Hc Hn. unfold try_log. destruct (c m) as [m' r] eqn:E.
  apply Hc in E as (_ & _ & _ & Hfr). destruct r; simpl; apply Hfr, Hn.
Qed.

Lemma same_settings_refl ss : same_settings ss ss.
Proof. repeat split. Qed.

Lemma same_settings_set_id_map im ss : same_settings ss (set_id_map im ss).
Proof. repeat split. Qed.

Lemma cmd_list_settings ss m : same_settings ss (cmd_list ss m).1.
Proof.
  unfold cmd_list. destruct (display_stored_facts (collection ss) m) as [m' [im|e]];
    [apply same_settings_set_id_map | apply same_settings_refl].
Qed.

Lemma cmd_delete_index_settings idx ss m : same_settings ss (cmd_delete_index idx ss m).1.
Proof.
  unfold cmd_delete_index. destruct (id_map ss !! idx); [|apply same_settings_refl].
  destruct (delete_fact idx s m) as [m' [u|e]];
    [apply same_settings_set_id_map | apply same_settings_refl].
Qed.

Lemma cmd_delete_index_rows idx ss m n :
  n ∉ model_set.*1 -> rows_of n (cmd_delete_index idx ss m).2 = rows_of n m.
Proof.
  intros Hn. unfold cmd_delete_index. destruct (id_map ss !! idx) as [uid|]; [|reflexivity].
  destruct (delete_fact idx uid m) as [m' r] eqn:E.
  apply confined_delete_fact in E as (_ & _ & _ & Hfr).
  destruct r; simpl; apply Hfr, Hn.
Qed.

Lemma loop_step_reach inp line ss m ss' m' :
  loop_step inp line ss m = Some (ss', m') ->
  same_settings ss ss' /\
  forall n, n <> collection ss -> n ∉ model_set.*1 -> rows_of n m' = rows_of n m.
Proof.
  unfold loop_step.
  assert (Hpair : forall (r : session * machine),
            Some r = Some (ss', m') -> ss' = r.1 /\ m' = r.2).
  { intros r [= ->]. auto. }
  destruct (parse_line line); cbn [run_command]; try discriminate;
    try (intros H; apply Hpair in H as [-> ->]).
  - split; [apply same_settings_refl | reflexivity].
  - split; [apply cmd_list_settings|]. intros; apply cmd_list_rows.
  - split; [apply same_settings_refl|]. intros; apply cmd_query_rows.
  - split.
    + unfold cmd_delete_all. destruct (String.eqb _ _); apply same_settings_refl.
    + intros n _ Hn. unfold cmd_delete_all. destruct (String.eqb _ _); [|reflexivity].
      apply (try_log_rows _ _ _ _ confined_delete_everything Hn).
  - split; [apply cmd_delete_index_settings|]. intros n _ Hn.
    apply cmd_delete_index_rows, Hn.
  - split; [apply same_settings_refl|]. intros; apply cmd_export_rows.
  - destruct (file inp filename) as [file_data|e]; intros H; apply Hpair in H as [-> ->].
    + split; [apply same_settings_refl|]. intros n _ Hn.
      apply (try_log_rows _ _ _ _ (confined_import_file file_data) Hn).
    + split; [apply same_settings_refl | reflexivity].
  - split; [apply same_settings_refl|]. intros n Hn _. apply cmd_store_rows, Hn.
Qed.

(** X27.  However long the loop runs and whatever is typed, the session
    keeps its model, its collection prefix, its schema filter and its
    source, and no collection other than the session's and those of the
    model set is ever changed. *)
Theorem loop_stays_within_the_model_set
    (turns : list (inputs * string)) (ss : session) (m : machine) :
  same_settings ss (loop turns ss m).1 /\
  collection (loop turns ss m).1 = collection ss /\
  forall n, n <> collection ss -> n ∉ model_set.*1 ->
    rows_of n (loop turns ss m).2 = rows_of n m.
Proof.
  revert ss m. induction turns as [|[inp line] rest IH]; intros ss m.
  - split; [apply same_settings_refl|]. split; reflexivity.
  - cbn [loop]. destruct (loop_step inp line ss m) as [[ss1 m1]|] eqn:Hstep.
    + apply loop_step_reach in Hstep as ((Hm & Hp & Ha & Hs) & Hrows).
      destruct (IH ss1 m1) as ((Hm' & Hp' & Ha' & Hs') & Hc & Hrows').
      assert (Hcol : collection ss1 = collection ss).
      { unfold collection. rewrite Hp. reflexivity. }
      split; [repeat split; congruence|]. split; [congruence|].
      intros n Hn Hnot. rewrite Hrows'; [apply Hrows; assumption | congruence | exact Hnot].
    + split; [apply same_settings_refl|]. split; reflexivity.
Qed.

Lemma exit_line_ends_the_turn inp line ss m :
  PyStr.lower (PyStr.strip line) = "exit" \/ PyStr.lower (PyStr.strip line) = "quit" ->
  loop_step inp line ss m = None.
Proof.
  intros H. unfold loop_step, parse_line.
  destruct (String.eqb (PyStr.strip line) "") eqn:Hb.
  { apply String.eqb_eq in Hb. rewrite Hb in H. destruct H; discriminate. }
  destruct H as [-> | ->]; reflexivity.
Qed.

(** X28.  Nothing typed after "exit" or "quit" is read: the loop over a
    sequence of lines that contains such a line ends as the loop over
    the lines before it. *)
Theorem loop_reads_nothing_after_exit
    (before after : list (inputs * string)) (inp : inputs) (line : string)
    (ss : session) (m : machine) :
  PyStr.lower (PyStr.strip line) = "exit" \/ PyStr.lower (PyStr.strip line) = "quit" ->
  loop (before ++ (inp, line) :: after) ss m = loop before ss m.
Proof.
  intros Hexit. revert ss m. induction before as [|[inp0 line0] before IH]; intros ss m.
  - cbn [app loop]. rewrite (exit_line_ends_the_turn _ _ _ _ Hexit). reflexivity.
  - cbn [app loop]. destruct (loop_step inp0 line0 ss m) as [[ss1 m1]|]; [apply IH | reflexivity].
Qed.

Lemma loop_reads_nothing_after_exit_witness :
  let inp := Inputs "yes" (fun _ => Raise TypeError) "fact_1" "2024-01-01 00:00:00" in
  let ss := Sample.session_of "bb" in
  let m := Sample.synced Sample.two_facts [] in
  loop [(inp, "returns are free"); (inp, " Exit"); (inp, "-all")] ss m
  = loop [(inp, "returns are free")] ss m.
Proof.
  intros inp ss m.
  apply (loop_reads_nothing_after_exit [(inp, "returns are free")] [(inp, "-all")]
           inp " Exit" ss m).
  left. reflexivity.
Defined.

(** ** The program from its start *)

Lemma confined_open_session dont_clear ss :
  confined [collection ss] (open_session dont_clear ss).
Proof.
  apply (confined_bind_ret _ _ _ (fun a => a = collection ss)).
  - apply (confined_mono []); [intros x Hx; inversion Hx | apply confined_get_or_create].
  - intros m m' a. apply get_or_create_returns.
  - intros a ->. destruct dont_clear; cbn [negb].
    + apply confined_bind; [|intros rows; apply pure_confined, pure_ret].
      apply (confined_mono []); [intros x Hx; inversion Hx | apply confined_get].
    + apply confined_clear.
Qed.

(** X29.  A file given with [--load-file] that fails validation ends the
    program before the prompt: no line is read, whatever is typed.  The
    session's collection was opened, and cleared unless [--dont-clear],
    before the file was looked at; every other collection is as it
    was. *)
Theorem invalid_load_file_ends_the_program
    (embedding_model : string) (schemas : option (list string)) (src : string)
    (dont_clear : bool) (file_data : json) (turns : list (inputs * string))
    (m : machine) :
  structurally_invalid file_data ->
  main embedding_model schemas src dont_clear (Some file_data) turns m
  = main embedding_model schemas src dont_clear (Some file_data) [] m /\
  (forall n, n <> collection (start_session embedding_model schemas src) ->
     rows_of n (main embedding_model schemas src dont_clear (Some file_data) turns m).2
     = rows_of n m) /\
  (dont_clear = false ->
   collection (start_session embedding_model schemas src) ∉ down m ->
   rows_of (collection (start_session embedding_model schemas src))
     (main embedding_model schemas src dont_clear (Some file_data) turns m).2 = []).
Proof.
  intros Hinv. unfold main. set (ss := start_session embedding_model schemas src).
  unfold startup, bind.
  destruct (open_session dont_clear ss m) as [m1 [[]|e]] eqn:Hopen.
  - destruct (structurally_invalid_fails file_data m1 Hinv) as (evs & Hval).
    assert (Hload : startup_load dont_clear ss file_data m1
                    = add_out EvAbortImport (add_outs evs m1)).
    { unfold startup_load, try_log, load_file.
      rewrite (bind_step _ _ _ _ _ Hval). reflexivity. }
    rewrite Hval, Hload. cbn [loop snd].
    split; [reflexivity|]. split.
    + intros n Hn. apply confined_open_session in Hopen as (_ & _ & _ & Hfr).
      apply Hfr. intros Hin. apply list_elem_of_singleton in Hin. contradiction.
    + intros -> Hup. destruct (open_session_clear_run ss m Hup) as (m1' & Hrun & Hempty & _).
      rewrite Hrun in Hopen. injection Hopen as <-. exact Hempty.
  - cbn [snd]. split; [reflexivity|]. split.
    + intros n Hn. apply confined_open_session in Hopen as (_ & _ & _ & Hfr).
      apply Hfr. intros Hin. apply list_elem_of_singleton in Hin. contradiction.
    + intros -> Hup. destruct (open_session_clear_run ss m Hup) as (m1' & Hrun & _).
      rewrite Hrun in Hopen. discriminate.
Qed.

Lemma invalid_load_file_ends_the_program_witness :
  let inp := Inputs "yes" (fun _ => Raise TypeError) "fact_1" "2024-01-01 00:00:00" in
  main "e5" None "cli" false (Some (JList [])) [(inp, "returns are free")]
       (Sample.synced Sample.two_facts [])
  = main "e5" None "cli" false (Some (JList [])) [] (Sample.synced Sample.two_facts []).
Proof.
  intros inp.
  refine (proj1 (invalid_load_file_ends_the_program "e5" None "cli" false (JList [])
                   [(inp, "returns are free")] (Sample.synced Sample.two_facts []) _)).
  left. intros entries [= <-]. reflexivity.
Defined.
